(** * py-todo-list-cli: the storage core of [todo/__init__.py]

    A shallow embedding of [TodoApp] (its JSON document backend and its
    sqlite3 backend) together with the parts of the Python runtime the
    methods lean on: dictionaries, [list.sort], [datetime.strftime] and
    [datetime.astimezone], the file system and a DB-API connection. *)

From Stdlib Require Import ZArith String Ascii List Lia Bool Sorting.Permutation.
From stdpp Require Import base option strings list gmap pretty sorting.

Local Open Scope Z_scope.
Local Open Scope string_scope.
Local Open Scope list_scope.

(** ** Python values and exceptions *)

Module Py.

(** The scalar values that occur as fields of a todo record: JSON [null],
    booleans, integers and strings.  Strings are byte strings; comparing
    them byte by byte agrees with Python's code-point order on UTF-8 text
    and with sqlite's BINARY collation. *)
Inductive pyval :=
  | PNone
  | PBool (b : bool)
  | PInt (z : Z)
  | PStr (s : string).

#[global] Instance pyval_eq_dec : EqDecision pyval.
Proof. solve_decision. Defined.

(** A Python [dict] with string keys whose key order is irrelevant. *)
Abbreviation pydict := (gmap string pyval).

Inductive exn :=
  | ValueError (msg : string)
  | KeyError (msg : string)
  | TypeError
  | OverflowError
  | AttributeError
  | JSONDecodeError
  | DatabaseError
  | OperationalError
  | ProgrammingError.

Inductive result (A : Type) :=
  | Ok (a : A)
  | Raise (e : exn).
Arguments Ok {A} a.
Arguments Raise {A} e.

Definition rbind {A B} (r : result A) (k : A -> result B) : result B :=
  match r with
  | Ok a => k a
  | Raise e => Raise e
  end.

Definition rfmap {A B} (g : A -> B) (r : result A) : result B :=
  match r with
  | Ok a => Ok (g a)
  | Raise e => Raise e
  end.

Fixpoint rmap {A B} (f : A -> result B) (l : list A) : result (list B) :=
  match l with
  | [] => Ok []
  | x :: l' =>
      rbind (f x) (fun y => rbind (rmap f l') (fun ys => Ok (y :: ys)))
  end.

(** [bool(d)] for a dict: empty dicts are falsy. *)
Definition dict_truthy (d : pydict) : bool := negb (bool_decide (d = ∅)).

(** [int(v)] of a value that takes part in a numeric comparison. *)
Definition as_number (v : pyval) : option Z :=
  match v with
  | PBool b => Some (if b then 1 else 0)
  | PInt z => Some z
  | _ => None
  end.

(** [a < b].  [None] stands for the [TypeError] Python raises when the two
    operands are not ordered against each other. *)
Definition py_lt (a b : pyval) : option bool :=
  match a, b with
  | PStr s, PStr t => Some (String.ltb s t)
  | _, _ =>
      match as_number a, as_number b with
      | Some x, Some y => Some (Z.ltb x y)
      | _, _ => None
      end
  end.

(** *** [list.sort(key=..., reverse=...)]

    The sort is stable and only ever asks [<] of two keys.  An element
    moves in front of the already sorted rest up to the first element
    that is not smaller than it. *)
Fixpoint insert_by {A} (kx : pyval * A) (l : list (pyval * A))
  : result (list (pyval * A)) :=
  match l with
  | [] => Ok [kx]
  | ky :: l' =>
      match py_lt (fst ky) (fst kx) with
      | None => Raise TypeError
      | Some false => Ok (kx :: ky :: l')
      | Some true => rbind (insert_by kx l') (fun r => Ok (ky :: r))
      end
  end.

Fixpoint stable_sort {A} (l : list (pyval * A)) : result (list (pyval * A)) :=
  match l with
  | [] => Ok []
  | kx :: l' => rbind (stable_sort l') (insert_by kx)
  end.

(** With [reverse=True] CPython reverses the list, sorts it, and reverses
    it again, so that equal keys keep their original order. *)
Definition sort {A} (key : A -> result pyval) (reverse : bool) (l : list A)
  : result (list A) :=
  rbind (rmap key l) (fun keys =>
    let keyed := zip keys l in
    if reverse
    then rbind (stable_sort (rev keyed)) (fun r => Ok (rev (map snd r)))
    else rbind (stable_sort keyed) (fun r => Ok (map snd r))).

End Py.
Export Py.

(** ** [datetime]: calendar arithmetic, [astimezone] and [strftime] *)

Module DateTime.

(** The wall-clock fields of a [datetime.datetime].  Microseconds are left
    out: zone offsets are whole seconds and the stored form stops at the
    minute, so they never reach an output. *)
Record naive := mk_naive {
  year : Z;
  month : Z;
  day : Z;
  hour : Z;
  minute : Z;
  second : Z;
}.

(** A [tzinfo] object: the key it was built from ([zoneinfo.ZoneInfo(key)])
    and its [utcoffset] method, in seconds east of UTC, as a function of the
    wall-clock fields. *)
Record tzinfo := mk_tzinfo {
  tz_key : string;
  utcoffset : naive -> Z;
}.

Record datetime := mk_datetime {
  fields : naive;
  dt_tzinfo : option tzinfo;
}.

Definition MINYEAR : Z := 1.
Definition MAXYEAR : Z := 9999.

Definition is_leap (y : Z) : bool :=
  (y mod 4 =? 0)%Z && (negb (y mod 100 =? 0)%Z || (y mod 400 =? 0)%Z).

Definition days_in_month (y m : Z) : Z :=
  if (m =? 2)%Z then (if is_leap y then 29 else 28)
  else if (m =? 4)%Z || (m =? 6)%Z || (m =? 9)%Z || (m =? 11)%Z then 30
  else 31.

(** Number of days before January 1st of year [y]. *)
Definition days_before_year (y : Z) : Z :=
  let p := y - 1 in
  p * 365 + p / 4 - p / 100 + p / 400.

(** Number of days in year [y] before the first day of month [m]. *)
Definition days_before_month (y m : Z) : Z :=
  (if (m =? 1)%Z then 0 else if (m =? 2)%Z then 31
   else if (m =? 3)%Z then 59 else if (m =? 4)%Z then 90
   else if (m =? 5)%Z then 120 else if (m =? 6)%Z then 151
   else if (m =? 7)%Z then 181 else if (m =? 8)%Z then 212
   else if (m =? 9)%Z then 243 else if (m =? 10)%Z then 273
   else if (m =? 11)%Z then 304 else 334)
  + (if (2 <? m)%Z && is_leap y then 1 else 0).

(** Proleptic Gregorian ordinal: 0001-01-01 is day 1. *)
Definition toordinal (n : naive) : Z :=
  days_before_year (year n) + days_before_month (year n) (month n) + day n.



(** The constructor's range checks. *)
Definition valid_naive (n : naive) : bool :=
  (MINYEAR <=? year n)%Z && (year n <=? MAXYEAR)%Z
  && (1 <=? month n)%Z && (month n <=? 12)%Z
  && (1 <=? day n)%Z && (day n <=? days_in_month (year n) (month n))%Z
  && (0 <=? hour n)%Z && (hour n <? 24)%Z
  && (0 <=? minute n)%Z && (minute n <? 60)%Z
  && (0 <=? second n)%Z && (second n <? 60)%Z.

(** [ZoneInfo("UTC")] is the zone that is always at offset zero. *)
Definition UTC : tzinfo := {| tz_key := "UTC"; utcoffset := fun _ => 0 |}.

(** [tz == zoneinfo.ZoneInfo("UTC")]: zone objects are cached by key. *)
Definition is_ZoneInfo_UTC (tz : tzinfo) : bool := String.eqb (tz_key tz) "UTC".

(** What Python demands of a [tzinfo]: offsets strictly inside one day;
    and the zone of key UTC is the one at offset zero. *)
Definition valid_tzinfo (tz : tzinfo) : Prop :=
  (forall n, -86400 < utcoffset tz n < 86400) /\
  (tz_key tz = "UTC" -> forall n, utcoffset tz n = 0).

Definition valid_datetime (dt : datetime) : Prop :=
  valid_naive (fields dt) = true /\
  match dt_tzinfo dt with
  | Some tz => valid_tzinfo tz
  | None => True
  end.

Definition with_date (n : naive) (y m d : Z) : naive :=
  {| year := y; month := m; day := d;
     hour := hour n; minute := minute n; second := second n |}.

Definition next_day (n : naive) : naive :=
  if (day n <? days_in_month (year n) (month n))%Z
  then with_date n (year n) (month n) (day n + 1)
  else if (month n <? 12)%Z
  then with_date n (year n) (month n + 1) 1
  else with_date n (year n + 1) 1 1.

Definition prev_day (n : naive) : naive :=
  if (1 <? day n)%Z
  then with_date n (year n) (month n) (day n - 1)
  else if (1 <? month n)%Z
  then with_date n (year n) (month n - 1) (days_in_month (year n) (month n - 1))
  else with_date n (year n - 1) 12 31.

Definition with_time (n : naive) (secs : Z) : naive :=
  {| year := year n; month := month n; day := day n;
     hour := secs / 3600; minute := (secs mod 3600) / 60; second := secs mod 60 |}.

(** [dt.astimezone(ZoneInfo("UTC"))] for an aware [dt]: the wall clock moves
    back by the zone's offset.  An offset is always strictly inside one day,
    so the date moves by at most one day either way; a result outside
    [MINYEAR..MAXYEAR] is an [OverflowError]. *)
Definition astimezone_utc (n : naive) (tz : tzinfo) : result naive :=
  let off := utcoffset tz n in
  if negb ((-86400 <? off)%Z && (off <? 86400)%Z)
  then Raise (ValueError "offset must be a timedelta strictly between -timedelta(hours=24) and timedelta(hours=24)")
  else
    let total := hour n * 3600 + minute n * 60 + second n - off in
    let carry := total / 86400 in
    let shifted :=
      if (carry <? 0)%Z then prev_day n
      else if (0 <? carry)%Z then next_day n
      else n in
    let r := with_time shifted (total mod 86400) in
    if (MINYEAR <=? year r)%Z && (year r <=? MAXYEAR)%Z
    then Ok r
    else Raise OverflowError.

(** *** [strftime("%Y-%m-%dT%H:%MZ")] *)

Definition digit (z : Z) : ascii := ascii_of_N (48 + Z.to_N z).

Definition pad2 (z : Z) (rest : string) : string :=
  String (digit (z / 10)) (String (digit (z mod 10)) rest).

Definition pad4 (z : Z) (rest : string) : string :=
  String (digit (z / 1000)) (String (digit (z / 100 mod 10))
    (String (digit (z / 10 mod 10)) (String (digit (z mod 10)) rest))).

(** [%Y]: the year in decimal as the C library writes it, without leading
    zeros, so a year below 1000 takes fewer than four characters (year 999
    gives [999], not [0999]). *)
Definition percent_Y (y : Z) (rest : string) : string :=
  if (y <? 10)%Z then String (digit y) rest
  else if (y <? 100)%Z then pad2 y rest
  else if (y <? 1000)%Z then String (digit (y / 100)) (pad2 (y mod 100) rest)
  else pad4 y rest.


Definition strftime (n : naive) : string :=
  percent_Y (year n) (String "-" (pad2 (month n) (String "-" (pad2 (day n)
    (String "T" (pad2 (hour n) (String ":" (pad2 (minute n) "Z")))))))).

(** The fixed textual pattern [YYYY-MM-DDTHH:MMZ]. *)
Definition is_digit (c : ascii) : bool :=
  (48 <=? N_of_ascii c)%N && (N_of_ascii c <=? 57)%N.


(** The day of the month of the [k]-th Sunday of month [m] in year [y],
    counting from 1.  Ordinal 1, the first of January of year 1, is a
    Monday, so Sundays are the days whose ordinal is a multiple of 7. *)
Definition nth_sunday (y m k : Z) : Z :=
  1 + (- toordinal (mk_naive y m 1 0 0 0)) mod 7 + 7 * (k - 1).

(** America/New_York under the rule in force since 2007: wall clocks from
    03:00 on the second Sunday of March up to 02:00 on the first Sunday of
    November are daylight time (UTC-4), all others standard time (UTC-5).
    A wall clock in the hour that is skipped in March counts as standard
    time and one in the hour that is repeated in November as daylight
    time, which is what [utcoffset] returns for [fold = 0].  Years before
    2007 went by other rules, which are not modelled. *)
Definition America_New_York : tzinfo :=
  {| tz_key := "America/New_York";
     utcoffset := fun n =>
       let stamp := (month n * 100 + day n) * 100 + hour n in
       let start := (300 + nth_sunday (year n) 3 2) * 100 + 3 in
       let stop := (1100 + nth_sunday (year n) 11 1) * 100 + 2 in
       if (start <=? stamp)%Z && (stamp <? stop)%Z
       then -4 * 3600 else -5 * 3600 |}.

(** [datetime.timezone(timedelta(seconds=offset))]: a fixed offset.  It is
    no [ZoneInfo] object and so never equal to [ZoneInfo("UTC")]. *)
Definition fixed_offset (offset : Z) : tzinfo :=
  {| tz_key := ""; utcoffset := fun _ => offset |}.

End DateTime.

(** ** The files a store lives in *)

Module Fs.

(** A row of [todo(name TEXT, description TEXT, done BOOLEAN, due_date TEXT)].
    [done] holds the integer the bool adapter wrote. *)
Record row := mk_row {
  r_name : string;
  r_description : string;
  r_done : Z;
  r_due_date : string;
}.

(** What a path holds: a JSON document as [json.load] returns it (an object
    of name -> record, in file order), or a database file with or without
    the [todo] table. *)
Inductive file :=
  | JsonText (doc : list (string * pydict))
  | SqliteDb (todo : option (list row)).

Abbreviation filesystem := (gmap string file).

End Fs.
Export Fs.

(** ** Insertion-ordered dictionaries ([self._todos]) *)

Module OrderedDict.

Fixpoint od_get {V} (k : string) (d : list (string * V)) : option V :=
  match d with
  | [] => None
  | (k', v) :: d' => if String.eqb k k' then Some v else od_get k d'
  end.

(** [d[k] = v]: an existing key keeps its place, a new key goes last. *)
Fixpoint od_set {V} (k : string) (v : V) (d : list (string * V))
  : list (string * V) :=
  match d with
  | [] => [(k, v)]
  | (k', v') :: d' =>
      if String.eqb k k' then (k, v) :: d' else (k', v') :: od_set k v d'
  end.

(** [del d[k]] once the key is known to be there. *)
Definition od_del {V} (k : string) (d : list (string * V)) : list (string * V) :=
  List.filter (fun kv => negb (String.eqb k (fst kv))) d.

End OrderedDict.
Export OrderedDict.

(** ** The sqlite3 driver: a connection under the default transaction control *)

Module Sqlite3.

(** [adapt_bool] and [convert_bool] of the source, registered for [bool]
    and for columns declared [BOOLEAN]. *)
Definition adapt_bool (v : bool) : Z := if v then 1 else 0.

Definition convert_bool (v : string) : bool :=
  if String.eqb v "1" then true else false.

(** [dict_factory]: later columns of the same name win. *)
Definition dict_factory (fields : list string) (row : list pyval) : pydict :=
  fold_left (fun d kv => <[fst kv := snd kv]> d) (zip fields row) ∅.

(** A connection: the file it is opened on, the table as this connection
    sees it while a transaction is pending, and whether it was closed. *)
Record Connection := mk_conn {
  database : string;
  pending : option (list row);
  closed : bool;
}.

(** The statements of [todo/sql/sqlite3] and the two inline probes. *)
Inductive statement :=
  | SELECT_TABLE_CHECK
  | SELECT_HAS_TODO (name : string)
  | INSERT_TODO_ITEM (name description due_date : string) (done : bool)
  | UPDATE_TODO_DONE (done : bool) (name : string)
  | DELETE_TODO_ITEM (name : string)
  | SELECT_ALL_TODO_ITEMS (order_by direction : string).

(** [sqlite3.connect]: a missing file is created empty. *)
Definition connect (path : string) (fs : filesystem) : Connection * filesystem :=
  ({| database := path; pending := None; closed := false |},
   match fs !! path with
   | Some _ => fs
   | None => <[path := SqliteDb None]> fs
   end).

(** The [todo] table as the connection sees it. *)
Definition visible (c : Connection) (fs : filesystem) : result (list row) :=
  if closed c then Raise ProgrammingError
  else match pending c with
       | Some rows => Ok rows
       | None =>
           match fs !! database c with
           | Some (SqliteDb (Some rows)) => Ok rows
           | Some (SqliteDb None) => Raise OperationalError
           | Some (JsonText _) => Raise DatabaseError
           | None => Raise OperationalError
           end
       end.

Definition column (name : string) (r : row) : pyval :=
  if String.eqb name "name" then PStr (r_name r)
  else if String.eqb name "description" then PStr (r_description r)
  else if String.eqb name "due_date" then PStr (r_due_date r)
  else PInt (r_done r).

(** [ORDER BY col ASC|DESC].  Rows that tie are returned in rowid order,
    which is what the test-suite expects of either direction. *)
Definition order_by (col direction : string) (rows : list row) : result (list row) :=
  sort (fun r => Ok (column col r)) (String.eqb direction "DESC") rows.

(** One fetched row of [SELECT name, description, due_date, done], with the
    converter applied to the [BOOLEAN] column and the row factory on top. *)
Definition fetch (r : row) : pydict :=
  dict_factory ["name"; "description"; "due_date"; "done"]
    [PStr (r_name r); PStr (r_description r); PStr (r_due_date r);
     PBool (convert_bool (pretty (r_done r)))].

Definition set_done (v : Z) (name : string) (r : row) : row :=
  if String.eqb (r_name r) name
  then {| r_name := r_name r; r_description := r_description r;
          r_done := v; r_due_date := r_due_date r |}
  else r.

(** A data-modifying statement opens a transaction if none is pending and
    works on the pending table; nothing reaches the file before a commit. *)
Definition modify (f : list row -> list row) (c : Connection) (fs : filesystem)
  : result (list pydict) * Connection * filesystem :=
  match visible c fs with
  | Ok rows =>
      (Ok [], {| database := database c; pending := Some (f rows);
                 closed := closed c |}, fs)
  | Raise e => (Raise e, c, fs)
  end.

Definition query (f : list row -> result (list pydict)) (c : Connection)
  (fs : filesystem) : result (list pydict) * Connection * filesystem :=
  (rbind (visible c fs) f, c, fs).

(** [conn.execute(stmt, params)], returning what the cursor holds. *)
Definition execute (s : statement) (c : Connection) (fs : filesystem)
  : result (list pydict) * Connection * filesystem :=
  match s with
  | SELECT_TABLE_CHECK =>
      (if closed c then Raise ProgrammingError
       else match fs !! database c with
            | Some (SqliteDb (Some _)) => Ok [{[ "1" := PInt 1 ]}]
            | Some (SqliteDb None) => Ok []
            | Some (JsonText _) => Raise DatabaseError
            | None => Ok []
            end, c, fs)
  | SELECT_HAS_TODO name =>
      query (fun rows =>
        Ok (map (fun _ => {[ "1" := PInt 1 ]})
              (List.filter (fun r => String.eqb (r_name r) name) rows))) c fs
  | INSERT_TODO_ITEM name description due_date done =>
      modify (fun rows =>
        rows ++ [ {| r_name := name; r_description := description;
                     r_done := adapt_bool done; r_due_date := due_date |} ]) c fs
  | UPDATE_TODO_DONE done name =>
      modify (map (set_done (adapt_bool done) name)) c fs
  | DELETE_TODO_ITEM name =>
      modify (List.filter (fun r => negb (String.eqb (r_name r) name))) c fs
  | SELECT_ALL_TODO_ITEMS col direction =>
      query (fun rows =>
        rbind (order_by col direction rows) (fun l => Ok (map fetch l))) c fs
  end.

Definition fetchone (rows : list pydict) : option pydict := head rows.

(** [conn.commit()], which [executescript] issues first. *)
Definition commit (c : Connection) (fs : filesystem) : Connection * filesystem :=
  match pending c with
  | Some rows =>
      ({| database := database c; pending := None; closed := closed c |},
       <[database c := SqliteDb (Some rows)]> fs)
  | None => (c, fs)
  end.

(** [conn.executescript(CREATE_TODO_TABLE)]: commits, then runs the DDL
    outside any transaction. *)
Definition executescript_CREATE_TODO_TABLE (c : Connection) (fs : filesystem)
  : result unit * Connection * filesystem :=
  if closed c then (Raise ProgrammingError, c, fs)
  else
    let '(c1, fs1) := commit c fs in
    match fs1 !! database c1 with
    | Some (SqliteDb (Some _)) => (Raise OperationalError, c1, fs1)
    | Some (JsonText _) => (Raise DatabaseError, c1, fs1)
    | _ => (Ok tt, c1, <[database c1 := SqliteDb (Some [])]> fs1)
    end.

(** [conn.close()]: a pending transaction is not committed. *)
Definition close (c : Connection) : Connection :=
  {| database := database c; pending := None; closed := true |}.

End Sqlite3.

(** ** [class TodoApp] *)

Module Todo.
Import DateTime Sqlite3.

Record TodoApp := mk_app {
  db : string;
  db_type : string;
  _todos : list (string * pydict);
  _conn : option Connection;
}.

(** [TodoApp(db, db_type)] *)
Definition __init__ (db db_type : string) : TodoApp :=
  {| db := db; db_type := db_type; _todos := []; _conn := None |}.

Definition set_todos (self : TodoApp) (d : list (string * pydict)) : TodoApp :=
  {| db := db self; db_type := db_type self; _todos := d; _conn := _conn self |}.

Definition set_conn (self : TodoApp) (c : Connection) : TodoApp :=
  {| db := db self; db_type := db_type self; _todos := _todos self;
     _conn := Some c |}.

(** A method runs on the object and the file system and hands both back,
    together with its return value or the exception it raised. *)
Definition M (A : Type) : Type :=
  TodoApp -> filesystem -> result A * TodoApp * filesystem.

#[global] Instance M_ret : MRet M := fun _ a self fs => (Ok a, self, fs).
#[global] Instance M_bind : MBind M := fun _ _ k m self fs =>
  match m self fs with
  | (Ok a, self', fs') => k a self' fs'
  | (Raise e, self', fs') => (Raise e, self', fs')
  end.

Definition raise {A} (e : exn) : M A := fun self fs => (Raise e, self, fs).

(** [self._conn.execute(stmt, params)] *)
Definition conn_execute (s : statement) : M (list pydict) := fun self fs =>
  match _conn self with
  | None => (Raise AttributeError, self, fs)
  | Some c =>
      let '(r, c', fs') := execute s c fs in (r, set_conn self c', fs')
  end.

(** [TodoApp.load].  For json a missing file is fine ([FileNotFoundError]
    is swallowed); for sqlite3 the file is opened or created and the table
    is made if [sqlite_master] does not list it. *)
Definition load : M unit := fun self fs =>
  if String.eqb (db_type self) "json" then
    match fs !! db self with
    | Some (JsonText doc) => (Ok tt, set_todos self doc, fs)
    | Some (SqliteDb _) => (Raise JSONDecodeError, self, fs)
    | None => (Ok tt, self, fs)
    end
  else if String.eqb (db_type self) "sqlite3" then
    let '(c, fs1) := connect (db self) fs in
    let self1 := set_conn self c in
    match execute SELECT_TABLE_CHECK c fs1 with
    | (Ok table_check, c2, fs2) =>
        match fetchone table_check with
        | None =>
            let '(r, c3, fs3) := executescript_CREATE_TODO_TABLE c2 fs2 in
            (r, set_conn self1 c3, fs3)
        | Some _ => (Ok tt, set_conn self1 c2, fs2)
        end
    | (Raise e, c2, fs2) => (Raise e, set_conn self1 c2, fs2)
    end
  else
    (Raise (ValueError "only json or sqlite3 are supported database file types"),
     self, fs).

(** [json.dump(self._todos, f)] into a file opened for writing. *)
Definition save : M unit := fun self fs =>
  if String.eqb (db_type self) "json"
  then (Ok tt, self, <[db self := JsonText (_todos self)]> fs)
  else (Ok tt, self, fs).

(** [TodoApp.close]: [save] for json, [self._conn.close()] for sqlite3. *)
Definition close : M unit := fun self fs =>
  if String.eqb (db_type self) "json" then save self fs
  else if String.eqb (db_type self) "sqlite3" then
    match _conn self with
    | Some c => (Ok tt, set_conn self (Sqlite3.close c), fs)
    | None => (Raise AttributeError, self, fs)
    end
  else (Ok tt, self, fs).

Definition sort_fields : list string := ["name"; "description"; "done"; "due_date"].
Definition sort_orders : list string := ["asc"; "desc"].

Definition is_in (s : string) (l : list string) : bool := existsb (String.eqb s) l.

(** [todo = {"name": k, "due_date": "", "done": False}; todo.update(rec)] *)
Definition materialize (kv : string * pydict) : pydict :=
  snd kv ∪ {[ "name" := PStr (fst kv); "due_date" := PStr ""; "done" := PBool false ]}.

(** [x[sort_by]] *)
Definition getitem (k : string) (x : pydict) : result pyval :=
  match x !! k with
  | Some v => Ok v
  | None => Raise (KeyError k)
  end.

(** [TodoApp.list].  Both arguments are checked before any data is
    touched; [sort_order.lower()] is [sort_order] itself once it passed. *)
Definition list_ (sort_by sort_order : string) : M (list pydict) := fun self fs =>
  if negb (is_in sort_by sort_fields) then
    (Raise (ValueError "Invalid sort by, valid values are: [description, done, due_date, name]"),
     self, fs)
  else if negb (is_in sort_order sort_orders) then
    (Raise (ValueError "Invalid order by, valid values are: [asc, desc]"), self, fs)
  else if String.eqb (db_type self) "json" then
    (sort (getitem sort_by) (String.eqb sort_order "desc")
       (map materialize (_todos self)), self, fs)
  else if String.eqb (db_type self) "sqlite3" then
    let sql_sort_by := if is_in sort_by sort_fields then sort_by else "name" in
    let sql_sort_order := if String.eqb sort_order "desc" then "DESC" else "ASC" in
    conn_execute (SELECT_ALL_TODO_ITEMS sql_sort_by sql_sort_order) self fs
  else (Ok [], self, fs).

(** The first lines of [add]: the due date as it will be stored.  A
    [datetime] is always truthy, so [if due_date:] only tells [None] apart. *)
Definition due_date_str (due_date : option datetime) : result string :=
  match due_date with
  | None => Ok ""
  | Some dt =>
      match dt_tzinfo dt with
      | Some tz =>
          if is_ZoneInfo_UTC tz then Ok (strftime (fields dt))
          else rbind (astimezone_utc (fields dt) tz) (fun u => Ok (strftime u))
      | None => Ok (strftime (fields dt))
      end
  end.

Definition duplicate_name : exn :=
  ValueError "A Todo item with the requested name already exists".

(** [TodoApp.add].  The existence test is the truth value of what the
    lookup returned. *)
Definition add (name description : string) (due_date : option datetime) : M unit :=
  fun self fs =>
  match due_date_str due_date with
  | Raise e => (Raise e, self, fs)
  | Ok due =>
      if String.eqb (db_type self) "json" then
        if match od_get name (_todos self) with
           | Some r => dict_truthy r
           | None => false
           end
        then (Raise duplicate_name, self, fs)
        else
          (Ok tt,
           set_todos self
             (od_set name
                {[ "description" := PStr description; "due_date" := PStr due;
                   "done" := PBool false ]} (_todos self)), fs)
      else if String.eqb (db_type self) "sqlite3" then
        (has_todo_res ← conn_execute (SELECT_HAS_TODO name);
         match fetchone has_todo_res with
         | Some r =>
             if dict_truthy r then raise duplicate_name
             else _ ← conn_execute (INSERT_TODO_ITEM name description due false);
                  mret tt
         | None =>
             _ ← conn_execute (INSERT_TODO_ITEM name description due false);
             mret tt
         end) self fs
      else (Ok tt, self, fs)
  end.

(** [TodoApp.remove]: [del self._todos[name]], or an unconditional DELETE. *)
Definition remove (name : string) : M unit := fun self fs =>
  if String.eqb (db_type self) "json" then
    match od_get name (_todos self) with
    | Some _ => (Ok tt, set_todos self (od_del name (_todos self)), fs)
    | None => (Raise (KeyError name), self, fs)
    end
  else if String.eqb (db_type self) "sqlite3" then
    (_ ← conn_execute (DELETE_TODO_ITEM name); mret tt) self fs
  else (Ok tt, self, fs).

Definition not_found : exn :=
  KeyError "A Todo item with the requested name does not exist".

(** [TodoApp.done].  Here the existence test is [is None]. *)
Definition done (name : string) : M unit := fun self fs =>
  if String.eqb (db_type self) "json" then
    match od_get name (_todos self) with
    | None => (Raise not_found, self, fs)
    | Some r =>
        (Ok tt, set_todos self (od_set name (<["done" := PBool true]> r) (_todos self)), fs)
    end
  else if String.eqb (db_type self) "sqlite3" then
    (has_todo_res ← conn_execute (SELECT_HAS_TODO name);
     match fetchone has_todo_res with
     | None => raise not_found
     | Some _ => _ ← conn_execute (UPDATE_TODO_DONE true name); mret tt
     end) self fs
  else (Ok tt, self, fs).

End Todo.

(** ** Dict objects and references

    The methods above work on values.  Python hands dicts around by
    reference; this layer puts the record dicts in a heap, so that what
    [list] returns can be told apart from what the store holds. *)

Module Aliasing.
Import Sqlite3 Todo.

Abbreviation ref := nat.
Abbreviation heap := (list pydict).

(** The dict a reference points to. *)
Definition deref (h : heap) (r : ref) : pydict := default ∅ (h !! r).

(** A new dict object. *)
Definition alloc (d : pydict) (h : heap) : ref * heap := (length h, h ++ [d]).

(** [obj.update(other)] *)
Definition update (obj : ref) (other : pydict) (h : heap) : heap :=
  alter (fun d => other ∪ d) obj h.

(** [obj[k] = v] *)
Definition setitem (obj : ref) (k : string) (v : pyval) (h : heap) : heap :=
  alter (fun d => <[k := v]> d) obj h.

(** A [TodoApp] object whose [_todos] maps each name to a record object. *)
Record Object := mk_object {
  o_db : string;
  o_db_type : string;
  o_todos : list (string * ref);
  o_conn : option Connection;
}.

Definition deref_todos (h : heap) (todos : list (string * ref))
  : option (list (string * pydict)) :=
  mapM (fun kr => d ← h !! snd kr; Some (fst kr, d)) todos.

(** The [TodoApp] value an object stands for in a heap. *)
Definition value (o : Object) (h : heap) : option TodoApp :=
  d ← deref_todos h (o_todos o);
  Some {| db := o_db o; db_type := o_db_type o; _todos := d; _conn := o_conn o |}.

(** The loop of [list]: one new dict per key, filled from the stored one. *)
Fixpoint build (todos : list (string * ref)) (h : heap) : result (list ref) * heap :=
  match todos with
  | [] => (Ok [], h)
  | (k, r) :: rest =>
      let '(todo, h1) :=
        alloc {[ "name" := PStr k; "due_date" := PStr ""; "done" := PBool false ]} h in
      let h2 := update todo (deref h1 r) h1 in
      let '(res, h3) := build rest h2 in
      (rbind res (fun l => Ok (todo :: l)), h3)
  end.

(** [fetchall()]: the row factory makes a new dict per row. *)
Fixpoint alloc_all (ds : list pydict) (h : heap) : list ref * heap :=
  match ds with
  | [] => ([], h)
  | d :: ds' =>
      let '(r, h1) := alloc d h in
      let '(rs, h2) := alloc_all ds' h1 in
      (r :: rs, h2)
  end.

Definition set_o_conn (o : Object) (c : Connection) : Object :=
  {| o_db := o_db o; o_db_type := o_db_type o; o_todos := o_todos o;
     o_conn := Some c |}.

(** [TodoApp.list] returning references to the dicts it made. *)
Definition list_ref (sort_by sort_order : string) (o : Object)
  (fs : filesystem) (h : heap) : result (list ref) * Object * filesystem * heap :=
  if negb (is_in sort_by sort_fields) then
    (Raise (ValueError "Invalid sort by, valid values are: [description, done, due_date, name]"),
     o, fs, h)
  else if negb (is_in sort_order sort_orders) then
    (Raise (ValueError "Invalid order by, valid values are: [asc, desc]"), o, fs, h)
  else if String.eqb (o_db_type o) "json" then
    let '(res, h') := build (o_todos o) h in
    (rbind res (sort (fun r => getitem sort_by (deref h' r))
                     (String.eqb sort_order "desc")), o, fs, h')
  else if String.eqb (o_db_type o) "sqlite3" then
    let sql_sort_by := if is_in sort_by sort_fields then sort_by else "name" in
    let sql_sort_order := if String.eqb sort_order "desc" then "DESC" else "ASC" in
    match o_conn o with
    | None => (Raise AttributeError, o, fs, h)
    | Some c =>
        match execute (SELECT_ALL_TODO_ITEMS sql_sort_by sql_sort_order) c fs with
        | (Ok ds, c', fs') =>
            let '(refs, h') := alloc_all ds h in (Ok refs, set_o_conn o c', fs', h')
        | (Raise e, c', fs') => (Raise e, set_o_conn o c', fs', h)
        end
    end
  else (Ok [], o, fs, h).

End Aliasing.

(** ** Vocabulary of the statements *)

Module Spec.
Import DateTime Sqlite3 Todo.

Definition is_str (v : pyval) : bool :=
  match v with PStr _ => true | _ => false end.

Definition is_num (v : pyval) : bool :=
  match v with PBool _ | PInt _ => true | _ => false end.

(** Keys of one kind are ordered against each other. *)
Definition one_kind (keys : list pyval) : Prop :=
  Forall (fun k => is_str k = true) keys \/ Forall (fun k => is_num k = true) keys.

(** [a <= b] in the sense the sort uses: [b < a] is false. *)
Definition py_le (a b : pyval) : Prop := py_lt b a = Some false.

(** Order of two list elements under a key function that may raise. *)
Definition key_le {A} (key : A -> result pyval) (x y : A) : Prop :=
  exists kx ky, key x = Ok kx /\ key y = Ok ky /\ py_le kx ky.

(** A record of the document format: a description, and optionally a due
    date and a done flag, each of its own type; the name is the key and
    not a field. *)
Definition record_ok (r : pydict) : bool :=
  match r !! "description" with Some (PStr _) => true | _ => false end
  && match r !! "due_date" with None | Some (PStr _) => true | _ => false end
  && match r !! "done" with None | Some (PBool _) => true | _ => false end
  && match r !! "name" with None => true | _ => false end.

Definition records_ok (d : list (string * pydict)) : bool :=
  forallb (fun kv => record_ok (snd kv)) d.

(** [self._todos] as a dict holds: well-formed records under distinct keys. *)
Definition todos_ok (d : list (string * pydict)) : bool :=
  records_ok d && bool_decide (NoDup (map fst d)).

(** A store ready for use: a document store whose records are well formed,
    or a relational store whose connection is open on a file with the
    [todo] table. *)
Definition is_store (self : TodoApp) (fs : filesystem) : Prop :=
  (db_type self = "json" /\ todos_ok (_todos self) = true) \/
  (db_type self = "sqlite3" /\
   exists c rows, _conn self = Some c /\ visible c fs = Ok rows).

(** The items of a store in storage order, as [list] shows them. *)
Definition items (self : TodoApp) (fs : filesystem) : list pydict :=
  if String.eqb (db_type self) "json" then map materialize (_todos self)
  else if String.eqb (db_type self) "sqlite3" then
    match _conn self with
    | Some c => match visible c fs with
                | Ok rows => map fetch rows
                | Raise _ => []
                end
    | None => []
    end
  else [].

Definition has_name (name : string) (x : pydict) : bool :=
  bool_decide (x !! "name" = Some (PStr name)).

Definition name_exists (name : string) (self : TodoApp) (fs : filesystem) : bool :=
  existsb (has_name name) (items self fs).


(** The fixture of the test-suite, as a document and as a table. *)
Definition test_todos : list (string * pydict) :=
  [("Todo 1", {[ "description" := PStr "This is a description of Todo 1";
                 "due_date" := PStr "2024-10-10T17:00Z" ]});
   ("Todo 2", {[ "description" := PStr "this is a description of Todo 2";
                 "done" := PBool true ]});
   ("Todo 3", {[ "description" := PStr "This is a description of Todo 3";
                 "due_date" := PStr "2024-10-08T14:00Z" ]});
   ("Todo 4", {[ "description" := PStr "This is a description of Todo 4";
                 "due_date" := PStr "2024-10-20T22:00Z" ]})].

Definition test_rows : list row :=
  [mk_row "Todo 1" "This is a description of Todo 1" 0 "2024-10-10T17:00Z";
   mk_row "Todo 2" "this is a description of Todo 2" 1 "";
   mk_row "Todo 3" "This is a description of Todo 3" 0 "2024-10-08T14:00Z";
   mk_row "Todo 4" "This is a description of Todo 4" 0 "2024-10-20T22:00Z"].

Definition test_files : filesystem :=
  {[ "todos.json" := JsonText test_todos; "todos.sqlite3" := SqliteDb (Some test_rows) ]}.

(** The object and the file system once [TodoApp(db, db_type).load()] ran. *)
Definition loaded (db db_type : string) (fs : filesystem) : TodoApp * filesystem :=
  let '(_, self, fs') := load (__init__ db db_type) fs in (self, fs').

Definition json_fixture : TodoApp * filesystem := loaded "todos.json" "json" test_files.
Definition sqlite_fixture : TodoApp * filesystem :=
  loaded "todos.sqlite3" "sqlite3" test_files.

(** [close()], then a fresh [TodoApp] on the same file, loaded. *)
Definition reopened (st : TodoApp * filesystem) : result unit * (TodoApp * filesystem) :=
  let '(r, self, fs) := close (fst st) (snd st) in
  (r, loaded (db self) (db_type self) fs).

(** The names [list] returns, in order. *)
Definition listed_names (sort_by sort_order : string) (st : TodoApp * filesystem)
  : result (list (option pyval)) :=
  match list_ sort_by sort_order (fst st) (snd st) with
  | (Ok l, _, _) => Ok (map (fun x : pydict => x !! "name") l)
  | (Raise e, _, _) => Raise e
  end.

(** [datetime(1, 1, 1, 0, 0, tzinfo=timezone(timedelta(hours=5)))]: the
    first representable minute, on a clock five hours ahead of UTC. *)
Definition first_minute_east : datetime :=
  mk_datetime (mk_naive 1 1 1 0 0 0) (Some (fixed_offset 18000)).



(** The connection after a write: the change sits in its pending transaction. *)
Definition write (f : list row -> list row) (c : Connection) (rows : list row)
  : Connection :=
  {| database := database c; pending := Some (f rows); closed := closed c |}.

(** Calls a session makes between [load] and [close]. *)
Inductive op :=
  | Add (name description : string) (due_date : option datetime)
  | Remove (name : string)
  | MarkDone (name : string).

Definition call (o : op) : M unit :=
  match o with
  | Add name description due_date => add name description due_date
  | Remove name => remove name
  | MarkDone name => done name
  end.

(** Runs the calls in order; a call that raises is caught and the session
    goes on from the state it left. *)
Fixpoint session (ops : list op) (self : TodoApp) (fs : filesystem)
  : TodoApp * filesystem :=
  match ops with
  | [] => (self, fs)
  | o :: ops' => let '(_, self', fs') := call o self fs in session ops' self' fs'
  end.

End Spec.

(** ** [main_cli], from the parsed arguments on

    [argparse], [zoneinfo], [strptime], [astimezone] to a zone other than
    UTC and the length of a string in code points belong to the Python
    runtime; [main_cli] is modelled over any functions that stand for them,
    and what is proved of it holds whatever they are. *)

Module Cli.
Import DateTime Sqlite3 Todo.

#[global] Instance result_ret : MRet result := fun _ a => Ok a.
#[global] Instance result_bind : MBind result := fun _ _ k r => rbind r k.

(** What [parse_args] returns.  [arg_command] is [None] when no subcommand
    was given; a field that the chosen subcommand does not define is never
    read. *)
Record Namespace := mk_args {
  arg_command : option string;
  arg_name : string;
  arg_description : string;
  arg_due_date : string;
  arg_sort_by : string;
  arg_sort_order : string;
  arg_db : string;
  arg_db_type : string;
  arg_timezone : string;
}.

(** [str(v)], as [print] shows a value. *)
Definition str_ (v : pyval) : string :=
  match v with
  | PNone => "None"
  | PBool true => "True"
  | PBool false => "False"
  | PInt z => pretty z
  | PStr s => s
  end.

(** The argument of [strptime] has to be a string. *)
Definition as_str (v : pyval) : result string :=
  match v with
  | PStr s => Ok s
  | _ => Raise TypeError
  end.

Fixpoint spaces (n : nat) : string :=
  match n with
  | O => ""
  | S n' => String " " (spaces n')
  end.

(** [strftime("%Y-%m-%dT%H:%M")] followed by [suffix]. *)
Definition strftime_minutes (n : naive) (suffix : string) : string :=
  percent_Y (year n) (String "-" (pad2 (month n) (String "-" (pad2 (day n)
    (String "T" (pad2 (hour n) (String ":" (pad2 (minute n) suffix)))))))).

(** [%z]: sign, hours and minutes of the offset, and its seconds if any;
    empty for a naive datetime. *)
Definition percent_z (dt : datetime) : string :=
  match dt_tzinfo dt with
  | None => ""
  | Some tz =>
      let off := utcoffset tz (fields dt) in
      let a := Z.abs off in
      String (if (off <? 0)%Z then "-" else "+")
        (pad2 (a / 3600) (pad2 (a mod 3600 / 60)
           (if (a mod 60 =? 0)%Z then "" else pad2 (a mod 60) "")))
  end.

(** [dt.strftime("%Y-%m-%dT%H:%M%z")] *)
Definition strftime_z (dt : datetime) : string :=
  strftime_minutes (fields dt) (percent_z dt).

(** [print(a, b, c, d, sep="  ")] *)
Definition print (args : list string) (stdout : list string) : list string :=
  stdout ++ [String.concat "  " args].

(** What [main_cli] asks of the runtime: [zoneinfo.ZoneInfo(key)],
    [datetime.datetime.strptime(data, format)], [dt.astimezone(tz)] for an
    aware [dt], and [len(s)] of a string. *)
Class Runtime := {
  ZoneInfo : string -> result tzinfo;
  strptime : string -> string -> result naive;
  astimezone : datetime -> tzinfo -> result datetime;
  len : string -> nat;
}.

Section WithRuntime.
Context `{Runtime}.

(** [len(v)] *)
Definition len_ (v : pyval) : result nat :=
  match v with
  | PStr s => Ok (len s)
  | _ => Raise TypeError
  end.

(** [v.ljust(width)] *)
Definition ljust (v : pyval) (width : nat) : result string :=
  match v with
  | PStr s => Ok (String.append s (spaces (width - len s)))
  | _ => Raise AttributeError
  end.

(** The due date of the [add] command: parsed in the requested zone when
    one was given. *)
Definition parse_due_date (tz : tzinfo) (s : string) : result (option datetime) :=
  if String.eqb s "" then Ok None
  else n ← strptime s "%Y-%m-%dT%H:%M"; Ok (Some (mk_datetime n (Some tz))).

(** One round of the first loop of the [list] command: the due date is
    rewritten into the requested zone and the column widths are raised. *)
Definition display_step (tz : tzinfo) (todo : pydict) (maxes : nat * nat * nat)
  : result (pydict * (nat * nat * nat)) :=
  v ← getitem "due_date" todo;
  s ← as_str v;
  n ← strptime s "%Y-%m-%dT%H:%MZ";
  utc ← ZoneInfo "UTC";
  d ← astimezone (mk_datetime n (Some utc)) tz;
  let todo' := <["due_date" := PStr (strftime_z d)]> todo in
  name_len ← (getitem "name" todo' ≫= len_);
  description_len ← (getitem "description" todo' ≫= len_);
  due_date_len ← (getitem "due_date" todo' ≫= len_);
  let '(name_max, description_max, due_date_max) := maxes in
  Ok (todo',
      (if (name_max <? name_len)%nat then name_len else name_max,
       if (description_max <? description_len)%nat then description_len
       else description_max,
       if (due_date_max <? due_date_len)%nat then due_date_len else due_date_max)).

Fixpoint display_loop (tz : tzinfo) (todos : list pydict) (maxes : nat * nat * nat)
  : result (list pydict * (nat * nat * nat)) :=
  match todos with
  | [] => Ok ([], maxes)
  | todo :: rest =>
      r ← display_step tz todo maxes;
      r' ← display_loop tz rest (snd r);
      Ok (fst r :: fst r', snd r')
  end.

(** One line of the table. *)
Definition row_line (todo : pydict) (maxes : nat * nat * nat) : result string :=
  let '(name_max, description_max, due_date_max) := maxes in
  a ← (getitem "name" todo ≫= fun v => ljust v name_max);
  b ← (getitem "description" todo ≫= fun v => ljust v description_max);
  c ← (getitem "due_date" todo ≫= fun v => ljust v due_date_max);
  d ← getitem "done" todo;
  Ok (String.concat "  " [a; b; c; str_ d]).

(** The second loop: rows are printed one by one. *)
Fixpoint print_rows (todos : list pydict) (maxes : nat * nat * nat)
  (stdout : list string) : result unit * list string :=
  match todos with
  | [] => (Ok tt, stdout)
  | todo :: rest =>
      match row_line todo maxes with
      | Ok line => print_rows rest maxes (stdout ++ [line])
      | Raise e => (Raise e, stdout)
      end
  end.

(** The body of the [list] command once [app.list] returned [todos]. *)
Definition show (tz : tzinfo) (todos : list pydict) (stdout : list string)
  : result unit * list string :=
  match todos with
  | [] => (Ok tt, stdout)
  | _ =>
      match display_loop tz todos (len "name", len "description", len "due date") with
      | Raise e => (Raise e, stdout)
      | Ok (todos', maxes) =>
          let '(name_max, description_max, due_date_max) := maxes in
          match ljust (PStr "Name") name_max,
                ljust (PStr "Description") description_max,
                ljust (PStr "Due Date") due_date_max with
          | Ok name_header, Ok description_header, Ok due_date_header =>
              print_rows todos' maxes
                (print [name_header; description_header; due_date_header; "Done"]
                   stdout)
          | _, _, _ => (Raise AttributeError, stdout)
          end
      end
  end.

(** The command branch of [main_cli], on the loaded [app]. *)
Definition run_command (args : Namespace) (tz : tzinfo) (app : TodoApp)
  (fs : filesystem) (stdout : list string)
  : result unit * TodoApp * filesystem * list string :=
  match arg_command args with
  | None => (Ok tt, app, fs, stdout)
  | Some command =>
      if String.eqb command "add" then
        match parse_due_date tz (arg_due_date args) with
        | Raise e => (Raise e, app, fs, stdout)
        | Ok due_date =>
            let '(r, app', fs') :=
              add (arg_name args) (arg_description args) due_date app fs in
            (r, app', fs', stdout)
        end
      else if String.eqb command "done" then
        let '(r, app', fs') := done (arg_name args) app fs in (r, app', fs', stdout)
      else if String.eqb command "list" then
        match list_ (arg_sort_by args) (arg_sort_order args) app fs with
        | (Raise e, app', fs') => (Raise e, app', fs', stdout)
        | (Ok todos, app', fs') =>
            let '(r, stdout') := show tz todos stdout in (r, app', fs', stdout')
        end
      else if String.eqb command "rm" then
        let '(r, app', fs') := remove (arg_name args) app fs in (r, app', fs', stdout)
      else (Ok tt, app, fs, stdout)
  end.

(** [main_cli] after [parse_args]: an exception leaves by the first [Raise]
    and skips everything after it, [app.close()] included. *)
Definition main_cli (args : Namespace) (fs : filesystem) (stdout : list string)
  : result unit * filesystem * list string :=
  match ZoneInfo (arg_timezone args) with
  | Raise e => (Raise e, fs, stdout)
  | Ok tz =>
      match load (__init__ (arg_db args) (arg_db_type args)) fs with
      | (Raise e, _, fs1) => (Raise e, fs1, stdout)
      | (Ok _, app, fs1) =>
          match run_command args tz app fs1 stdout with
          | (Raise e, _, fs2, stdout2) => (Raise e, fs2, stdout2)
          | (Ok _, app2, fs2, stdout2) =>
              let '(r, _, fs3) := close app2 fs2 in (r, fs3, stdout2)
          end
      end
  end.

(** *** The table as a function of the listed items

    What the [list] command is to print, written without the loops: the
    cells of every row, the width of every column, and the lines. *)

(** The four cells of a row. *)
Record cells := mk_cells {
  c_name : string;
  c_description : string;
  c_due_date : string;
  c_done : pyval;
}.

(** An item is shown by the cells that hold its name, its description, its
    stored due date read as UTC and written in the zone [tz], and its flag. *)
Definition shows (tz : tzinfo) (x : pydict) (c : cells) : Prop :=
  x !! "name" = Some (PStr (c_name c)) /\
  x !! "description" = Some (PStr (c_description c)) /\
  x !! "done" = Some (c_done c) /\
  exists s n utc d,
    x !! "due_date" = Some (PStr s) /\
    strptime s "%Y-%m-%dT%H:%MZ" = Ok n /\
    ZoneInfo "UTC" = Ok utc /\
    astimezone (mk_datetime n (Some utc)) tz = Ok d /\
    c_due_date c = strftime_z d.

(** A column is as wide as its widest cell, and at least as wide as the
    word its width starts from. *)
Definition column_width (word : string) (column : list string) : nat :=
  foldr Nat.max (len word) (map len column).

(** A cell, filled up with spaces on the right. *)
Definition pad (s : string) (width : nat) : string :=
  String.append s (spaces (width - len s)).

Definition table_line (widths : nat * nat * nat) (a b c d : string) : string :=
  let '(name_max, description_max, due_date_max) := widths in
  String.concat "  " [pad a name_max; pad b description_max; pad c due_date_max; d].

(** The header, then one line for every row. *)
Definition table (rows : list cells) : list string :=
  let widths := (column_width "name" (map c_name rows),
                 column_width "description" (map c_description rows),
                 column_width "due date" (map c_due_date rows)) in
  table_line widths "Name" "Description" "Due Date" "Done"
  :: map (fun c => table_line widths (c_name c) (c_description c) (c_due_date c)
                     (str_ (c_done c))) rows.

End WithRuntime.

(** *** One runtime, for running examples

    Two zones, the padded ASCII forms of the two formats, conversion to a
    zone by the offset it has at the converted wall clock, and strings
    counted in bytes. *)

Definition example_ZoneInfo (key : string) : result tzinfo :=
  if String.eqb key "UTC" then Ok UTC
  else if String.eqb key "America/New_York" then Ok America_New_York
  else Raise (KeyError key).

Definition digit_value (c : ascii) : option Z :=
  if is_digit c then Some (Z.of_N (N_of_ascii c) - 48) else None.

Definition number (cs : list ascii) : option Z :=
  foldl (fun acc c => a ← acc; d ← digit_value c; Some (a * 10 + d)) (Some 0) cs.

Definition example_strptime (data format : string) : result naive :=
  let bad := Raise (ValueError "time data does not match format") in
  match list_ascii_of_string data with
  | y1 :: y2 :: y3 :: y4 :: s1 :: m1 :: m2 :: s2 :: d1 :: d2 :: s3 :: h1 :: h2
    :: s4 :: n1 :: n2 :: rest =>
      if Ascii.eqb s1 "-" && Ascii.eqb s2 "-" && Ascii.eqb s3 "T" && Ascii.eqb s4 ":"
         && String.eqb (string_of_list_ascii rest)
              (if String.eqb format "%Y-%m-%dT%H:%MZ" then "Z" else "")
      then
        match number [y1; y2; y3; y4], number [m1; m2], number [d1; d2],
              number [h1; h2], number [n1; n2] with
        | Some y, Some m, Some d, Some h, Some n =>
            let r := mk_naive y m d h n 0 in
            if valid_naive r then Ok r else bad
        | _, _, _, _, _ => bad
        end
      else bad
  | _ => bad
  end.

Definition example_astimezone (dt : datetime) (tz : tzinfo) : result datetime :=
  match dt_tzinfo dt with
  | None => Raise (ValueError "naive datetime")
  | Some from =>
      utc ← astimezone_utc (fields dt) from;
      let back := {| tz_key := tz_key tz;
                     utcoffset := fun n => - utcoffset tz utc |} in
      local ← astimezone_utc utc back;
      Ok (mk_datetime local (Some tz))
  end.

Definition example_len (s : string) : nat := String.length s.

Definition example_runtime : Runtime :=
  {| ZoneInfo := example_ZoneInfo; strptime := example_strptime;
     astimezone := example_astimezone; len := example_len |}.

(** Command lines on the files of the fixture, in New York time. *)
Definition list_args : Namespace :=
  mk_args (Some "list") "" "" "" "name" "asc" "todos.json" "json" "America/New_York".

Definition add_args : Namespace :=
  mk_args (Some "add") "Todo 5" "buy milk" "2024-11-05T09:30" "" ""
    "todos.json" "json" "America/New_York".

Definition add_sqlite3_args : Namespace :=
  mk_args (Some "add") "Todo 5" "buy milk" "2024-11-05T09:30" "" ""
    "todos.sqlite3" "sqlite3" "America/New_York".

Definition done_args : Namespace :=
  mk_args (Some "done") "Todo 9" "" "" "" "" "todos.json" "json" "UTC".

(** The document of the fixture without the item that has no due date. *)
Definition dated_files : filesystem :=
  {[ "todos.json" :=
       JsonText (List.filter (fun kv => negb (String.eqb (fst kv) "Todo 2"))
                   Spec.test_todos) ]}.

End Cli.

(** ** Vocabulary of the further properties *)

Module Coverage.
Import DateTime Sqlite3 Todo Spec.

#[global] Instance exn_eq_dec : EqDecision exn.
Proof. solve_decision. Defined.

#[global] Instance result_eq_dec {A} `{EqDecision A} : EqDecision (result A).
Proof. solve_decision. Defined.

(** The names of the items of a store, in storage order. *)
Definition names (self : TodoApp) (fs : filesystem) : list (option pyval) :=
  map (fun x : pydict => x !! "name") (items self fs).

(** An item after [done(name)]: the flag is set on the item of that name. *)
Definition mark_done (name : string) (x : pydict) : pydict :=
  if has_name name x then <["done" := PBool true]> x else x.

(** The item a successful [add] creates. *)
Definition new_item (name description due : string) : pydict :=
  {[ "name" := PStr name; "description" := PStr description;
     "due_date" := PStr due; "done" := PBool false ]}.

(** [x[field] == v] *)
Definition field_is (field : string) (v : pyval) (x : pydict) : bool :=
  bool_decide (x !! field = Some v).

(** Order of two items by their flags: not done before done. *)
Definition done_le (x y : pydict) : Prop :=
  exists a b, x !! "done" = Some (PBool a) /\ y !! "done" = Some (PBool b) /\
              (a = true -> b = true).

(** The rows of a relational store hold the integers the bool adapter writes. *)
Definition flags_adapted (self : TodoApp) (fs : filesystem) : Prop :=
  forall c rows, _conn self = Some c -> visible c fs = Ok rows ->
    Forall (fun r => exists b, r_done r = adapt_bool b) rows.

(** What no call may change: the path, the type and the file system. *)
Definition untouched (self self' : TodoApp) (fs fs' : filesystem) : Prop :=
  db self' = db self /\ db_type self' = db_type self /\ fs' = fs.

Definition preserves {A} (m : M A) : Prop :=
  forall self fs r self' fs', m self fs = (r, self', fs') -> untouched self self' fs fs'.

(** [db_type] is one of the two supported values. *)
Definition supported (db_type : string) : bool :=
  String.eqb db_type "json" || String.eqb db_type "sqlite3".

End Coverage.

(** * Properties *)

(** ** Calendar facts *)

Module DateTimeFacts.
Import DateTime.
Local Open Scope Z_scope.

















(** *** The stored form and its order *)





Lemma percent_Y_four y s : 1000 <= y -> percent_Y y s = pad4 y s.
Proof.
  intros Hy. unfold percent_Y.
  destruct (Z.ltb_spec y 10); [lia |].
  destruct (Z.ltb_spec y 100); [lia |].
  destruct (Z.ltb_spec y 1000); [lia | reflexivity].
Qed.


















End DateTimeFacts.

(** ** [list.sort] *)

Module SortFacts.
Import Spec.

Lemma rmap_Forall2 {A B} (f : A -> result B) l r :
  rmap f l = Ok r -> Forall2 (fun x y => f x = Ok y) l r.
Proof.
  revert r. induction l as [| x l IH]; simpl; intros r.
  - intros [= <-]. constructor.
  - destruct (f x) as [y |] eqn:Hy; simpl; [| discriminate].
    destruct (rmap f l) as [ys |]; simpl; [| discriminate].
    intros [= <-]. constructor; auto.
Qed.

Lemma rmap_total {A B} (f : A -> result B) l :
  Forall (fun x => exists y, f x = Ok y) l -> exists r, rmap f l = Ok r.
Proof.
  induction 1 as [| x l [y Hy] _ [r Hr]]; simpl; [eauto |].
  rewrite Hy, Hr. simpl. eauto.
Qed.

Lemma insert_by_perm {A} (kx : pyval * A) l r :
  insert_by kx l = Ok r -> Permutation r (kx :: l).
Proof.
  revert r. induction l as [| ky l IH]; simpl; intros r.
  - intros [= <-]. reflexivity.
  - destruct (py_lt (fst ky) (fst kx)) as [[] |]; [| | discriminate].
    + destruct (insert_by kx l) as [r' |]; simpl; [| discriminate].
      intros [= <-]. rewrite (IH r' eq_refl). apply perm_swap.
    + intros [= <-]. reflexivity.
Qed.

Lemma stable_sort_perm {A} (l r : list (pyval * A)) :
  stable_sort l = Ok r -> Permutation r l.
Proof.
  revert r. induction l as [| kx l IH]; simpl; intros r.
  - intros [= <-]. reflexivity.
  - destruct (stable_sort l) as [r' |]; simpl; [| discriminate].
    intros H. apply insert_by_perm in H. rewrite H, (IH r' eq_refl). reflexivity.
Qed.

Lemma snd_zip_keys {A B} (keys : list B) (l : list A) :
  length keys = length l -> map snd (zip keys l) = l.
Proof.
  revert l. induction keys as [| k keys IH]; intros [| x l]; simpl;
    try discriminate; [reflexivity |].
  intros [= H]. f_equal. apply IH, H.
Qed.

(** Whatever [sort] returns is a rearrangement of the list it was given. *)
Lemma sort_perm {A} (key : A -> result pyval) reverse l r :
  sort key reverse l = Ok r -> Permutation r l.
Proof.
  unfold sort. destruct (rmap key l) as [keys |] eqn:Hk; simpl; [| discriminate].
  pose proof (Forall2_length _ _ _ (rmap_Forall2 _ _ _ Hk)) as Hlen.
  destruct reverse.
  - destruct (stable_sort (rev (zip keys l))) as [s |] eqn:Hs; simpl; [| discriminate].
    intros [= <-]. apply stable_sort_perm in Hs.
    rewrite <- Permutation_rev, Hs, <- Permutation_rev.
    rewrite snd_zip_keys by congruence. reflexivity.
  - destruct (stable_sort (zip keys l)) as [s |] eqn:Hs; simpl; [| discriminate].
    intros [= <-]. apply stable_sort_perm in Hs.
    rewrite Hs, snd_zip_keys by congruence. reflexivity.
Qed.

Lemma py_lt_str a b : is_str a = true -> is_str b = true -> exists c, py_lt a b = Some c.
Proof. destruct a, b; try discriminate; simpl; eauto. Qed.

Lemma py_lt_num a b : is_num a = true -> is_num b = true -> exists c, py_lt a b = Some c.
Proof. destruct a, b; try discriminate; simpl; eauto. Qed.

Lemma insert_by_total {A} (P : pyval -> Prop) (kx : pyval * A) l :
  (forall a b, P a -> P b -> exists c, py_lt a b = Some c) ->
  P (fst kx) -> Forall (fun ky => P (fst ky)) l ->
  exists r, insert_by kx l = Ok r.
Proof.
  intros HP Hx. induction 1 as [| ky l Hy _ [r Hr]]; simpl; [eauto |].
  destruct (HP _ _ Hy Hx) as [[] ->]; [| eauto].
  rewrite Hr. simpl. eauto.
Qed.

Lemma stable_sort_total {A} (P : pyval -> Prop) (l : list (pyval * A)) :
  (forall a b, P a -> P b -> exists c, py_lt a b = Some c) ->
  Forall (fun ky => P (fst ky)) l ->
  exists r, stable_sort l = Ok r.
Proof.
  intros HP. induction 1 as [| kx l Hx Hl [r Hr]]; simpl; [eauto |].
  rewrite Hr. simpl. apply (insert_by_total P); auto.
  apply stable_sort_perm in Hr.
  rewrite Forall_forall in *. intros ky Hin.
  apply Hl. rewrite <- Hr. exact Hin.
Qed.

Lemma string_ltb_asym s t : String.ltb s t = true -> String.ltb t s = false.
Proof.
  unfold String.ltb. rewrite (String.compare_antisym s t).
  destruct (String.compare t s); simpl; congruence.
Qed.

Lemma py_lt_asym a b : py_lt a b = Some true -> py_lt b a = Some false.
Proof.
  destruct a as [| x | x | x], b as [| y | y | y]; simpl; try discriminate;
    intros [= H]; f_equal;
    first [ apply string_ltb_asym, H
          | apply Z.ltb_ge; apply Z.ltb_lt in H; lia ].
Qed.

Lemma insert_by_hd {A} (z kx : pyval * A) l r :
  HdRel (fun x y => py_le (fst x) (fst y)) z l ->
  py_le (fst z) (fst kx) ->
  insert_by kx l = Ok r ->
  HdRel (fun x y => py_le (fst x) (fst y)) z r.
Proof.
  destruct l as [| ky l]; simpl; intros Hhd Hz.
  - intros [= <-]. constructor. exact Hz.
  - destruct (py_lt (fst ky) (fst kx)) as [[] |]; [| | discriminate].
    + destruct (insert_by kx l); simpl; [| discriminate].
      intros [= <-]. constructor. inversion Hhd; assumption.
    + intros [= <-]. constructor. exact Hz.
Qed.

Lemma insert_by_sorted {A} (kx : pyval * A) l r :
  Sorted (fun x y => py_le (fst x) (fst y)) l ->
  insert_by kx l = Ok r ->
  Sorted (fun x y => py_le (fst x) (fst y)) r.
Proof.
  intros Hs. revert r. induction Hs as [| ky l Hs IH Hhd]; simpl; intros r.
  - intros [= <-]. repeat constructor.
  - destruct (py_lt (fst ky) (fst kx)) as [[] |] eqn:Hlt; [| | discriminate].
    + destruct (insert_by kx l) as [r' |] eqn:Hr'; simpl; [| discriminate].
      intros [= <-]. constructor; [apply IH; reflexivity |].
      eapply insert_by_hd; eauto. apply py_lt_asym, Hlt.
    + intros [= <-]. constructor; [constructor; assumption |].
      constructor. exact Hlt.
Qed.

Lemma stable_sort_sorted {A} (l r : list (pyval * A)) :
  stable_sort l = Ok r -> Sorted (fun x y => py_le (fst x) (fst y)) r.
Proof.
  revert r. induction l as [| kx l IH]; simpl; intros r.
  - intros [= <-]. constructor.
  - destruct (stable_sort l) as [r' |]; simpl; [| discriminate].
    intros H. eapply insert_by_sorted; [apply IH; reflexivity | exact H].
Qed.

Lemma zip_keys_consistent {A} (key : A -> result pyval) l keys :
  Forall2 (fun x k => key x = Ok k) l keys ->
  Forall (fun kx => key (snd kx) = Ok (fst kx)) (zip keys l).
Proof. induction 1; simpl; constructor; auto. Qed.

Lemma sorted_map_snd {A} (key : A -> result pyval) (s : list (pyval * A)) :
  Forall (fun kx => key (snd kx) = Ok (fst kx)) s ->
  Sorted (fun x y => py_le (fst x) (fst y)) s ->
  Sorted (key_le key) (map snd s).
Proof.
  intros Hc Hs. induction Hs as [| kx s Hs IH Hhd]; simpl; [constructor |].
  inversion Hc as [| ? ? Hx Hc']; subst.
  constructor; [apply IH, Hc' |].
  destruct Hhd as [| ky s' Hle]; simpl; constructor.
  inversion Hc' as [| ? ? Hy _]; subst.
  exists (fst kx), (fst ky). auto.
Qed.

(** Ascending [sort] leaves every element at most as large as its successor. *)
Lemma sort_asc_sorted {A} (key : A -> result pyval) l r :
  sort key false l = Ok r -> Sorted (key_le key) r.
Proof.
  unfold sort. destruct (rmap key l) as [keys |] eqn:Hk; simpl; [| discriminate].
  apply rmap_Forall2 in Hk.
  destruct (stable_sort (zip keys l)) as [s |] eqn:Hs; simpl; [| discriminate].
  intros [= <-]. apply sorted_map_snd.
  - apply zip_keys_consistent in Hk.
    apply stable_sort_perm in Hs.
    rewrite Forall_forall in *. intros kx Hin. apply Hk. rewrite <- Hs. exact Hin.
  - eapply stable_sort_sorted, Hs.
Qed.

(** [sort] goes through when every key exists and all keys are of one kind. *)
Lemma sort_total {A} (key : A -> result pyval) (P : pyval -> Prop) reverse l :
  (forall a b, P a -> P b -> exists c, py_lt a b = Some c) ->
  Forall (fun x => exists k, key x = Ok k /\ P k) l ->
  exists r, sort key reverse l = Ok r.
Proof.
  intros HP Hl. unfold sort.
  destruct (rmap_total key l) as [keys Hk].
  { eapply Forall_impl; [exact Hl |]. intros x (k & ? & _). eauto. }
  rewrite Hk. simpl. apply rmap_Forall2 in Hk.
  assert (Forall (fun kx : pyval * A => P (fst kx)) (zip keys l)) as Hz.
  { clear -Hk Hl. induction Hk as [| x k l keys Hx _ IH]; simpl; constructor.
    - inversion Hl as [| ? ? (k' & Hk' & HP') _]; subst. simpl. congruence.
    - apply IH. inversion Hl; assumption. }
  destruct reverse.
  - destruct (stable_sort_total P (rev (zip keys l)) HP) as [s ->].
    { rewrite Forall_forall in *. intros kx Hin. apply Hz.
      rewrite (Permutation_rev (zip keys l)). exact Hin. }
    simpl. eauto.
  - destruct (stable_sort_total P (zip keys l) HP Hz) as [s ->]. simpl. eauto.
Qed.

Lemma string_leb_ltb s t : String.leb s t = negb (String.ltb t s).
Proof.
  unfold String.leb, String.ltb. rewrite (String.compare_antisym t s).
  destruct (String.compare s t); reflexivity.
Qed.

Lemma string_leb_trans s t u :
  String.leb s t = true -> String.leb t u = true -> String.leb s u = true.
Proof.
  unfold String.leb. revert t u.
  induction s as [| a s IH]; intros [| b t] [| c u]; simpl; try congruence.
  unfold Ascii.compare.
  destruct (N.compare_spec (N_of_ascii a) (N_of_ascii b));
    destruct (N.compare_spec (N_of_ascii b) (N_of_ascii c));
    destruct (N.compare_spec (N_of_ascii a) (N_of_ascii c));
    intros Hst Htu; try discriminate; try reflexivity; try lia; eauto.
Qed.







End SortFacts.

(** ** Insertion-ordered dictionaries *)

Module OrderedDictFacts.

Lemma od_get_None {V} k (d : list (string * V)) :
  od_get k d = None <-> Forall (fun kv => fst kv <> k) d.
Proof.
  induction d as [| [k' v] d IH]; simpl.
  - split; [constructor | reflexivity].
  - destruct (String.eqb_spec k k') as [-> | Hne].
    + split; [discriminate |]. inversion 1; subst. simpl in *. congruence.
    + rewrite IH. split.
      * intros H. constructor; [simpl; congruence | exact H].
      * inversion 1; assumption.
Qed.

Lemma od_get_Some_in {V} k (d : list (string * V)) v :
  od_get k d = Some v -> In (k, v) d.
Proof.
  induction d as [| [k' v'] d IH]; simpl; [discriminate |].
  destruct (String.eqb_spec k k') as [-> | Hne].
  - intros [= ->]. left. reflexivity.
  - intros H. right. apply IH, H.
Qed.

Lemma od_set_new {V} k (v : V) d :
  od_get k d = None -> od_set k v d = d ++ [(k, v)].
Proof.
  induction d as [| [k' v'] d IH]; simpl; [reflexivity |].
  destruct (String.eqb k k'); [discriminate |].
  intros H. rewrite IH by exact H. reflexivity.
Qed.

Lemma od_get_set_eq {V} k (v : V) d : od_get k (od_set k v d) = Some v.
Proof.
  induction d as [| [k' v'] d IH]; simpl.
  - rewrite String.eqb_refl. reflexivity.
  - destruct (String.eqb k k') eqn:E; simpl.
    + rewrite String.eqb_refl. reflexivity.
    + rewrite E. exact IH.
Qed.

Lemma od_set_set {V} k (v w : V) d : od_set k w (od_set k v d) = od_set k w d.
Proof.
  induction d as [| [k' v'] d IH]; simpl.
  - rewrite String.eqb_refl. reflexivity.
  - destruct (String.eqb k k') eqn:E; simpl.
    + rewrite String.eqb_refl. reflexivity.
    + rewrite E, IH. reflexivity.
Qed.

End OrderedDictFacts.

(** ** Stores *)

Module StoreFacts.
Import DateTime Sqlite3 Todo Spec SortFacts OrderedDictFacts.

Lemma record_ok_fields r :
  record_ok r = true ->
  (exists d, r !! "description" = Some (PStr d)) /\
  (r !! "due_date" = None \/ exists s, r !! "due_date" = Some (PStr s)) /\
  (r !! "done" = None \/ exists b, r !! "done" = Some (PBool b)) /\
  r !! "name" = None.
Proof.
  unfold record_ok. intros H.
  repeat (apply andb_prop in H; destruct H as [H ?]).
  destruct (r !! "description") as [[] |]; try discriminate.
  destruct (r !! "due_date") as [[] |]; try discriminate;
    destruct (r !! "done") as [[] |]; try discriminate;
    destruct (r !! "name"); try discriminate; eauto 10.
Qed.

Lemma record_ok_truthy r : record_ok r = true -> dict_truthy r = true.
Proof.
  intros H. apply record_ok_fields in H as [[d Hd] _].
  unfold dict_truthy. rewrite bool_decide_eq_false_2; [reflexivity |].
  intros ->. rewrite lookup_empty in Hd. discriminate.
Qed.

Lemma todos_ok_records d : todos_ok d = true -> records_ok d = true.
Proof. unfold todos_ok. intros H. apply andb_prop in H as [H _]. exact H. Qed.

Lemma todos_ok_nodup d : todos_ok d = true -> NoDup (map fst d).
Proof.
  unfold todos_ok. intros H. apply andb_prop in H as [_ H].
  apply bool_decide_eq_true_1 in H. exact H.
Qed.

Lemma todos_ok_intro d :
  records_ok d = true -> NoDup (map fst d) -> todos_ok d = true.
Proof.
  intros H1 H2. unfold todos_ok. rewrite H1. simpl.
  apply bool_decide_eq_true_2, H2.
Qed.

Lemma records_ok_lookup d k r :
  records_ok d = true -> od_get k d = Some r -> record_ok r = true.
Proof.
  unfold records_ok. rewrite forallb_forall. intros Hall Hget.
  apply od_get_Some_in in Hget. apply (Hall (k, r)), Hget.
Qed.

Lemma materialize_name k r :
  record_ok r = true -> materialize (k, r) !! "name" = Some (PStr k).
Proof.
  intros H. apply record_ok_fields in H as (_ & _ & _ & Hn).
  unfold materialize. simpl. rewrite lookup_union_r by exact Hn.
  apply lookup_insert_eq.
Qed.

Lemma has_name_materialize name k r :
  record_ok r = true -> has_name name (materialize (k, r)) = String.eqb k name.
Proof.
  intros H. unfold has_name. rewrite materialize_name by exact H.
  destruct (String.eqb_spec k name) as [-> | Hne].
  - apply bool_decide_eq_true_2. reflexivity.
  - apply bool_decide_eq_false_2. congruence.
Qed.

Lemma filter_has_name_json name d :
  records_ok d = true ->
  List.filter (has_name name) (map materialize d) =
  map materialize (List.filter (fun kv => String.eqb (fst kv) name) d).
Proof.
  induction d as [| [k r] d IH]; simpl; [reflexivity |].
  intros H. apply andb_prop in H as [Hr Hd].
  rewrite has_name_materialize by exact Hr.
  destruct (String.eqb k name); simpl; rewrite IH by exact Hd; reflexivity.
Qed.

Lemma exists_name_json name d :
  records_ok d = true ->
  existsb (has_name name) (map materialize d) =
  match od_get name d with Some _ => true | None => false end.
Proof.
  induction d as [| [k r] d IH]; simpl; [reflexivity |].
  intros H. apply andb_prop in H as [Hr Hd].
  rewrite has_name_materialize by exact Hr.
  rewrite (String.eqb_sym name k).
  destruct (String.eqb k name); simpl; [reflexivity | apply IH, Hd].
Qed.

Lemma fetch_name r : fetch r !! "name" = Some (PStr (r_name r)).
Proof. reflexivity. Qed.

Lemma fetch_done r : fetch r !! "done" = Some (PBool (convert_bool (pretty (r_done r)))).
Proof. reflexivity. Qed.


Lemma fetch_description r : fetch r !! "description" = Some (PStr (r_description r)).
Proof. reflexivity. Qed.

Lemma has_name_fetch name r : has_name name (fetch r) = String.eqb (r_name r) name.
Proof.
  unfold has_name. rewrite fetch_name.
  destruct (String.eqb_spec (r_name r) name) as [-> | Hne].
  - apply bool_decide_eq_true_2. reflexivity.
  - apply bool_decide_eq_false_2. congruence.
Qed.

Lemma filter_has_name_sqlite name rows :
  List.filter (has_name name) (map fetch rows) =
  map fetch (List.filter (fun r => String.eqb (r_name r) name) rows).
Proof.
  induction rows as [| r rows IH]; simpl; [reflexivity |].
  rewrite has_name_fetch.
  destruct (String.eqb (r_name r) name); simpl; rewrite IH; reflexivity.
Qed.

Lemma existsb_filter {A} (f : A -> bool) l :
  existsb f l = match List.filter f l with [] => false | _ => true end.
Proof.
  induction l as [| x l IH]; simpl; [reflexivity |].
  destruct (f x); simpl; [reflexivity | exact IH].
Qed.

Lemma set_conn_same self c : _conn self = Some c -> set_conn self c = self.
Proof. destruct self; simpl. intros ->. reflexivity. Qed.

Lemma visible_open c fs rows : visible c fs = Ok rows -> closed c = false.
Proof. unfold visible. destruct (closed c); [discriminate | reflexivity]. Qed.

(** A read through the connection changes nothing. *)
Lemma conn_execute_has_todo self fs c rows name :
  _conn self = Some c -> visible c fs = Ok rows ->
  conn_execute (SELECT_HAS_TODO name) self fs =
  (Ok (map (fun _ : row => ({[ "1" := PInt 1 ]} : pydict))
         (List.filter (fun r => String.eqb (r_name r) name) rows)), self, fs).
Proof.
  intros Hc Hv. unfold conn_execute. rewrite Hc. simpl. unfold query.
  rewrite Hv. simpl. rewrite set_conn_same by exact Hc. reflexivity.
Qed.

Lemma conn_execute_select_all self fs c rows col dir :
  _conn self = Some c -> visible c fs = Ok rows ->
  conn_execute (SELECT_ALL_TODO_ITEMS col dir) self fs =
  (rbind (order_by col dir rows) (fun l => Ok (map fetch l)), self, fs).
Proof.
  intros Hc Hv. unfold conn_execute. rewrite Hc. simpl. unfold query.
  rewrite Hv. simpl. rewrite set_conn_same by exact Hc. reflexivity.
Qed.

Lemma visible_write f c rows fs :
  closed c = false -> visible (write f c rows) fs = Ok (f rows).
Proof. intros H. unfold visible, write. simpl. rewrite H. reflexivity. Qed.

Lemma conn_execute_write self fs c rows s f :
  _conn self = Some c -> visible c fs = Ok rows ->
  (forall c' fs', execute s c' fs' = modify f c' fs') ->
  conn_execute s self fs = (Ok [], set_conn self (write f c rows), fs).
Proof.
  intros Hc Hv Hs. unfold conn_execute. rewrite Hc, Hs. unfold modify.
  rewrite Hv. reflexivity.
Qed.

Lemma name_exists_json name self fs :
  db_type self = "json" -> todos_ok (_todos self) = true ->
  name_exists name self fs =
  match od_get name (_todos self) with Some _ => true | None => false end.
Proof.
  intros Hdb Hok. unfold name_exists, items. rewrite Hdb. simpl.
  apply exists_name_json, todos_ok_records, Hok.
Qed.

Lemma items_sqlite self fs c rows :
  db_type self = "sqlite3" -> _conn self = Some c -> visible c fs = Ok rows ->
  items self fs = map fetch rows.
Proof. intros Hdb Hc Hv. unfold items. rewrite Hdb, Hc, Hv. reflexivity. Qed.

Lemma name_exists_sqlite name self fs c rows :
  db_type self = "sqlite3" -> _conn self = Some c -> visible c fs = Ok rows ->
  name_exists name self fs =
  match List.filter (fun r => String.eqb (r_name r) name) rows with
  | [] => false
  | _ => true
  end.
Proof.
  intros Hdb Hc Hv. unfold name_exists.
  rewrite (items_sqlite self fs c rows) by assumption.
  rewrite existsb_filter, filter_has_name_sqlite.
  destruct (List.filter _ rows); reflexivity.
Qed.

Lemma record_ok_done r :
  record_ok r = true -> record_ok (<["done" := PBool true]> r) = true.
Proof.
  intros H. apply record_ok_fields in H as ([d Hd] & Hdue & _ & Hn).
  unfold record_ok.
  rewrite lookup_insert_eq.
  rewrite !lookup_insert_ne by done.
  rewrite Hd, Hn. destruct Hdue as [-> | [s ->]]; reflexivity.
Qed.

Lemma materialize_done_true k r :
  materialize (k, <["done" := PBool true]> r) !! "done" = Some (PBool true).
Proof.
  unfold materialize. simpl. apply lookup_union_Some_l. apply lookup_insert_eq.
Qed.

(** Every sort field is present in a materialized record, and all values
    of one field are of one kind. *)
Lemma getitem_materialize k r sb :
  record_ok r = true -> is_in sb sort_fields = true ->
  exists v, getitem sb (materialize (k, r)) = Ok v /\
            (if String.eqb sb "done" then is_num v else is_str v) = true.
Proof.
  intros Hr Hsb. apply record_ok_fields in Hr as ([d Hd] & Hdue & Hdone & Hn).
  unfold is_in, sort_fields in Hsb. simpl in Hsb.
  unfold getitem, materialize. cbn [fst snd].
  rewrite lookup_union.
  destruct (String.eqb_spec sb "name") as [-> | _].
  { rewrite Hn. eexists. split; reflexivity. }
  destruct (String.eqb_spec sb "description") as [-> | _].
  { rewrite Hd. eexists. split; reflexivity. }
  destruct (String.eqb_spec sb "done") as [-> | _].
  { destruct Hdone as [-> | [b ->]]; eexists; split; reflexivity. }
  destruct (String.eqb_spec sb "due_date") as [-> | _]; [| discriminate].
  destruct Hdue as [-> | [b ->]]; eexists; split; reflexivity.
Qed.

Lemma records_ok_od_set d k v :
  records_ok d = true -> record_ok v = true -> records_ok (od_set k v d) = true.
Proof.
  unfold records_ok. intros Hd Hv.
  induction d as [| [k' v'] d IH]; simpl in *.
  - rewrite Hv. reflexivity.
  - apply andb_prop in Hd as [H1 H2].
    destruct (String.eqb k k'); simpl.
    + rewrite Hv, H2. reflexivity.
    + rewrite H1, IH by exact H2. reflexivity.
Qed.

Lemma keys_od_set_existing {V} k (v r : V) d :
  od_get k d = Some r -> map fst (od_set k v d) = map fst d.
Proof.
  induction d as [| [k' v'] d IH]; simpl; [discriminate |].
  destruct (String.eqb_spec k k') as [-> | Hne]; simpl.
  - reflexivity.
  - intros H. rewrite IH by exact H. reflexivity.
Qed.

Lemma keys_od_set_new {V} k (v : V) d :
  od_get k d = None -> NoDup (map fst d) -> NoDup (map fst (od_set k v d)).
Proof.
  intros Hget Hnd. rewrite od_set_new by exact Hget.
  rewrite map_app. simpl.
  apply NoDup_app. split; [exact Hnd |]. split.
  - intros x Hx Hin. apply list_elem_of_singleton in Hin. subst x.
    apply od_get_None in Hget. rewrite Forall_forall in Hget.
    apply list_elem_of_fmap in Hx as [[k' v'] [Hk Hin]]. simpl in Hk. subst k'.
    apply (Hget _ Hin). reflexivity.
  - apply NoDup_singleton.
Qed.

Lemma has_name_other d name :
  records_ok d = true -> Forall (fun kv => fst kv <> name) d ->
  Forall (fun x => has_name name x = false) (map materialize d).
Proof.
  unfold records_ok. intros Hok Hne.
  induction Hne as [| [k r] d Hk _ IH]; simpl in *; constructor.
  - apply andb_prop in Hok as [Hr _].
    rewrite has_name_materialize by exact Hr.
    apply String.eqb_neq. exact Hk.
  - apply andb_prop in Hok as [_ Hd]. apply IH, Hd.
Qed.

Lemma done_items_json d name r :
  records_ok d = true -> NoDup (map fst d) -> od_get name d = Some r ->
  Forall (fun x => has_name name x = true -> x !! "done" = Some (PBool true))
    (map materialize (od_set name (<["done" := PBool true]> r) d)).
Proof.
  intros Hok Hnd.
  induction d as [| [k v] d IH]; simpl; [discriminate |].
  unfold records_ok in Hok. simpl in Hok. apply andb_prop in Hok as [Hv Hd].
  inversion Hnd as [| ? ? Hnotin Hnd']; subst.
  destruct (String.eqb_spec name k) as [-> | Hne]; simpl.
  - intros [= ->]. constructor.
    + intros _. apply materialize_done_true.
    + eapply Forall_impl.
      * apply has_name_other; [exact Hd |].
        rewrite Forall_forall. intros [k' v'] Hin Heq. simpl in Heq. subst k'.
        apply Hnotin. apply list_elem_of_fmap. exists (k, v'). split; [reflexivity | exact Hin].
      * simpl. intros x Hx Hx'. congruence.
  - intros Hget. constructor.
    + rewrite has_name_materialize by exact Hv.
      intros Heq. apply String.eqb_eq in Heq. congruence.
    + apply IH; assumption.
Qed.

Lemma od_del_items d name :
  records_ok d = true ->
  map materialize (od_del name d) =
  List.filter (fun x => negb (has_name name x)) (map materialize d).
Proof.
  unfold records_ok, od_del.
  induction d as [| [k v] d IH]; simpl; [reflexivity |].
  intros Hok. apply andb_prop in Hok as [Hv Hd].
  rewrite has_name_materialize by exact Hv.
  rewrite (String.eqb_sym name k).
  destruct (String.eqb k name); simpl; rewrite IH by exact Hd; reflexivity.
Qed.

Lemma todos_ok_od_del d name : todos_ok d = true -> todos_ok (od_del name d) = true.
Proof.
  intros H. apply todos_ok_intro.
  - apply todos_ok_records in H. unfold records_ok, od_del in *.
    rewrite forallb_forall in *. intros kv Hin.
    apply filter_In in Hin as [Hin _]. apply H, Hin.
  - apply todos_ok_nodup in H. unfold od_del.
    induction d as [| [k v] d IH]; simpl in *; [constructor |].
    inversion H as [| ? ? Hnotin Hnd]; subst.
    destruct (negb (String.eqb name k)); simpl; [| apply IH, Hnd].
    constructor; [| apply IH, Hnd].
    intros Hin. apply Hnotin.
    apply list_elem_of_fmap in Hin as [[k' v'] [Hk Hin]]. simpl in Hk. subst k'.
    apply list_elem_of_In, filter_In in Hin as [Hin _].
    apply list_elem_of_fmap. exists (k, v'). split; [reflexivity |].
    apply list_elem_of_In, Hin.
Qed.

Lemma set_todos_set_todos self d d' :
  set_todos (set_todos self d) d' = set_todos self d'.
Proof. reflexivity. Qed.

Lemma set_conn_set_conn self c c' :
  set_conn (set_conn self c) c' = set_conn self c'.
Proof. reflexivity. Qed.

Lemma set_done_idem v name r :
  set_done v name (set_done v name r) = set_done v name r.
Proof.
  unfold set_done. destruct (String.eqb (r_name r) name) eqn:E; simpl;
    rewrite E; reflexivity.
Qed.

Lemma set_done_name v name r : r_name (set_done v name r) = r_name r.
Proof. unfold set_done. destruct (String.eqb (r_name r) name); reflexivity. Qed.

Lemma filter_name_set_done v name name' rows :
  List.filter (fun r => String.eqb (r_name r) name') (map (set_done v name) rows) =
  map (set_done v name) (List.filter (fun r => String.eqb (r_name r) name') rows).
Proof.
  induction rows as [| r rows IH]; simpl; [reflexivity |].
  rewrite set_done_name.
  destruct (String.eqb (r_name r) name'); simpl; rewrite IH; reflexivity.
Qed.

Lemma filter_negb_name_items name rows :
  map fetch (List.filter (fun r => negb (String.eqb (r_name r) name)) rows) =
  List.filter (fun x => negb (has_name name x)) (map fetch rows).
Proof.
  induction rows as [| r rows IH]; simpl; [reflexivity |].
  rewrite has_name_fetch.
  destruct (String.eqb (r_name r) name); simpl; rewrite IH; reflexivity.
Qed.

Lemma filter_perm {A} (f : A -> bool) l l' :
  Permutation l l' -> Permutation (List.filter f l) (List.filter f l').
Proof.
  induction 1 as [| x l l' _ IH | x y l | l l' l'' _ IH1 _ IH2]; simpl.
  - reflexivity.
  - destruct (f x); [constructor |]; exact IH.
  - destruct (f x), (f y); try reflexivity. apply perm_swap.
  - etransitivity; eassumption.
Qed.

Lemma kind_ordered sb a b :
  (if String.eqb sb "done" then is_num a else is_str a) = true ->
  (if String.eqb sb "done" then is_num b else is_str b) = true ->
  exists c, py_lt a b = Some c.
Proof. destruct (String.eqb sb "done"); [apply py_lt_num | apply py_lt_str]. Qed.

Lemma column_kind sb r :
  is_in sb sort_fields = true ->
  (if String.eqb sb "done" then is_num (column sb r) else is_str (column sb r)) = true.
Proof.
  unfold is_in, sort_fields, column. simpl.
  destruct (String.eqb_spec sb "name") as [-> | _]; [reflexivity |].
  destruct (String.eqb_spec sb "description") as [-> | _]; [reflexivity |].
  destruct (String.eqb_spec sb "done") as [-> | _]; [reflexivity |].
  destruct (String.eqb_spec sb "due_date") as [-> | _]; [reflexivity | discriminate].
Qed.

(** [list] with valid arguments returns a rearrangement of the items and
    leaves the object and the file system as they were. *)
Lemma list_ok self fs sort_by sort_order :
  is_store self fs ->
  is_in sort_by sort_fields = true -> is_in sort_order sort_orders = true ->
  exists l, list_ sort_by sort_order self fs = (Ok l, self, fs) /\
            Permutation l (items self fs).
Proof.
  intros Hstore Hsb Hso. unfold list_. rewrite Hsb, Hso. simpl.
  destruct Hstore as [[Hdb Hok] | [Hdb (c & rows & Hc & Hv)]].
  - rewrite Hdb. simpl. unfold items. rewrite Hdb. simpl.
    destruct (sort_total (getitem sort_by)
                (fun v => (if String.eqb sort_by "done" then is_num v else is_str v) = true)
                (String.eqb sort_order "desc") (map materialize (_todos self)))
      as [l Hl].
    + apply kind_ordered.
    + apply todos_ok_records in Hok. unfold records_ok in Hok.
      rewrite forallb_forall in Hok. rewrite Forall_forall. intros x Hx.
      apply list_elem_of_fmap in Hx as [[k r] [-> Hin]].
      apply getitem_materialize; [| exact Hsb].
      apply (Hok (k, r)). apply list_elem_of_In, Hin.
    + exists l. rewrite Hl. split; [reflexivity |]. eapply sort_perm, Hl.
  - rewrite Hdb. simpl.
    rewrite (conn_execute_select_all self fs c rows) by assumption.
    rewrite (items_sqlite self fs c rows) by assumption.
    unfold order_by.
    destruct (sort_total (fun r : row => Ok (column sort_by r))
                (fun v => (if String.eqb sort_by "done" then is_num v else is_str v) = true)
                (String.eqb (if String.eqb sort_order "desc" then "DESC" else "ASC") "DESC")
                rows)
      as [l Hl].
    + apply kind_ordered.
    + rewrite Forall_forall. intros r _. eexists. split; [reflexivity |].
      apply column_kind, Hsb.
    + exists (map fetch l). rewrite Hl. simpl. split; [reflexivity |].
      apply Permutation_map. eapply sort_perm, Hl.
Qed.

Lemma new_record_ok description due :
  record_ok {[ "description" := PStr description; "due_date" := PStr due;
               "done" := PBool false ]} = true.
Proof. reflexivity. Qed.

(** [add] of a new name appends one item of that name with [done = False]. *)
Lemma add_new self fs name description due_date due :
  is_store self fs ->
  name_exists name self fs = false ->
  due_date_str due_date = Ok due ->
  exists self' fs' x,
    add name description due_date self fs = (Ok tt, self', fs') /\
    is_store self' fs' /\
    items self' fs' = items self fs ++ [x] /\
    has_name name x = true /\
    x !! "description" = Some (PStr description) /\
    x !! "due_date" = Some (PStr due) /\
    x !! "done" = Some (PBool false).
Proof.
  intros Hstore Hex Hdue. unfold add. rewrite Hdue.
  destruct Hstore as [[Hdb Hok] | [Hdb (c & rows & Hc & Hv)]].
  - rewrite name_exists_json in Hex by assumption.
    rewrite Hdb. simpl.
    destruct (od_get name (_todos self)) eqn:Hget; [discriminate |].
    set (rec := ({[ "description" := PStr description; "due_date" := PStr due;
                    "done" := PBool false ]} : pydict)).
    exists (set_todos self (od_set name rec (_todos self))), fs, (materialize (name, rec)).
    split; [reflexivity |].
    split.
    { left. split; [exact Hdb |]. simpl. apply todos_ok_intro.
      - apply records_ok_od_set; [apply todos_ok_records, Hok | reflexivity].
      - apply keys_od_set_new; [exact Hget | apply todos_ok_nodup, Hok]. }
    split.
    { unfold items. simpl. rewrite Hdb. simpl.
      rewrite od_set_new by exact Hget. rewrite map_app. reflexivity. }
    split.
    { rewrite has_name_materialize by reflexivity. apply String.eqb_refl. }
    repeat split; reflexivity.
  - rewrite (name_exists_sqlite name self fs c rows) in Hex by assumption.
    rewrite Hdb. simpl. unfold mbind, M_bind.
    rewrite (conn_execute_has_todo self fs c rows) by assumption.
    destruct (List.filter _ rows); [| discriminate]. simpl.
    set (new := {| r_name := name; r_description := description;
                   r_done := adapt_bool false; r_due_date := due |}).
    set (f := fun rows : list row => rows ++ [new]).
    rewrite (conn_execute_write self fs c rows _ f)
      by (try assumption; reflexivity).
    unfold mret, M_ret.
    pose proof (visible_open _ _ _ Hv) as Hopen.
    assert (visible (write f c rows) fs = Ok (f rows)) as Hv'
      by (apply visible_write, Hopen).
    exists (set_conn self (write f c rows)), fs, (fetch new).
    split; [reflexivity |].
    split; [right; split; [exact Hdb | exists (write f c rows), (f rows); auto] |].
    split.
    { rewrite (items_sqlite (set_conn self (write f c rows)) fs (write f c rows) (f rows))
        by (try exact Hdb; try exact Hv'; reflexivity).
      rewrite (items_sqlite self fs c rows) by assumption.
      subst f. simpl. rewrite map_app. reflexivity. }
    split; [rewrite has_name_fetch; apply String.eqb_refl |].
    repeat split; reflexivity.
Qed.




Lemma set_todos_same self : set_todos self (_todos self) = self.
Proof. destruct self; reflexivity. Qed.

(** On a document store every call works on [_todos] alone. *)
Lemma call_json o self fs :
  db_type self = "json" ->
  exists r d, call o self fs = (r, set_todos self d, fs).
Proof.
  intros Hdb. destruct o as [name description due_date | name | name]; simpl.
  - unfold add. destruct (due_date_str due_date) as [due | e].
    + rewrite Hdb. simpl.
      destruct (match od_get name (_todos self) with
                | Some r => dict_truthy r
                | None => false
                end).
      * exists (Raise duplicate_name), (_todos self). rewrite set_todos_same. reflexivity.
      * eexists _, _. reflexivity.
    + exists (Raise e), (_todos self). rewrite set_todos_same. reflexivity.
  - unfold remove. rewrite Hdb. simpl.
    destruct (od_get name (_todos self)).
    + eexists _, _. reflexivity.
    + exists (Raise (KeyError name)), (_todos self). rewrite set_todos_same. reflexivity.
  - unfold done. rewrite Hdb. simpl.
    destruct (od_get name (_todos self)).
    + eexists _, _. reflexivity.
    + exists (Raise not_found), (_todos self). rewrite set_todos_same. reflexivity.
Qed.

Lemma session_json ops self fs :
  db_type self = "json" ->
  exists d, session ops self fs = (set_todos self d, fs).
Proof.
  revert self. induction ops as [| o ops IH]; intros self Hdb; simpl.
  - exists (_todos self). rewrite set_todos_same. reflexivity.
  - destruct (call_json o self fs Hdb) as (r & d & ->).
    destruct (IH (set_todos self d) Hdb) as [d' ->].
    exists d'. reflexivity.
Qed.

Lemma json_fixture_is_store : is_store (fst json_fixture) (snd json_fixture).
Proof. left. split; vm_compute; reflexivity. Qed.

Lemma sqlite_fixture_is_store : is_store (fst sqlite_fixture) (snd sqlite_fixture).
Proof.
  right. split; [vm_compute; reflexivity |].
  eexists _, test_rows. split; vm_compute; reflexivity.
Qed.

End StoreFacts.

(** ** Dict objects and references *)

Module AliasingFacts.
Import Sqlite3 Todo Aliasing Spec SortFacts StoreFacts.

Lemma rmap_map {A B C} (f : A -> B) (key : B -> result C) l :
  rmap key (map f l) = rmap (fun x => key (f x)) l.
Proof.
  induction l as [| x l IH]; simpl; [reflexivity |]. rewrite IH. reflexivity.
Qed.

Lemma insert_by_fmap {A B} (f : A -> B) k x (l : list (pyval * A)) :
  insert_by (k, f x) (map (prod_map id f) l) =
  rfmap (map (prod_map id f)) (insert_by (k, x) l).
Proof.
  induction l as [| [k' y] l IH]; simpl; [reflexivity |].
  destruct (py_lt k' k) as [[] |]; simpl; try reflexivity.
  rewrite IH. destruct (insert_by (k, x) l); reflexivity.
Qed.

Lemma stable_sort_fmap {A B} (f : A -> B) (l : list (pyval * A)) :
  stable_sort (map (prod_map id f) l) =
  rfmap (map (prod_map id f)) (stable_sort l).
Proof.
  induction l as [| [k x] l IH]; simpl; [reflexivity |].
  rewrite IH. destruct (stable_sort l) as [s |]; simpl; [| reflexivity].
  apply (insert_by_fmap f k x s).
Qed.

Lemma zip_map_r {A B K} (f : A -> B) (keys : list K) l :
  zip keys (map f l) = map (prod_map id f) (zip keys l).
Proof.
  revert l. induction keys as [| k keys IH]; intros [| x l]; simpl;
    try reflexivity.
  rewrite IH. reflexivity.
Qed.

(** Sorting images under [f] is sorting the originals under the key of
    their images. *)
Lemma sort_fmap {A B} (f : A -> B) (key : B -> result pyval) reverse l :
  sort key reverse (map f l) =
  rfmap (map f) (sort (fun x => key (f x)) reverse l).
Proof.
  unfold sort. rewrite rmap_map.
  destruct (rmap (fun x => key (f x)) l) as [keys |]; simpl; [| reflexivity].
  rewrite zip_map_r. destruct reverse.
  - rewrite <- map_rev, stable_sort_fmap.
    destruct (stable_sort (rev (zip keys l))) as [r |]; simpl; [| reflexivity].
    rewrite map_map, map_rev, map_map. reflexivity.
  - rewrite stable_sort_fmap.
    destruct (stable_sort (zip keys l)) as [r |]; simpl; [| reflexivity].
    rewrite !map_map. reflexivity.
Qed.

Lemma deref_todos_cons h k r rest d :
  deref_todos h ((k, r) :: rest) = Some d ->
  exists stored d', h !! r = Some stored /\ deref_todos h rest = Some d' /\
                    d = (k, stored) :: d'.
Proof.
  unfold deref_todos. simpl.
  destruct (h !! r) as [stored |]; simpl; [| discriminate].
  destruct (mapM _ rest) as [d' |]; simpl; [| discriminate].
  intros [= <-]. eauto.
Qed.

Lemma deref_todos_ext h h' todos d :
  (forall r x, h !! r = Some x -> h' !! r = Some x) ->
  deref_todos h todos = Some d -> deref_todos h' todos = Some d.
Proof.
  intros Hext. revert d. induction todos as [| [k r] rest IH]; intros d Hd.
  - exact Hd.
  - apply deref_todos_cons in Hd as (stored & d' & Hr & Hrest & ->).
    unfold deref_todos in *. simpl.
    rewrite (Hext _ _ Hr). simpl. rewrite (IH _ Hrest). reflexivity.
Qed.

Lemma lookup_app_old (h l : heap) r x : h !! r = Some x -> (h ++ l) !! r = Some x.
Proof. intros H. rewrite lookup_app_l; [exact H | eapply lookup_lt_Some, H]. Qed.

Lemma lookup_setitem_old (h : heap) r0 r k v x :
  (length h <= r)%nat -> h !! r0 = Some x -> forall l,
  setitem r k v (h ++ l) !! r0 = Some x.
Proof.
  intros Hr H l. unfold setitem.
  apply lookup_lt_Some in H as Hlt.
  rewrite list_lookup_alter_ne by lia. apply lookup_app_old, H.
Qed.

Lemma length_deref_todos h todos d :
  deref_todos h todos = Some d -> length d = length todos.
Proof.
  revert d. induction todos as [| [k r] rest IH]; intros d Hd.
  - injection Hd as <-. reflexivity.
  - apply deref_todos_cons in Hd as (stored & d' & _ & Hrest & ->).
    simpl. rewrite (IH _ Hrest). reflexivity.
Qed.

(** The loop allocates the new dicts behind the old heap, in key order. *)
Lemma build_spec todos h d :
  deref_todos h todos = Some d ->
  build todos h = (Ok (seq (length h) (length todos)), h ++ map materialize d).
Proof.
  revert h d. induction todos as [| [k r] rest IH]; intros h d Hd.
  - injection Hd as <-. simpl. rewrite app_nil_r. reflexivity.
  - apply deref_todos_cons in Hd as (stored & d' & Hr & Hrest & ->).
    cbn [build alloc].
    assert (deref (h ++ [{[ "name" := PStr k; "due_date" := PStr ""; "done" := PBool false ]}]) r
            = stored) as ->.
    { unfold deref. rewrite (lookup_app_old _ _ _ _ Hr). reflexivity. }
    assert (update (length h) stored
              (h ++ [{[ "name" := PStr k; "due_date" := PStr ""; "done" := PBool false ]}])
            = h ++ [materialize (k, stored)]) as ->.
    { unfold update. replace (length h) with (length h + 0)%nat at 1 by lia.
      rewrite alter_app_r. reflexivity. }
    rewrite (IH (h ++ [materialize (k, stored)]) d').
    + simpl. rewrite length_app. simpl.
      replace (length h + 1)%nat with (S (length h)) by lia.
      rewrite <- app_assoc. reflexivity.
    + eapply deref_todos_ext; [| exact Hrest].
      intros r0 x. apply lookup_app_old.
Qed.

Lemma alloc_all_spec ds h :
  alloc_all ds h = (seq (length h) (length ds), h ++ ds).
Proof.
  revert h. induction ds as [| d ds IH]; intros h; simpl.
  - rewrite app_nil_r. reflexivity.
  - rewrite IH, length_app. simpl.
    replace (length h + 1)%nat with (S (length h)) by lia.
    rewrite <- app_assoc. reflexivity.
Qed.

Lemma deref_new (h l : heap) :
  map (deref (h ++ l)) (seq (length h) (length l)) = l.
Proof.
  revert h. induction l as [| x l IH]; intros h; simpl; [reflexivity |].
  f_equal.
  - unfold deref. rewrite list_lookup_middle by reflexivity. reflexivity.
  - specialize (IH (h ++ [x])). rewrite length_app in IH. simpl in IH.
    replace (length h + 1)%nat with (S (length h)) in IH by lia.
    rewrite <- app_assoc in IH. exact IH.
Qed.

Lemma lookup_deref (h : heap) r : (r < length h)%nat -> h !! r = Some (deref h r).
Proof.
  intros Hlt. unfold deref.
  destruct (lookup_lt_is_Some_2 h r Hlt) as [x ->]. reflexivity.
Qed.

(** Any rearrangement of the new references is made of distinct references
    into the new part of the heap, and the store does not see a write
    through any of them. *)
Lemma fresh_refs o (h l : heap) self refs :
  value o h = Some self ->
  Permutation refs (seq (length h) (length l)) ->
  value o (h ++ l) = Some self /\
  map (fun r => (h ++ l) !! r) refs = map Some (map (deref (h ++ l)) refs) /\
  NoDup refs /\
  Forall (fun r => (length h <= r)%nat) refs /\
  (forall r k v, r ∈ refs -> value o (setitem r k v (h ++ l)) = Some self).
Proof.
  intros Hval Hperm.
  assert (Forall (fun r => (length h <= r < length (h ++ l))%nat) refs) as Hrange.
  { rewrite Forall_forall. intros r Hr. rewrite Hperm in Hr.
    apply elem_of_seq in Hr. rewrite length_app. lia. }
  unfold value in *.
  destruct (deref_todos h (o_todos o)) as [d |] eqn:Hd; simpl in Hval; [| discriminate].
  split; [| split; [| split; [| split]]].
  - rewrite (deref_todos_ext h (h ++ l) _ d); [exact Hval | | exact Hd].
    intros r x. apply lookup_app_old.
  - rewrite map_map. apply map_ext_Forall.
    eapply Forall_impl; [exact Hrange |]. simpl. intros r Hr.
    apply lookup_deref. lia.
  - rewrite Hperm. apply NoDup_seq.
  - eapply Forall_impl; [exact Hrange |]. simpl. intros r Hr. lia.
  - intros r k v Hr. rewrite Forall_forall in Hrange. specialize (Hrange r Hr).
    rewrite (deref_todos_ext h (setitem r k v (h ++ l)) _ d); [exact Hval | | exact Hd].
    intros r0 x Hx. apply lookup_setitem_old; [lia | exact Hx].
Qed.

End AliasingFacts.

(** * The claims *)

Import DateTime Sqlite3 Todo Spec.
Import DateTimeFacts SortFacts OrderedDictFacts StoreFacts.
Import Aliasing AliasingFacts.

(** C2, as amended.  In either backend, [add] with a name that is already
    in the store fails and hands back the object and the file system
    exactly as they were, so the number of items and every stored item are
    the same after the failed call.  The exception is the duplicate-name
    [ValueError] whenever the due date can be put into its stored form; the
    due date is converted before the name is looked up, so when the
    conversion raises, its exception is the one [add] raises. *)
Theorem C2_add_duplicate_fails_and_store_unchanged
  (self : TodoApp) (fs : filesystem) (name description : string)
  (due_date : option datetime) :
  is_store self fs ->
  name_exists name self fs = true ->
  exists e,
    add name description due_date self fs = (Raise e, self, fs) /\
    (forall due, due_date_str due_date = Ok due ->
       e = ValueError "A Todo item with the requested name already exists") /\
    (forall e', due_date_str due_date = Raise e' -> e = e').
Proof.
  intros Hstore Hex. fold duplicate_name. unfold add.
  destruct (due_date_str due_date) as [due | e].
  2: { exists e. split; [reflexivity |]. split; [discriminate |].
       intros e' [= <-]. reflexivity. }
  exists duplicate_name. split; [| split; [reflexivity | discriminate]].
  destruct Hstore as [[Hdb Hok] | [Hdb (c & rows & Hc & Hv)]].
  - rewrite name_exists_json in Hex by assumption.
    rewrite Hdb. simpl.
    destruct (od_get name (_todos self)) as [r |] eqn:Hget; [| discriminate].
    rewrite (record_ok_truthy r); [reflexivity |].
    eapply records_ok_lookup; eauto using todos_ok_records.
  - rewrite (name_exists_sqlite name self fs c rows) in Hex by assumption.
    rewrite Hdb. simpl. unfold mbind, M_bind.
    rewrite (conn_execute_has_todo self fs c rows) by assumption.
    destruct (List.filter _ rows); [discriminate |]. reflexivity.
Qed.

Lemma C2_witness :
  (is_store (fst json_fixture) (snd json_fixture) /\
   name_exists "Todo 4" (fst json_fixture) (snd json_fixture) = true /\
   exists e,
     add "Todo 4" "" None (fst json_fixture) (snd json_fixture) =
     (Raise e, fst json_fixture, snd json_fixture) /\
     e = ValueError "A Todo item with the requested name already exists") /\
  (is_store (fst sqlite_fixture) (snd sqlite_fixture) /\
   name_exists "Todo 4" (fst sqlite_fixture) (snd sqlite_fixture) = true /\
   exists e,
     add "Todo 4" "" None (fst sqlite_fixture) (snd sqlite_fixture) =
     (Raise e, fst sqlite_fixture, snd sqlite_fixture) /\
     e = ValueError "A Todo item with the requested name already exists").
Proof.
  split.
  - split; [apply json_fixture_is_store |].
    split; [vm_compute; reflexivity |].
    destruct (C2_add_duplicate_fails_and_store_unchanged
                (fst json_fixture) (snd json_fixture) "Todo 4" "" None)
      as (e & Hadd & He & _).
    + apply json_fixture_is_store.
    + vm_compute; reflexivity.
    + exists e. split; [exact Hadd | apply (He ""); reflexivity].
  - split; [apply sqlite_fixture_is_store |].
    split; [vm_compute; reflexivity |].
    destruct (C2_add_duplicate_fails_and_store_unchanged
                (fst sqlite_fixture) (snd sqlite_fixture) "Todo 4" "" None)
      as (e & Hadd & He & _).
    + apply sqlite_fixture_is_store.
    + vm_compute; reflexivity.
    + exists e. split; [exact Hadd | apply (He ""); reflexivity].
Defined.

(** C2, counterexample.  The fixture holds Todo 4.  Adding that name again
    with a due date on the first representable minute, five hours ahead of
    UTC, fails in the conversion to UTC: the exception is [OverflowError]
    and not the duplicate-name [ValueError]. *)
Lemma C2_counterexample :
  valid_datetime first_minute_east /\
  is_store (fst json_fixture) (snd json_fixture) /\
  name_exists "Todo 4" (fst json_fixture) (snd json_fixture) = true /\
  add "Todo 4" "" (Some first_minute_east) (fst json_fixture) (snd json_fixture)
    = (Raise OverflowError, fst json_fixture, snd json_fixture) /\
  is_store (fst sqlite_fixture) (snd sqlite_fixture) /\
  name_exists "Todo 4" (fst sqlite_fixture) (snd sqlite_fixture) = true /\
  add "Todo 4" "" (Some first_minute_east) (fst sqlite_fixture) (snd sqlite_fixture)
    = (Raise OverflowError, fst sqlite_fixture, snd sqlite_fixture) /\
  OverflowError <> ValueError "A Todo item with the requested name already exists".
Proof.
  split.
  { split; [reflexivity |]. split; [intros n; simpl; lia | discriminate]. }
  split; [apply json_fixture_is_store |].
  split; [vm_compute; reflexivity |].
  split; [vm_compute; reflexivity |].
  split; [apply sqlite_fixture_is_store |].
  split; [vm_compute; reflexivity |].
  split; [vm_compute; reflexivity | discriminate].
Qed.

(** C4. In either backend, [done] on a name that no item carries raises
    the not-found [KeyError] and hands back the object and the file system
    exactly as they were: every item is still there, unmodified. *)
Theorem C4_done_missing_fails_and_store_unchanged
  (self : TodoApp) (fs : filesystem) (name : string) :
  is_store self fs ->
  name_exists name self fs = false ->
  done name self fs =
  (Raise (KeyError "A Todo item with the requested name does not exist"),
   self, fs).
Proof.
  intros Hstore Hex. fold not_found. unfold done.
  destruct Hstore as [[Hdb Hok] | [Hdb (c & rows & Hc & Hv)]].
  - rewrite name_exists_json in Hex by assumption.
    rewrite Hdb. simpl.
    destruct (od_get name (_todos self)); [discriminate | reflexivity].
  - rewrite (name_exists_sqlite name self fs c rows) in Hex by assumption.
    rewrite Hdb. simpl. unfold mbind, M_bind.
    rewrite (conn_execute_has_todo self fs c rows) by assumption.
    destruct (List.filter _ rows); [reflexivity | discriminate].
Qed.

Lemma C4_witness :
  (is_store (fst json_fixture) (snd json_fixture) /\
   name_exists "Todo 5" (fst json_fixture) (snd json_fixture) = false /\
   done "Todo 5" (fst json_fixture) (snd json_fixture) =
   (Raise (KeyError "A Todo item with the requested name does not exist"),
    fst json_fixture, snd json_fixture)) /\
  (is_store (fst sqlite_fixture) (snd sqlite_fixture) /\
   name_exists "Todo 5" (fst sqlite_fixture) (snd sqlite_fixture) = false /\
   done "Todo 5" (fst sqlite_fixture) (snd sqlite_fixture) =
   (Raise (KeyError "A Todo item with the requested name does not exist"),
    fst sqlite_fixture, snd sqlite_fixture)).
Proof.
  split.
  - split; [apply json_fixture_is_store |].
    split; [vm_compute; reflexivity |].
    apply C4_done_missing_fails_and_store_unchanged.
    + apply json_fixture_is_store.
    + vm_compute; reflexivity.
  - split; [apply sqlite_fixture_is_store |].
    split; [vm_compute; reflexivity |].
    apply C4_done_missing_fails_and_store_unchanged.
    + apply sqlite_fixture_is_store.
    + vm_compute; reflexivity.
Defined.

(** C5. In either backend, [done] on the name of an existing item succeeds
    and leaves a store in which every item of that name has [done = True];
    a second call succeeds as well and hands back exactly the state the
    first call produced. *)
Theorem C5_done_sets_flag_and_is_idempotent
  (self : TodoApp) (fs : filesystem) (name : string) :
  is_store self fs ->
  name_exists name self fs = true ->
  exists self' fs',
    done name self fs = (Ok tt, self', fs') /\
    is_store self' fs' /\
    name_exists name self' fs' = true /\
    Forall (fun x => has_name name x = true -> x !! "done" = Some (PBool true))
      (items self' fs') /\
    done name self' fs' = (Ok tt, self', fs').
Proof.
  intros Hstore Hex. unfold done.
  destruct Hstore as [[Hdb Hok] | [Hdb (c & rows & Hc & Hv)]].
  - rewrite name_exists_json in Hex by assumption.
    rewrite Hdb. simpl.
    destruct (od_get name (_todos self)) as [r |] eqn:Hget; [| discriminate].
    pose proof (todos_ok_records _ Hok) as Hrec.
    pose proof (todos_ok_nodup _ Hok) as Hnd.
    pose proof (records_ok_lookup _ _ _ Hrec Hget) as Hr.
    set (r' := <["done" := PBool true]> r).
    assert (todos_ok (od_set name r' (_todos self)) = true) as Hok'.
    { apply todos_ok_intro.
      - apply records_ok_od_set; [exact Hrec | apply record_ok_done, Hr].
      - rewrite (keys_od_set_existing name r' r) by exact Hget. exact Hnd. }
    eexists _, _. split; [reflexivity |].
    split; [left; split; [exact Hdb | exact Hok'] |].
    split.
    { rewrite name_exists_json by (try exact Hdb; exact Hok').
      simpl. rewrite od_get_set_eq. reflexivity. }
    split.
    { unfold items. simpl. rewrite Hdb. simpl.
      apply done_items_json; assumption. }
    simpl. rewrite Hdb. simpl. rewrite od_get_set_eq.
    rewrite set_todos_set_todos, od_set_set.
    subst r'. rewrite insert_insert_eq. reflexivity.
  - rewrite (name_exists_sqlite name self fs c rows) in Hex by assumption.
    rewrite Hdb. simpl. unfold mbind, M_bind.
    rewrite (conn_execute_has_todo self fs c rows) by assumption.
    destruct (List.filter _ rows) as [| r0 matching] eqn:Hf; [discriminate |].
    simpl.
    rewrite (conn_execute_write self fs c rows _ (map (set_done (adapt_bool true) name)))
      by (try assumption; reflexivity).
    unfold mret, M_ret.
    pose proof (visible_open _ _ _ Hv) as Hopen.
    set (f := map (set_done (adapt_bool true) name)).
    set (self' := set_conn self (write f c rows)).
    assert (visible (write f c rows) fs = Ok (f rows)) as Hv'
      by (apply visible_write, Hopen).
    assert (List.filter (fun r => String.eqb (r_name r) name) (f rows)
            = f (r0 :: matching)) as Hf'.
    { subst f. rewrite filter_name_set_done, Hf. reflexivity. }
    eexists _, _. split; [reflexivity |].
    split; [right; split; [exact Hdb | exists (write f c rows), (f rows); auto] |].
    split.
    { rewrite (name_exists_sqlite name self' fs (write f c rows) (f rows))
        by (try exact Hdb; try exact Hv'; reflexivity).
      rewrite Hf'. reflexivity. }
    split.
    { rewrite (items_sqlite self' fs (write f c rows) (f rows))
        by (try exact Hdb; try exact Hv'; reflexivity).
      subst f. rewrite Forall_forall. intros x Hx.
      apply list_elem_of_fmap in Hx as [r1 [-> Hx]].
      apply list_elem_of_fmap in Hx as [r2 [-> _]].
      rewrite has_name_fetch, set_done_name, fetch_done. intros Hn.
      unfold set_done. rewrite Hn. reflexivity. }
    change (db_type self') with (db_type self). rewrite Hdb.
    simpl (String.eqb _ _). cbv iota.
    rewrite (conn_execute_has_todo self' fs (write f c rows) (f rows))
      by (try exact Hv'; reflexivity).
    rewrite Hf'. simpl (fetchone _). cbv beta iota.
    rewrite (conn_execute_write self' fs (write f c rows) (f rows) _ f)
      by (try exact Hv'; reflexivity).
    subst self'. rewrite set_conn_set_conn.
    unfold write at 1. simpl.
    replace (f (f rows)) with (f rows); [reflexivity |].
    subst f. rewrite map_map. apply map_ext. intros r. symmetry. apply set_done_idem.
Qed.

Lemma C5_witness :
  (is_store (fst json_fixture) (snd json_fixture) /\
   name_exists "Todo 4" (fst json_fixture) (snd json_fixture) = true /\
   exists self' fs',
     done "Todo 4" (fst json_fixture) (snd json_fixture) = (Ok tt, self', fs') /\
     done "Todo 4" self' fs' = (Ok tt, self', fs')) /\
  (is_store (fst sqlite_fixture) (snd sqlite_fixture) /\
   name_exists "Todo 4" (fst sqlite_fixture) (snd sqlite_fixture) = true /\
   exists self' fs',
     done "Todo 4" (fst sqlite_fixture) (snd sqlite_fixture) = (Ok tt, self', fs') /\
     done "Todo 4" self' fs' = (Ok tt, self', fs')).
Proof.
  split.
  - split; [apply json_fixture_is_store |].
    split; [vm_compute; reflexivity |].
    destruct (C5_done_sets_flag_and_is_idempotent
                (fst json_fixture) (snd json_fixture) "Todo 4")
      as (self' & fs' & H1 & _ & _ & _ & H2).
    + apply json_fixture_is_store.
    + vm_compute; reflexivity.
    + exists self', fs'. split; assumption.
  - split; [apply sqlite_fixture_is_store |].
    split; [vm_compute; reflexivity |].
    destruct (C5_done_sets_flag_and_is_idempotent
                (fst sqlite_fixture) (snd sqlite_fixture) "Todo 4")
      as (self' & fs' & H1 & _ & _ & _ & H2).
    + apply sqlite_fixture_is_store.
    + vm_compute; reflexivity.
    + exists self', fs'. split; assumption.
Defined.

(** C9. [remove] differs between the backends on a name that is not there:
    the document backend raises [KeyError(name)] from the deletion of the
    missing key and changes nothing, while the relational backend returns
    normally for every name, with the same return value whether or not a
    row matched.  Wherever [remove] returns, the items left are exactly the
    former items without those of that name. *)
Theorem C9_remove_across_backends
  (self : TodoApp) (fs : filesystem) (name : string) :
  is_store self fs ->
  (db_type self = "json" -> name_exists name self fs = false ->
   remove name self fs = (Raise (KeyError name), self, fs)) /\
  (db_type self = "sqlite3" \/ name_exists name self fs = true ->
   exists self' fs',
     remove name self fs = (Ok tt, self', fs') /\
     is_store self' fs' /\
     items self' fs' =
     List.filter (fun x => negb (has_name name x)) (items self fs)).
Proof.
  intros Hstore. unfold remove.
  destruct Hstore as [[Hdb Hok] | [Hdb (c & rows & Hc & Hv)]].
  - split.
    + intros _ Hex. rewrite name_exists_json in Hex by assumption.
      rewrite Hdb. simpl.
      destruct (od_get name (_todos self)); [discriminate | reflexivity].
    + intros [Hsql | Hex]; [rewrite Hdb in Hsql; discriminate |].
      rewrite name_exists_json in Hex by assumption.
      rewrite Hdb. simpl.
      destruct (od_get name (_todos self)); [| discriminate].
      eexists _, _. split; [reflexivity |].
      split; [left; split; [exact Hdb | apply todos_ok_od_del, Hok] |].
      unfold items. simpl. rewrite Hdb. simpl.
      apply od_del_items, todos_ok_records, Hok.
  - split; [rewrite Hdb; discriminate |].
    intros _. rewrite Hdb. simpl. unfold mbind, M_bind.
    set (f := List.filter (fun r => negb (String.eqb (r_name r) name))).
    rewrite (conn_execute_write self fs c rows _ f)
      by (try assumption; reflexivity).
    unfold mret, M_ret.
    pose proof (visible_open _ _ _ Hv) as Hopen.
    assert (visible (write f c rows) fs = Ok (f rows)) as Hv'
      by (apply visible_write, Hopen).
    eexists _, _. split; [reflexivity |].
    split; [right; split; [exact Hdb | exists (write f c rows), (f rows); auto] |].
    rewrite (items_sqlite (set_conn self (write f c rows)) fs (write f c rows) (f rows))
      by (try exact Hdb; try exact Hv'; reflexivity).
    rewrite (items_sqlite self fs c rows) by assumption.
    subst f. apply filter_negb_name_items.
Qed.

Lemma C9_witness :
  (is_store (fst json_fixture) (snd json_fixture) /\
   remove "Todo 5" (fst json_fixture) (snd json_fixture) =
   (Raise (KeyError "Todo 5"), fst json_fixture, snd json_fixture)) /\
  (is_store (fst sqlite_fixture) (snd sqlite_fixture) /\
   exists self' fs',
     remove "Todo 5" (fst sqlite_fixture) (snd sqlite_fixture) = (Ok tt, self', fs')).
Proof.
  split.
  - split; [apply json_fixture_is_store |].
    apply (C9_remove_across_backends (fst json_fixture) (snd json_fixture) "Todo 5").
    + apply json_fixture_is_store.
    + reflexivity.
    + vm_compute; reflexivity.
  - split; [apply sqlite_fixture_is_store |].
    destruct (C9_remove_across_backends
                (fst sqlite_fixture) (snd sqlite_fixture) "Todo 5")
      as [_ H].
    + apply sqlite_fixture_is_store.
    + destruct H as (self' & fs' & H & _); [left; reflexivity |].
      exists self', fs'. exact H.
Defined.

(** C3, as amended.  In either backend, [add] of a name that is not yet
    in the store, with a due date that can be put into its stored form,
    succeeds, and a following [list], whatever valid sort field and sort
    order it is given, returns exactly one item of that name, which has
    [done = False]. *)
Theorem C3_add_then_list_shows_one_new_item
  (self : TodoApp) (fs : filesystem) (name description : string)
  (due_date : option datetime) (due : string) (sort_by sort_order : string) :
  is_store self fs ->
  name_exists name self fs = false ->
  due_date_str due_date = Ok due ->
  is_in sort_by sort_fields = true ->
  is_in sort_order sort_orders = true ->
  exists self' fs' l x,
    add name description due_date self fs = (Ok tt, self', fs') /\
    list_ sort_by sort_order self' fs' = (Ok l, self', fs') /\
    List.filter (has_name name) l = [x] /\
    x !! "done" = Some (PBool false).
Proof.
  intros Hstore Hex Hdue Hsb Hso.
  destruct (add_new self fs name description due_date due Hstore Hex Hdue)
    as (self' & fs' & x & Hadd & Hstore' & Hitems & Hname & _ & _ & Hdone).
  destruct (list_ok self' fs' sort_by sort_order Hstore' Hsb Hso) as (l & Hl & Hperm).
  exists self', fs', l, x. repeat split; try assumption.
  apply (filter_perm (has_name name)) in Hperm.
  rewrite Hitems, List.filter_app in Hperm. simpl in Hperm. rewrite Hname in Hperm.
  unfold name_exists in Hex. rewrite existsb_filter in Hex.
  destruct (List.filter (has_name name) (items self fs)); [| discriminate].
  simpl in Hperm. symmetry in Hperm. apply Permutation_length_1_inv in Hperm.
  exact Hperm.
Qed.

Lemma C3_witness :
  (is_store (fst json_fixture) (snd json_fixture) /\
   name_exists "Todo 5" (fst json_fixture) (snd json_fixture) = false /\
   exists self' fs' l x,
     add "Todo 5" "" None (fst json_fixture) (snd json_fixture) = (Ok tt, self', fs') /\
     list_ "done" "desc" self' fs' = (Ok l, self', fs') /\
     List.filter (has_name "Todo 5") l = [x] /\
     x !! "done" = Some (PBool false)) /\
  (is_store (fst sqlite_fixture) (snd sqlite_fixture) /\
   name_exists "Todo 5" (fst sqlite_fixture) (snd sqlite_fixture) = false /\
   exists self' fs' l x,
     add "Todo 5" "" None (fst sqlite_fixture) (snd sqlite_fixture) = (Ok tt, self', fs') /\
     list_ "done" "desc" self' fs' = (Ok l, self', fs') /\
     List.filter (has_name "Todo 5") l = [x] /\
     x !! "done" = Some (PBool false)).
Proof.
  split.
  - split; [apply json_fixture_is_store |].
    split; [vm_compute; reflexivity |].
    apply (C3_add_then_list_shows_one_new_item _ _ "Todo 5" "" None "" "done" "desc").
    + apply json_fixture_is_store.
    + vm_compute; reflexivity.
    + reflexivity.
    + reflexivity.
    + reflexivity.
  - split; [apply sqlite_fixture_is_store |].
    split; [vm_compute; reflexivity |].
    apply (C3_add_then_list_shows_one_new_item _ _ "Todo 5" "" None "" "done" "desc").
    + apply sqlite_fixture_is_store.
    + vm_compute; reflexivity.
    + reflexivity.
    + reflexivity.
    + reflexivity.
Defined.

(** C3, counterexample.  The fixture holds no Todo 5.  Adding it with a
    due date on the first representable minute, five hours ahead of UTC,
    does not succeed: [add] raises [OverflowError], the store is as it was,
    and [list] shows no item of that name. *)
Lemma C3_counterexample :
  valid_datetime first_minute_east /\
  is_store (fst json_fixture) (snd json_fixture) /\
  name_exists "Todo 5" (fst json_fixture) (snd json_fixture) = false /\
  add "Todo 5" "" (Some first_minute_east) (fst json_fixture) (snd json_fixture)
    = (Raise OverflowError, fst json_fixture, snd json_fixture) /\
  listed_names "name" "asc" json_fixture
    = Ok [Some (PStr "Todo 1"); Some (PStr "Todo 2"); Some (PStr "Todo 3");
          Some (PStr "Todo 4")].
Proof.
  split.
  { split; [reflexivity |]. split; [intros n; simpl; lia | discriminate]. }
  split; [apply json_fixture_is_store |].
  repeat split; vm_compute; reflexivity.
Qed.







(** C8. On the document backend, whatever calls a session made, [close]
    writes the whole in-memory collection to the file of the store, and a
    fresh [TodoApp] loaded from the same path holds exactly the collection
    that was in memory at [close]. *)
Theorem C8_close_persists_document
  (self : TodoApp) (fs : filesystem) (ops : list op)
  (self1 : TodoApp) (fs1 : filesystem) :
  db_type self = "json" ->
  session ops self fs = (self1, fs1) ->
  exists fs2 self3,
    close self1 fs1 = (Ok tt, self1, fs2) /\
    fs2 !! db self1 = Some (JsonText (_todos self1)) /\
    load (__init__ (db self1) "json") fs2 = (Ok tt, self3, fs2) /\
    _todos self3 = _todos self1 /\
    items self3 fs2 = items self1 fs1.
Proof.
  intros Hdb Hs.
  destruct (session_json ops self fs Hdb) as [d Hd].
  rewrite Hd in Hs. injection Hs as <- <-.
  exists (<[db self := JsonText d]> fs),
         (set_todos (__init__ (db self) "json") d).
  unfold close, save, load. simpl. rewrite Hdb. simpl.
  rewrite lookup_insert_eq.
  repeat split; try reflexivity.
  unfold items. simpl. rewrite Hdb. reflexivity.
Qed.

Lemma C8_witness :
  let st := json_fixture in
  let ops := [Add "Todo 5" "" None; MarkDone "Todo 1"; Remove "Todo 3";
              Remove "Todo 9"] in
  db_type (fst st) = "json" /\
  exists fs2 self3,
    close (fst (session ops (fst st) (snd st))) (snd (session ops (fst st) (snd st)))
      = (Ok tt, fst (session ops (fst st) (snd st)), fs2) /\
    load (__init__ (db (fst (session ops (fst st) (snd st)))) "json") fs2
      = (Ok tt, self3, fs2) /\
    _todos self3 = _todos (fst (session ops (fst st) (snd st))).
Proof.
  intros st ops. split; [reflexivity |].
  destruct (C8_close_persists_document (fst st) (snd st) ops
              (fst (session ops (fst st) (snd st)))
              (snd (session ops (fst st) (snd st))) eq_refl)
    as (fs2 & self3 & Hclose & _ & Hload & Htodos & _).
  { destruct (session ops (fst st) (snd st)); reflexivity. }
  exists fs2, self3. auto.
Defined.

(** C1. The relational backend on the fixture: a session adds an item,
    removes one and marks one done.  Over the same connection the listing
    shows all three changes.  [close] then drops the connection without a
    commit, and a fresh [TodoApp] loaded from the same file lists the four
    original items, none of the changes. *)
Theorem C1_sqlite_session_is_lost_at_close :
  let ops := [Add "Todo 5" "" None; Remove "Todo 1"; MarkDone "Todo 3"] in
  let st1 := session ops (fst sqlite_fixture) (snd sqlite_fixture) in
  listed_names "name" "asc" st1
    = Ok [Some (PStr "Todo 2"); Some (PStr "Todo 3"); Some (PStr "Todo 4");
          Some (PStr "Todo 5")] /\
  map (fun x : pydict => x !! "done") (items (fst st1) (snd st1))
    = [Some (PBool true); Some (PBool true); Some (PBool false); Some (PBool false)] /\
  fst (reopened st1) = Ok tt /\
  listed_names "name" "asc" (snd (reopened st1))
    = Ok [Some (PStr "Todo 1"); Some (PStr "Todo 2"); Some (PStr "Todo 3");
          Some (PStr "Todo 4")] /\
  map (fun x : pydict => x !! "done")
      (items (fst (snd (reopened st1))) (snd (snd (reopened st1))))
    = [Some (PBool false); Some (PBool true); Some (PBool false); Some (PBool false)] /\
  items (fst (snd (reopened st1))) (snd (snd (reopened st1)))
    = items (fst sqlite_fixture) (snd sqlite_fixture).
Proof. cbv zeta. repeat split; vm_compute; reflexivity. Qed.

(** C10. In either backend, [list] with valid sort arguments hands back the
    object and the file system as they were.  At the level of dict objects
    the records it returns are new ones: distinct references behind the old
    heap, holding the listed records, with the store still denoting the
    same value; and a write through any returned reference, such as the CLI
    replacing [due_date] by its display form, leaves that value unchanged. *)
Theorem C10_list_returns_detached_copies
  (o : Object) (h : heap) (self : TodoApp) (fs : filesystem)
  (sort_by sort_order : string) :
  value o h = Some self ->
  is_store self fs ->
  is_in sort_by sort_fields = true ->
  is_in sort_order sort_orders = true ->
  exists l refs h',
    list_ sort_by sort_order self fs = (Ok l, self, fs) /\
    list_ref sort_by sort_order o fs h = (Ok refs, o, fs, h') /\
    map (fun r => h' !! r) refs = map Some l /\
    value o h' = Some self /\
    NoDup refs /\
    Forall (fun r => (length h <= r)%nat) refs /\
    (forall r k v, r ∈ refs -> value o (setitem r k v h') = Some self).
Proof.
  intros Hval Hstore Hsb Hso.
  destruct (list_ok self fs sort_by sort_order Hstore Hsb Hso) as (l & Hl0 & _).
  exists l. pose proof Hl0 as Hl.
  pose proof Hval as Hval'. unfold value in Hval'.
  destruct (deref_todos h (o_todos o)) as [d |] eqn:Hd; simpl in Hval'; [| discriminate].
  assert (o_db_type o = db_type self /\ d = _todos self /\ o_conn o = _conn self)
    as (Htype & Htodos & Hconn) by (injection Hval' as <-; auto).
  clear Hval'.
  unfold list_ref. unfold list_ in Hl. rewrite Hsb, Hso in Hl |- *.
  simpl in Hl |- *. rewrite Htype.
  destruct Hstore as [[Hdb Hok] | [Hdb (c & rows & Hc & Hv)]].
  - rewrite Hdb in Hl |- *. simpl in Hl |- *. injection Hl as Hl.
    rewrite (build_spec _ _ _ Hd). simpl.
    rewrite <- Htodos in Hl.
    set (new := map materialize d) in *.
    set (h' := h ++ new).
    assert (length (o_todos o) = length new) as Hlen.
    { subst new. rewrite length_map. symmetry. eapply length_deref_todos, Hd. }
    rewrite Hlen.
    rewrite <- (deref_new h new) in Hl. fold h' in Hl.
    rewrite sort_fmap in Hl.
    destruct (sort (fun x => getitem sort_by (deref h' x))
                (String.eqb sort_order "desc") (seq (length h) (length new)))
      as [refs |] eqn:Hs; simpl in Hl; [| discriminate].
    injection Hl as Hl.
    exists refs, h'. subst h'.
    destruct (fresh_refs o h new _ refs Hval (sort_perm _ _ _ _ Hs))
      as (H1 & H2 & H3 & H4 & H5).
    rewrite Hl in H2.
    repeat split; assumption.
  - rewrite Hdb in Hl |- *. simpl in Hl |- *.
    rewrite Hconn, Hc.
    rewrite (conn_execute_select_all _ fs c rows) in Hl by assumption.
    injection Hl as Hl.
    unfold query. rewrite Hv. simpl. rewrite Hl.
    rewrite alloc_all_spec.
    exists (seq (length h) (length l)), (h ++ l).
    destruct (fresh_refs o h l _ (seq (length h) (length l)) Hval (Permutation_refl _))
      as (H1 & H2 & H3 & H4 & H5).
    rewrite deref_new in H2.
    assert (set_o_conn o c = o) as ->.
    { unfold set_o_conn. rewrite <- Hc, <- Hconn. destruct o; reflexivity. }
    repeat split; assumption.
Qed.

Lemma C10_witness :
  let o := {| o_db := "todos.json"; o_db_type := "json";
              o_todos := [("Todo 1", 0%nat); ("Todo 2", 1%nat);
                          ("Todo 3", 2%nat); ("Todo 4", 3%nat)];
              o_conn := None |} in
  let h := map snd test_todos in
  value o h = Some (fst json_fixture) /\
  is_store (fst json_fixture) (snd json_fixture) /\
  exists refs h',
    list_ref "due_date" "asc" o (snd json_fixture) h
      = (Ok refs, o, snd json_fixture, h') /\
    forall r k v, r ∈ refs -> value o (setitem r k v h') = Some (fst json_fixture).
Proof.
  intros o h.
  assert (value o h = Some (fst json_fixture)) as Hval by (vm_compute; reflexivity).
  split; [exact Hval |]. split; [apply json_fixture_is_store |].
  destruct (C10_list_returns_detached_copies o h (fst json_fixture)
              (snd json_fixture) "due_date" "asc" Hval json_fixture_is_store
              eq_refl eq_refl)
    as (l & refs & h' & _ & Hlist & _ & _ & _ & _ & Hset).
  exists refs, h'. split; assumption.
Defined.

(** * Further properties of the code *)

Module CoverageFacts.
Import DateTime Sqlite3 Todo Spec Coverage.
Import SortFacts OrderedDictFacts StoreFacts.

Lemma execute_fs s c fs : snd (execute s c fs) = fs.
Proof.
  destruct s; simpl; unfold query, modify; try reflexivity;
    destruct (visible c fs); reflexivity.
Qed.

Lemma untouched_refl self fs : untouched self self fs fs.
Proof. repeat split. Qed.

Lemma untouched_trans self self' self'' fs fs' fs'' :
  untouched self self' fs fs' -> untouched self' self'' fs' fs'' ->
  untouched self self'' fs fs''.
Proof. intros (? & ? & ?) (? & ? & ?). repeat split; congruence. Qed.

Lemma preserves_ret {A} (a : A) : preserves (mret a).
Proof. intros self fs r self' fs' [= _ <- <-]. apply untouched_refl. Qed.

Lemma preserves_raise {A} e : preserves (@raise A e).
Proof. intros self fs r self' fs' [= _ <- <-]. apply untouched_refl. Qed.

Lemma preserves_bind {A B} (m : M A) (k : A -> M B) :
  preserves m -> (forall a, preserves (k a)) -> preserves (m ≫= k).
Proof.
  intros Hm Hk self fs r self' fs'. unfold mbind, M_bind.
  destruct (m self fs) as [[[a | e] self1] fs1] eqn:Hm1.
  - intros Hk1. eapply untouched_trans; [eapply Hm, Hm1 | eapply Hk, Hk1].
  - intros [= _ <- <-]. eapply Hm, Hm1.
Qed.

Lemma preserves_conn_execute s : preserves (conn_execute s).
Proof.
  intros self fs r self' fs'. unfold conn_execute.
  destruct (_conn self) as [c |].
  - pose proof (execute_fs s c fs) as Hfs.
    destruct (execute s c fs) as [[r0 c'] fs0]. simpl in Hfs. subst fs0.
    intros [= _ <- <-]. repeat split.
  - intros [= _ <- <-]. apply untouched_refl.
Qed.

Lemma preserves_add name description due_date :
  preserves (add name description due_date).
Proof.
  intros self fs r self' fs'. unfold add.
  destruct (due_date_str due_date) as [due | e].
  2: { intros [= _ <- <-]. apply untouched_refl. }
  destruct (String.eqb (db_type self) "json").
  { destruct (match od_get name (_todos self) with
              | Some r0 => dict_truthy r0
              | None => false
              end); intros [= _ <- <-]; repeat split. }
  destruct (String.eqb (db_type self) "sqlite3").
  2: { intros [= _ <- <-]. apply untouched_refl. }
  apply preserves_bind; [apply preserves_conn_execute |].
  intros res. destruct (fetchone res) as [r0 |].
  - destruct (dict_truthy r0); [apply preserves_raise |].
    apply preserves_bind; [apply preserves_conn_execute | intros; apply preserves_ret].
  - apply preserves_bind; [apply preserves_conn_execute | intros; apply preserves_ret].
Qed.

Lemma preserves_remove name : preserves (remove name).
Proof.
  intros self fs r self' fs'. unfold remove.
  destruct (String.eqb (db_type self) "json").
  { destruct (od_get name (_todos self)); intros [= _ <- <-]; repeat split. }
  destruct (String.eqb (db_type self) "sqlite3").
  2: { intros [= _ <- <-]. apply untouched_refl. }
  apply preserves_bind; [apply preserves_conn_execute | intros; apply preserves_ret].
Qed.

Lemma preserves_done name : preserves (done name).
Proof.
  intros self fs r self' fs'. unfold done.
  destruct (String.eqb (db_type self) "json").
  { destruct (od_get name (_todos self)); intros [= _ <- <-]; repeat split. }
  destruct (String.eqb (db_type self) "sqlite3").
  2: { intros [= _ <- <-]. apply untouched_refl. }
  apply preserves_bind; [apply preserves_conn_execute |].
  intros res. destruct (fetchone res).
  - apply preserves_bind; [apply preserves_conn_execute | intros; apply preserves_ret].
  - apply preserves_raise.
Qed.

Lemma preserves_call o : preserves (call o).
Proof.
  destruct o; simpl;
    [apply preserves_add | apply preserves_remove | apply preserves_done].
Qed.

Lemma preserves_list sort_by sort_order : preserves (list_ sort_by sort_order).
Proof.
  intros self fs r self' fs'. unfold list_.
  destruct (negb (is_in sort_by sort_fields)).
  { intros [= _ <- <-]. apply untouched_refl. }
  destruct (negb (is_in sort_order sort_orders)).
  { intros [= _ <- <-]. apply untouched_refl. }
  destruct (String.eqb (db_type self) "json").
  { intros [= _ <- <-]. apply untouched_refl. }
  destruct (String.eqb (db_type self) "sqlite3").
  2: { intros [= _ <- <-]. apply untouched_refl. }
  apply preserves_conn_execute.
Qed.

Lemma session_untouched ops self fs :
  untouched self (fst (session ops self fs)) fs (snd (session ops self fs)).
Proof.
  revert self fs. induction ops as [| o ops IH]; intros self fs; simpl.
  - apply untouched_refl.
  - destruct (call o self fs) as [[r self1] fs1] eqn:Hcall.
    eapply untouched_trans; [eapply preserves_call, Hcall | apply IH].
Qed.

(** *** What each call does to the items *)

Lemma materialize_insert_done k r :
  materialize (k, <["done" := PBool true]> r)
  = <["done" := PBool true]> (materialize (k, r)).
Proof. unfold materialize. simpl. symmetry. apply insert_union_l. Qed.

Lemma mark_done_other name x : has_name name x = false -> mark_done name x = x.
Proof. unfold mark_done. intros ->. reflexivity. Qed.

Lemma mark_done_json d name r :
  records_ok d = true -> NoDup (map fst d) -> od_get name d = Some r ->
  map materialize (od_set name (<["done" := PBool true]> r) d)
  = map (mark_done name) (map materialize d).
Proof.
  intros Hok Hnd.
  induction d as [| [k v] d IH]; simpl; [discriminate |].
  unfold records_ok in Hok. simpl in Hok. apply andb_prop in Hok as [Hv Hd].
  inversion Hnd as [| ? ? Hnotin Hnd']; subst.
  destruct (String.eqb_spec name k) as [-> | Hne]; simpl.
  - intros [= ->]. f_equal.
    + rewrite materialize_insert_done. unfold mark_done.
      rewrite has_name_materialize by exact Hv. rewrite String.eqb_refl. reflexivity.
    + symmetry. rewrite <- (map_id (map materialize d)) at 2.
      apply map_ext_Forall. eapply Forall_impl.
      * apply has_name_other; [exact Hd |].
        rewrite Forall_forall. intros [k' v'] Hin Heq. simpl in Heq. subst k'.
        apply Hnotin. apply list_elem_of_fmap. exists (k, v'). split; [reflexivity | exact Hin].
      * simpl. intros x Hx. apply mark_done_other, Hx.
  - intros Hget. f_equal.
    + symmetry. apply mark_done_other. rewrite has_name_materialize by exact Hv.
      apply String.eqb_neq. congruence.
    + apply IH; assumption.
Qed.

Lemma mark_done_sqlite name r :
  fetch (set_done (adapt_bool true) name r) = mark_done name (fetch r).
Proof.
  unfold mark_done, set_done. rewrite has_name_fetch.
  destruct (String.eqb (r_name r) name); [| reflexivity].
  unfold fetch, dict_factory. simpl. rewrite insert_insert_eq. reflexivity.
Qed.

Lemma done_ok self fs name :
  is_store self fs -> name_exists name self fs = true ->
  exists self' fs',
    done name self fs = (Ok tt, self', fs') /\
    is_store self' fs' /\
    items self' fs' = map (mark_done name) (items self fs).
Proof.
  intros Hstore Hex. unfold done.
  destruct Hstore as [[Hdb Hok] | [Hdb (c & rows & Hc & Hv)]].
  - rewrite name_exists_json in Hex by assumption.
    rewrite Hdb. simpl.
    destruct (od_get name (_todos self)) as [r |] eqn:Hget; [| discriminate].
    pose proof (todos_ok_records _ Hok) as Hrec.
    pose proof (todos_ok_nodup _ Hok) as Hnd.
    pose proof (records_ok_lookup _ _ _ Hrec Hget) as Hr.
    eexists _, _. split; [reflexivity |]. split.
    + left. split; [exact Hdb |]. simpl. apply todos_ok_intro.
      * apply records_ok_od_set; [exact Hrec | apply record_ok_done, Hr].
      * rewrite (keys_od_set_existing name _ r) by exact Hget. exact Hnd.
    + unfold items. simpl. rewrite Hdb. simpl. apply mark_done_json; assumption.
  - rewrite (name_exists_sqlite name self fs c rows) in Hex by assumption.
    rewrite Hdb. simpl. unfold mbind, M_bind.
    rewrite (conn_execute_has_todo self fs c rows) by assumption.
    destruct (List.filter _ rows) as [| r0 matching]; [discriminate |]. simpl.
    set (f := map (set_done (adapt_bool true) name)).
    rewrite (conn_execute_write self fs c rows _ f) by (try assumption; reflexivity).
    unfold mret, M_ret.
    assert (visible (write f c rows) fs = Ok (f rows)) as Hv'
      by (eapply visible_write, visible_open, Hv).
    eexists _, _. split; [reflexivity |]. split.
    + right. split; [exact Hdb |]. exists (write f c rows), (f rows). auto.
    + rewrite (items_sqlite (set_conn self (write f c rows)) fs (write f c rows) (f rows))
        by (try exact Hdb; try exact Hv'; reflexivity).
      rewrite (items_sqlite self fs c rows) by assumption.
      subst f. rewrite !map_map. apply map_ext. intros r. apply mark_done_sqlite.
Qed.

Lemma done_missing self fs name :
  is_store self fs -> name_exists name self fs = false ->
  done name self fs = (Raise not_found, self, fs).
Proof.
  intros Hstore Hex. unfold done.
  destruct Hstore as [[Hdb Hok] | [Hdb (c & rows & Hc & Hv)]].
  - rewrite name_exists_json in Hex by assumption.
    rewrite Hdb. simpl.
    destruct (od_get name (_todos self)); [discriminate | reflexivity].
  - rewrite (name_exists_sqlite name self fs c rows) in Hex by assumption.
    rewrite Hdb. simpl. unfold mbind, M_bind.
    rewrite (conn_execute_has_todo self fs c rows) by assumption.
    destruct (List.filter _ rows); [reflexivity | discriminate].
Qed.

Lemma add_existing self fs name description due_date :
  is_store self fs -> name_exists name self fs = true ->
  exists e, add name description due_date self fs = (Raise e, self, fs).
Proof.
  intros Hstore Hex. unfold add.
  destruct (due_date_str due_date) as [due | e]; [| eauto].
  exists duplicate_name.
  destruct Hstore as [[Hdb Hok] | [Hdb (c & rows & Hc & Hv)]].
  - rewrite name_exists_json in Hex by assumption.
    rewrite Hdb. simpl.
    destruct (od_get name (_todos self)) as [r |] eqn:Hget; [| discriminate].
    rewrite (record_ok_truthy r); [reflexivity |].
    eapply records_ok_lookup; eauto using todos_ok_records.
  - rewrite (name_exists_sqlite name self fs c rows) in Hex by assumption.
    rewrite Hdb. simpl. unfold mbind, M_bind.
    rewrite (conn_execute_has_todo self fs c rows) by assumption.
    destruct (List.filter _ rows); [discriminate |]. reflexivity.
Qed.

Lemma remove_ok self fs name :
  is_store self fs ->
  remove name self fs = (Raise (KeyError name), self, fs) \/
  exists self' fs',
    remove name self fs = (Ok tt, self', fs') /\
    is_store self' fs' /\
    items self' fs' = List.filter (fun x => negb (has_name name x)) (items self fs).
Proof.
  intros Hstore. unfold remove.
  destruct Hstore as [[Hdb Hok] | [Hdb (c & rows & Hc & Hv)]].
  - rewrite Hdb. simpl.
    destruct (od_get name (_todos self)); [right | left; reflexivity].
    eexists _, _. split; [reflexivity |]. split.
    + left. split; [exact Hdb | apply todos_ok_od_del, Hok].
    + unfold items. simpl. rewrite Hdb. simpl.
      apply od_del_items, todos_ok_records, Hok.
  - right. rewrite Hdb. simpl. unfold mbind, M_bind.
    set (f := List.filter (fun r => negb (String.eqb (r_name r) name))).
    rewrite (conn_execute_write self fs c rows _ f) by (try assumption; reflexivity).
    unfold mret, M_ret.
    assert (visible (write f c rows) fs = Ok (f rows)) as Hv'
      by (eapply visible_write, visible_open, Hv).
    eexists _, _. split; [reflexivity |]. split.
    + right. split; [exact Hdb |]. exists (write f c rows), (f rows). auto.
    + rewrite (items_sqlite (set_conn self (write f c rows)) fs (write f c rows) (f rows))
        by (try exact Hdb; try exact Hv'; reflexivity).
      rewrite (items_sqlite self fs c rows) by assumption.
      subst f. apply filter_negb_name_items.
Qed.

(** *** Names *)

Lemma mark_done_name name x : mark_done name x !! "name" = x !! "name".
Proof.
  unfold mark_done. destruct (has_name name x); [| reflexivity].
  apply lookup_insert_ne. discriminate.
Qed.

Lemma name_absent name l :
  existsb (has_name name) l = false ->
  Some (PStr name) ∉ map (fun x : pydict => x !! "name") l.
Proof.
  induction l as [| x l IH]; simpl; intros H Hin.
  - apply elem_of_nil in Hin. exact Hin.
  - apply orb_false_elim in H as [Hx Hl].
    apply elem_of_cons in Hin as [Heq | Hin]; [| exact (IH Hl Hin)].
    unfold has_name in Hx. apply bool_decide_eq_false_1 in Hx. congruence.
Qed.

Lemma NoDup_map_filter {A B} (f : A -> B) (p : A -> bool) l :
  NoDup (map f l) -> NoDup (map f (List.filter p l)).
Proof.
  induction l as [| x l IH]; simpl; [auto |].
  intros Hnd. inversion Hnd as [| ? ? Hnotin Hnd']; subst.
  destruct (p x); simpl; [| apply IH, Hnd'].
  constructor; [| apply IH, Hnd'].
  intros Hin. apply Hnotin.
  apply list_elem_of_fmap in Hin as [y [-> Hy]].
  apply list_elem_of_In, filter_In in Hy as [Hy _].
  apply list_elem_of_fmap. exists y. split; [reflexivity | apply list_elem_of_In, Hy].
Qed.

(** Whatever a call returns, it leaves a store, and distinct names stay
    distinct. *)
Lemma call_keeps_store o self fs :
  is_store self fs -> NoDup (names self fs) ->
  is_store (snd (fst (call o self fs))) (snd (call o self fs)) /\
  NoDup (names (snd (fst (call o self fs))) (snd (call o self fs))).
Proof.
  intros Hstore Hnd.
  destruct o as [name description due_date | name | name]; simpl.
  - destruct (name_exists name self fs) eqn:Hex.
    + destruct (add_existing self fs name description due_date Hstore Hex) as [e ->].
      split; assumption.
    + destruct (due_date_str due_date) as [due | e] eqn:Hdue.
      * destruct (add_new self fs name description due_date due Hstore Hex Hdue)
          as (self' & fs' & x & -> & Hstore' & Hitems & Hname & _).
        simpl. split; [exact Hstore' |].
        unfold names in *. rewrite Hitems, map_app. simpl.
        apply NoDup_app. split; [exact Hnd |]. split; [| apply NoDup_singleton].
        intros y Hy Hin. apply list_elem_of_singleton in Hin. subst y.
        unfold has_name in Hname. apply bool_decide_eq_true_1 in Hname.
        rewrite Hname in Hy. revert Hy. apply name_absent. exact Hex.
      * unfold add. rewrite Hdue. split; assumption.
  - destruct (remove_ok self fs name Hstore)
      as [-> | (self' & fs' & -> & Hstore' & Hitems)]; [split; assumption |].
    simpl. split; [exact Hstore' |].
    unfold names in *. rewrite Hitems. apply NoDup_map_filter, Hnd.
  - destruct (name_exists name self fs) eqn:Hex.
    + destruct (done_ok self fs name Hstore Hex) as (self' & fs' & -> & Hstore' & Hitems).
      simpl. split; [exact Hstore' |].
      unfold names in *. rewrite Hitems, map_map.
      erewrite map_ext; [exact Hnd |]. intros x. apply mark_done_name.
    + rewrite (done_missing self fs name Hstore Hex). split; assumption.
Qed.

(** *** Order and ties in [sort] *)

Lemma string_ltb_irrefl s : String.ltb s s = false.
Proof.
  unfold String.ltb.
  destruct (String.compare s s) eqn:E; try reflexivity.
  pose proof (String.compare_antisym s s) as H. rewrite E in H. discriminate.
Qed.

Lemma py_lt_irrefl k : py_lt k k <> Some true.
Proof.
  destruct k as [| b | z | s]; simpl; try discriminate.
  - rewrite Z.ltb_irrefl. discriminate.
  - rewrite Z.ltb_irrefl. discriminate.
  - rewrite string_ltb_irrefl. discriminate.
Qed.

Lemma insert_by_ties {A} (k : pyval) (kx : pyval * A) l r :
  insert_by kx l = Ok r ->
  List.filter (fun p => bool_decide (fst p = k)) r =
  List.filter (fun p => bool_decide (fst p = k)) (kx :: l).
Proof.
  revert r. induction l as [| ky l IH]; simpl; intros r.
  - intros [= <-]. reflexivity.
  - destruct (py_lt (fst ky) (fst kx)) as [[] |] eqn:Hlt; [| | discriminate].
    + destruct (insert_by kx l) as [r' |]; simpl; [| discriminate].
      intros [= <-]. simpl. rewrite (IH r' eq_refl). simpl.
      destruct (bool_decide (fst kx = k)) eqn:Hx;
        destruct (bool_decide (fst ky = k)) eqn:Hy; try reflexivity.
      apply bool_decide_eq_true_1 in Hx, Hy.
      exfalso. rewrite Hx, Hy in Hlt. exact (py_lt_irrefl k Hlt).
    + intros [= <-]. reflexivity.
Qed.

Lemma stable_sort_ties {A} (k : pyval) (l r : list (pyval * A)) :
  stable_sort l = Ok r ->
  List.filter (fun p => bool_decide (fst p = k)) r =
  List.filter (fun p => bool_decide (fst p = k)) l.
Proof.
  revert r. induction l as [| kx l IH]; simpl; intros r.
  - intros [= <-]. reflexivity.
  - destruct (stable_sort l) as [r' |]; simpl; [| discriminate].
    intros H. rewrite (insert_by_ties k kx r' r H). simpl.
    rewrite (IH r' eq_refl). reflexivity.
Qed.

Lemma filter_map_snd {A} (key : A -> result pyval) (k : pyval)
  (s : list (pyval * A)) :
  List.filter (fun x => bool_decide (key x = Ok k)) (map snd s) =
  map snd (List.filter (fun p => bool_decide (key (snd p) = Ok k)) s).
Proof.
  induction s as [| p s IH]; simpl; [reflexivity |].
  destruct (bool_decide (key (snd p) = Ok k)); simpl; rewrite IH; reflexivity.
Qed.

Lemma filter_consistent {A} (key : A -> result pyval) (k : pyval)
  (s : list (pyval * A)) :
  Forall (fun kx => key (snd kx) = Ok (fst kx)) s ->
  List.filter (fun p => bool_decide (key (snd p) = Ok k)) s =
  List.filter (fun p => bool_decide (fst p = k)) s.
Proof.
  intros H. apply filter_ext_in. intros p Hin.
  rewrite Forall_forall in H. specialize (H p (proj2 (list_elem_of_In _ _) Hin)).
  rewrite H. apply bool_decide_ext. split; congruence.
Qed.

(** Elements with the same key come out of [sort] in the order they went
    in, whichever the direction. *)
Lemma sort_ties {A} (key : A -> result pyval) reverse l r (k : pyval) :
  sort key reverse l = Ok r ->
  List.filter (fun x => bool_decide (key x = Ok k)) r =
  List.filter (fun x => bool_decide (key x = Ok k)) l.
Proof.
  unfold sort. destruct (rmap key l) as [keys |] eqn:Hk; simpl; [| discriminate].
  apply rmap_Forall2 in Hk.
  pose proof (Forall2_length _ _ _ Hk) as Hlen.
  pose proof (zip_keys_consistent key l keys Hk) as Hcons.
  assert (forall s, Permutation s (zip keys l) ->
            Forall (fun kx => key (snd kx) = Ok (fst kx)) s) as Hperm.
  { intros s Hs. rewrite Forall_forall in *. intros p Hp. apply Hcons.
    rewrite <- Hs. exact Hp. }
  destruct reverse.
  - destruct (stable_sort (rev (zip keys l))) as [s |] eqn:Hs; simpl; [| discriminate].
    intros [= <-].
    rewrite List.filter_rev, (filter_map_snd key k).
    rewrite (filter_consistent key k)
      by (apply Hperm; rewrite (stable_sort_perm _ _ Hs); symmetry; apply Permutation_rev).
    rewrite (stable_sort_ties k _ _ Hs), List.filter_rev, map_rev, rev_involutive.
    rewrite <- (filter_consistent key k) by exact Hcons.
    rewrite <- (filter_map_snd key k), snd_zip_keys by congruence. reflexivity.
  - destruct (stable_sort (zip keys l)) as [s |] eqn:Hs; simpl; [| discriminate].
    intros [= <-].
    rewrite (filter_map_snd key k).
    rewrite (filter_consistent key k) by (apply Hperm, (stable_sort_perm _ _ Hs)).
    rewrite (stable_sort_ties k _ _ Hs).
    rewrite <- (filter_consistent key k) by exact Hcons.
    rewrite <- (filter_map_snd key k), snd_zip_keys by congruence. reflexivity.
Qed.

(** Descending [sort], read backwards, is ascending. *)
Lemma sort_desc_sorted {A} (key : A -> result pyval) l r :
  sort key true l = Ok r -> Sorted (key_le key) (rev r).
Proof.
  unfold sort. destruct (rmap key l) as [keys |] eqn:Hk; simpl; [| discriminate].
  apply rmap_Forall2 in Hk.
  destruct (stable_sort (rev (zip keys l))) as [s |] eqn:Hs; simpl; [| discriminate].
  intros [= <-]. rewrite rev_involutive. apply sorted_map_snd.
  - apply zip_keys_consistent in Hk.
    apply stable_sort_perm in Hs.
    rewrite Forall_forall in *. intros kx Hin. apply Hk.
    rewrite Hs in Hin. rewrite (Permutation_rev (zip keys l)). exact Hin.
  - eapply stable_sort_sorted, Hs.
Qed.

Lemma py_le_trans a b c : py_le a b -> py_le b c -> py_le a c.
Proof.
  unfold py_le.
  destruct a as [| x | x | x], b as [| y | y | y], c as [| z | z | z]; simpl;
    try discriminate; intros [= H1] [= H2]; f_equal;
    try (apply Z.ltb_ge; apply Z.ltb_ge in H1, H2; lia).
  pose proof (string_leb_ltb x y) as Hxy. pose proof (string_leb_ltb y z) as Hyz.
  rewrite H1 in Hxy. rewrite H2 in Hyz. simpl in *.
  pose proof (string_leb_trans _ _ _ Hxy Hyz) as Hxz.
  rewrite string_leb_ltb in Hxz. apply negb_true_iff in Hxz. exact Hxz.
Qed.

#[global] Instance key_le_trans {A} (key : A -> result pyval) : Transitive (key_le key).
Proof.
  intros x y z (kx & ky & Hx & Hy & Hxy) (ky' & kz & Hy' & Hz & Hyz).
  rewrite Hy in Hy'. injection Hy' as <-.
  exists kx, kz. repeat split; try assumption. eapply py_le_trans; eassumption.
Qed.

Lemma py_le_str_antisym s t : py_le (PStr s) (PStr t) -> py_le (PStr t) (PStr s) -> s = t.
Proof.
  unfold py_le. simpl. intros [= H1] [= H2].
  apply String.leb_antisym; rewrite string_leb_ltb; apply negb_true_iff; assumption.
Qed.

Lemma NoDup_map_inj {A B} (f : A -> B) l x y :
  NoDup (map f l) -> x ∈ l -> y ∈ l -> f x = f y -> x = y.
Proof.
  induction l as [| a l IH]; intros Hnd Hx Hy Heq.
  - apply elem_of_nil in Hx. contradiction.
  - simpl in Hnd. inversion Hnd as [| ? ? Hnotin Hnd']; subst.
    apply elem_of_cons in Hx as [-> | Hx]; apply elem_of_cons in Hy as [-> | Hy].
    + reflexivity.
    + exfalso. apply Hnotin. rewrite Heq. apply list_elem_of_fmap. eauto.
    + exfalso. apply Hnotin. rewrite <- Heq. apply list_elem_of_fmap. eauto.
    + apply IH; assumption.
Qed.

Lemma items_name_str self fs :
  is_store self fs ->
  Forall (fun x : pydict => exists s, x !! "name" = Some (PStr s)) (items self fs).
Proof.
  intros [[Hdb Hok] | [Hdb (c & rows & Hc & Hv)]].
  - unfold items. rewrite Hdb. simpl.
    apply todos_ok_records in Hok. unfold records_ok in Hok.
    rewrite forallb_forall in Hok. rewrite Forall_forall. intros x Hx.
    apply list_elem_of_fmap in Hx as [[k r] [-> Hin]].
    apply list_elem_of_In in Hin. specialize (Hok _ Hin). simpl in Hok.
    exists k. apply materialize_name, Hok.
  - rewrite (items_sqlite self fs c rows) by assumption.
    rewrite Forall_forall. intros x Hx.
    apply list_elem_of_fmap in Hx as [r [-> _]].
    eexists. apply fetch_name.
Qed.

Lemma sorted_map_fetch_name l :
  Sorted (key_le (fun r : row => Ok (column "name" r))) l ->
  Sorted (key_le (getitem "name")) (map fetch l).
Proof.
  induction 1 as [| r l _ IH Hhd]; simpl; constructor; [exact IH |].
  destruct Hhd as [| r' l' (kx & ky & Hkx & Hky & Hle)]; simpl; constructor.
  exists kx, ky. unfold getitem. rewrite !fetch_name. auto.
Qed.

(** Listing by name: ascending as it stands, descending read backwards. *)
Lemma list_name_sorted self fs l (reverse : bool) :
  is_store self fs ->
  list_ "name" (if reverse then "desc" else "asc") self fs = (Ok l, self, fs) ->
  Sorted (key_le (getitem "name")) (if reverse then rev l else l).
Proof.
  intros Hstore Hl. unfold list_ in Hl.
  assert (is_in (if reverse then "desc" else "asc") sort_orders = true) as Hso
    by (destruct reverse; reflexivity).
  rewrite Hso in Hl. simpl in Hl.
  destruct Hstore as [[Hdb Hok] | [Hdb (c & rows & Hc & Hv)]].
  - rewrite Hdb in Hl. simpl in Hl. injection Hl as Hl.
    destruct reverse; simpl in Hl.
    + apply (sort_desc_sorted (getitem "name")) in Hl. exact Hl.
    + apply (sort_asc_sorted (getitem "name")) in Hl. exact Hl.
  - rewrite Hdb in Hl. simpl in Hl.
    rewrite (conn_execute_select_all self fs c rows) in Hl by assumption.
    injection Hl as Hl. unfold order_by in Hl.
    destruct reverse; simpl in Hl.
    + destruct (sort (fun r : row => Ok (column "name" r)) true rows)
        as [l0 |] eqn:Hs; simpl in Hl; [| discriminate].
      injection Hl as <-. apply sort_desc_sorted in Hs.
      rewrite <- map_rev. apply sorted_map_fetch_name, Hs.
    + destruct (sort (fun r : row => Ok (column "name" r)) false rows)
        as [l0 |] eqn:Hs; simpl in Hl; [| discriminate].
      injection Hl as <-. apply sort_asc_sorted in Hs.
      apply sorted_map_fetch_name, Hs.
Qed.

Lemma field_is_getitem field v (x : pydict) :
  field_is field v x = bool_decide (getitem field x = Ok v).
Proof.
  unfold field_is, getitem. apply bool_decide_ext.
  destruct (x !! field); split; congruence.
Qed.

Lemma items_done_bool self fs :
  is_store self fs ->
  Forall (fun x : pydict => exists b, x !! "done" = Some (PBool b)) (items self fs).
Proof.
  intros [[Hdb Hok] | [Hdb (c & rows & Hc & Hv)]].
  - unfold items. rewrite Hdb. simpl.
    apply todos_ok_records in Hok. unfold records_ok in Hok.
    rewrite forallb_forall in Hok. rewrite Forall_forall. intros x Hx.
    apply list_elem_of_fmap in Hx as [[k r] [-> Hin]].
    apply list_elem_of_In in Hin. specialize (Hok _ Hin). simpl in Hok.
    apply record_ok_fields in Hok as (_ & _ & Hdone & _).
    unfold materialize. simpl. rewrite lookup_union.
    destruct Hdone as [-> | [b ->]]; eexists; reflexivity.
  - rewrite (items_sqlite self fs c rows) by assumption.
    rewrite Forall_forall. intros x Hx.
    apply list_elem_of_fmap in Hx as [r [-> _]].
    eexists. apply fetch_done.
Qed.

#[global] Instance done_le_trans : Transitive done_le.
Proof.
  intros x y z (a & b & Hx & Hy & Hab) (b' & c & Hy' & Hz & Hbc).
  rewrite Hy in Hy'. injection Hy' as <-.
  exists a, c. repeat split; auto.
Qed.

Lemma sorted_done_json l :
  Forall (fun x : pydict => exists b, x !! "done" = Some (PBool b)) l ->
  Sorted (key_le (getitem "done")) l -> Sorted done_le l.
Proof.
  intros Hall Hs. induction Hs as [| x l Hs IH Hhd]; [constructor |].
  inversion Hall as [| ? ? [a Hx] Hall']; subst.
  constructor; [apply IH, Hall' |].
  destruct Hhd as [| y l' (kx & ky & Hkx & Hky & Hle)]; constructor.
  inversion Hall' as [| ? ? [b Hy] _]; subst.
  unfold getitem in Hkx, Hky. rewrite Hx in Hkx. rewrite Hy in Hky.
  injection Hkx as <-. injection Hky as <-.
  exists a, b. repeat split; try assumption.
  unfold py_le in Hle. simpl in Hle. injection Hle as Hle.
  destruct a, b; try reflexivity; discriminate.
Qed.

Lemma sorted_done_sqlite l :
  Forall (fun r => exists b, r_done r = adapt_bool b) l ->
  Sorted (key_le (fun r : row => Ok (column "done" r))) l ->
  Sorted done_le (map fetch l).
Proof.
  intros Hall Hs. induction Hs as [| x l Hs IH Hhd]; simpl; [constructor |].
  inversion Hall as [| ? ? [a Hx] Hall']; subst.
  constructor; [apply IH, Hall' |].
  destruct Hhd as [| y l' (kx & ky & Hkx & Hky & Hle)]; simpl; constructor.
  inversion Hall' as [| ? ? [b Hy] _]; subst.
  injection Hkx as <-. injection Hky as <-.
  exists a, b. rewrite !fetch_done, Hx, Hy.
  repeat split; try (destruct a; reflexivity); try (destruct b; reflexivity).
  unfold py_le, column in Hle. simpl in Hle. rewrite Hx, Hy in Hle.
  injection Hle as Hle. destruct a, b; try reflexivity; discriminate.
Qed.

End CoverageFacts.

Import Coverage CoverageFacts.

(** X1. Nothing but [close] on a json object ever writes: every call of
    [add], [remove] and [done], in any number and on any object, hands back
    the file system it was given, and so does [list]; [close] itself leaves
    the file system alone unless the type is json.  What a relational
    session changed therefore never reaches the file. *)
Theorem X1_only_json_close_writes
  (self : TodoApp) (fs : filesystem) (ops : list op)
  (sort_by sort_order : string) :
  let st := session ops self fs in
  snd st = fs /\
  db (fst st) = db self /\
  db_type (fst st) = db_type self /\
  snd (list_ sort_by sort_order (fst st) (snd st)) = fs /\
  (db_type self <> "json" -> snd (close (fst st) (snd st)) = fs).
Proof.
  intros st. subst st.
  destruct (session_untouched ops self fs) as (Hdb & Htype & Hfs).
  repeat split; try assumption.
  - destruct (list_ sort_by sort_order _ _) as [[r self'] fs'] eqn:Hl.
    apply preserves_list in Hl as (_ & _ & ->). exact Hfs.
  - intros Hne. unfold close, save. rewrite Htype, Hfs.
    destruct (String.eqb_spec (db_type self) "json"); [contradiction |].
    destruct (String.eqb (db_type self) "sqlite3"); [| reflexivity].
    destruct (_conn _); reflexivity.
Qed.

(** X2. [load] of the relational backend on a fresh object.  If the path
    holds no file, or a database without the table, the outcome is a store
    with no items over a file that now has the empty table.  If the table
    is there, the file system is handed back as it was and the store shows
    exactly the rows of the file: the table is never made twice and never
    emptied. *)
Theorem X2_load_sqlite3_creates_schema_once (path : string) (fs : filesystem) :
  (fs !! path = None \/ fs !! path = Some (SqliteDb None) ->
   exists self',
     load (__init__ path "sqlite3") fs
       = (Ok tt, self', <[path := SqliteDb (Some [])]> fs) /\
     is_store self' (<[path := SqliteDb (Some [])]> fs) /\
     items self' (<[path := SqliteDb (Some [])]> fs) = []) /\
  (forall rows, fs !! path = Some (SqliteDb (Some rows)) ->
   exists self',
     load (__init__ path "sqlite3") fs = (Ok tt, self', fs) /\
     is_store self' fs /\
     items self' fs = map fetch rows).
Proof.
  split.
  - intros Hfile.
    set (c := {| database := path; pending := None; closed := false |}).
    exists (set_conn (__init__ path "sqlite3") c).
    assert (load (__init__ path "sqlite3") fs
            = (Ok tt, set_conn (__init__ path "sqlite3") c,
               <[path := SqliteDb (Some [])]> fs)) as Hload.
    { unfold load, connect, executescript_CREATE_TODO_TABLE, commit. simpl.
      destruct Hfile as [Hfile | Hfile]; rewrite Hfile; simpl.
      - rewrite !lookup_insert_eq. simpl.
        rewrite insert_insert_eq. reflexivity.
      - rewrite ?Hfile. simpl. rewrite ?Hfile. reflexivity. }
    assert (visible c (<[path := SqliteDb (Some [])]> fs) = Ok []) as Hv.
    { unfold visible. simpl. rewrite lookup_insert_eq. reflexivity. }
    split; [exact Hload |]. split.
    + right. split; [reflexivity |]. exists c, []. split; [reflexivity | exact Hv].
    + rewrite (items_sqlite _ _ c []); [reflexivity | reflexivity | reflexivity | exact Hv].
  - intros rows Hfile.
    set (c := {| database := path; pending := None; closed := false |}).
    exists (set_conn (__init__ path "sqlite3") c).
    assert (visible c fs = Ok rows) as Hv.
    { unfold visible. simpl. rewrite Hfile. reflexivity. }
    split.
    + unfold load, connect. simpl. rewrite Hfile. simpl. rewrite ?Hfile. reflexivity.
    + split.
      * right. split; [reflexivity |]. exists c, rows. split; [reflexivity | exact Hv].
      * rewrite (items_sqlite _ _ c rows); [reflexivity | reflexivity | reflexivity | exact Hv].
Qed.

(** X3. A document session that changes nothing.  [load] on a fresh object
    followed by [list] and [close] hands back the file system as it was
    when the path holds a document; when the path holds nothing, [load]
    still succeeds, with no items and without making the file, and it is
    [close] that creates it, holding the empty collection. *)
Theorem X3_json_read_only_session
  (path : string) (fs : filesystem) (sort_by sort_order : string) :
  let self0 := __init__ path "json" in
  (forall doc, fs !! path = Some (JsonText doc) ->
     load self0 fs = (Ok tt, set_todos self0 doc, fs) /\
     snd (list_ sort_by sort_order (set_todos self0 doc) fs) = fs /\
     close (set_todos self0 doc) fs = (Ok tt, set_todos self0 doc, fs)) /\
  (fs !! path = None ->
     load self0 fs = (Ok tt, self0, fs) /\
     items self0 fs = [] /\
     close self0 fs = (Ok tt, self0, <[path := JsonText []]> fs)).
Proof.
  intros self0. split.
  - intros doc Hfile. split; [| split].
    + unfold load. simpl. rewrite Hfile. reflexivity.
    + destruct (list_ sort_by sort_order _ _) as [[r self'] fs'] eqn:Hl.
      apply preserves_list in Hl as (_ & _ & ->). reflexivity.
    + unfold close, save. simpl. rewrite insert_id by exact Hfile. reflexivity.
  - intros Hfile. split; [| split].
    + unfold load. simpl. rewrite Hfile. reflexivity.
    + reflexivity.
    + reflexivity.
Qed.

(** X4. Only [load] rejects an unsupported database type.  On an object of
    any other type than json and sqlite3, [load] raises the [ValueError]
    and changes nothing, while [save], [close], [remove] and [done] return
    normally without any effect, [list] with valid arguments returns the
    empty list, and [add] returns normally whenever the due date can be
    formatted. *)
Theorem X4_unsupported_type_fails_only_in_load
  (self : TodoApp) (fs : filesystem) (name description : string)
  (due_date : option datetime) (sort_by sort_order : string) :
  supported (db_type self) = false ->
  load self fs =
    (Raise (ValueError "only json or sqlite3 are supported database file types"),
     self, fs) /\
  save self fs = (Ok tt, self, fs) /\
  close self fs = (Ok tt, self, fs) /\
  remove name self fs = (Ok tt, self, fs) /\
  done name self fs = (Ok tt, self, fs) /\
  (is_in sort_by sort_fields = true -> is_in sort_order sort_orders = true ->
   list_ sort_by sort_order self fs = (Ok [], self, fs)) /\
  (forall due, due_date_str due_date = Ok due ->
   add name description due_date self fs = (Ok tt, self, fs)).
Proof.
  unfold supported. intros H. apply orb_false_elim in H as [Hj Hs].
  unfold load, save, close, remove, done, list_, add, save. rewrite Hj, Hs.
  repeat split.
  - intros -> ->. reflexivity.
  - intros due ->. reflexivity.
Qed.

Lemma X4_witness :
  let self := __init__ "todos.db" "pgsql" in
  supported (db_type self) = false /\
  load self test_files =
    (Raise (ValueError "only json or sqlite3 are supported database file types"),
     self, test_files) /\
  done "Todo 1" self test_files = (Ok tt, self, test_files).
Proof.
  intros self. split; [reflexivity |].
  destruct (X4_unsupported_type_fails_only_in_load self test_files "Todo 1" ""
              None "name" "asc" eq_refl) as (Hload & _ & _ & _ & Hdone & _).
  split; assumption.
Defined.

(** X5. The relational backend before [load].  [__init__] leaves the
    connection unset, so on a sqlite3 object that was never loaded [list],
    [add], [remove], [done] and [close] all raise [AttributeError] and
    change nothing, where the document backend would work on the empty
    collection. *)
Theorem X5_sqlite3_needs_load
  (self : TodoApp) (fs : filesystem) (name description : string)
  (due_date : option datetime) (sort_by sort_order : string) :
  db_type self = "sqlite3" ->
  _conn self = None ->
  remove name self fs = (Raise AttributeError, self, fs) /\
  done name self fs = (Raise AttributeError, self, fs) /\
  close self fs = (Raise AttributeError, self, fs) /\
  (is_in sort_by sort_fields = true -> is_in sort_order sort_orders = true ->
   list_ sort_by sort_order self fs = (Raise AttributeError, self, fs)) /\
  (forall due, due_date_str due_date = Ok due ->
   add name description due_date self fs = (Raise AttributeError, self, fs)).
Proof.
  intros Hdb Hc.
  unfold remove, done, close, list_, add, mbind, M_bind, conn_execute.
  rewrite Hdb, Hc. simpl. repeat split.
  - intros -> ->. simpl. rewrite ?Hc. reflexivity.
  - intros due ->. rewrite ?Hc. reflexivity.
Qed.

Lemma X5_witness :
  let self := __init__ "todos.sqlite3" "sqlite3" in
  db_type self = "sqlite3" /\ _conn self = None /\
  done "Todo 1" self test_files = (Raise AttributeError, self, test_files) /\
  close self test_files = (Raise AttributeError, self, test_files).
Proof.
  intros self. split; [reflexivity |]. split; [reflexivity |].
  destruct (X5_sqlite3_needs_load self test_files "Todo 1" "" None "name" "asc"
              eq_refl eq_refl) as (_ & Hdone & Hclose & _).
  split; assumption.
Defined.

(** X6. [list] checks its arguments before it looks at the object.  For
    every object and file system, loaded or not, a sort field outside the
    four names raises the sort-by [ValueError], and a valid field with an
    order other than asc and desc raises the order-by [ValueError]; either
    way nothing changes.  The field is checked first, and the check is
    exact: upper-case spellings are rejected too. *)
Theorem X6_list_rejects_bad_arguments
  (self : TodoApp) (fs : filesystem) (sort_by sort_order : string) :
  (is_in sort_by sort_fields = false ->
   list_ sort_by sort_order self fs =
   (Raise (ValueError "Invalid sort by, valid values are: [description, done, due_date, name]"),
    self, fs)) /\
  (is_in sort_by sort_fields = true -> is_in sort_order sort_orders = false ->
   list_ sort_by sort_order self fs =
   (Raise (ValueError "Invalid order by, valid values are: [asc, desc]"), self, fs)) /\
  (is_in sort_by sort_fields = true <->
   sort_by = "name" \/ sort_by = "description" \/ sort_by = "done" \/
   sort_by = "due_date") /\
  (is_in sort_order sort_orders = true <-> sort_order = "asc" \/ sort_order = "desc").
Proof.
  split; [| split; [| split]].
  - intros H. unfold list_. rewrite H. reflexivity.
  - intros H1 H2. unfold list_. rewrite H1, H2. reflexivity.
  - unfold is_in, sort_fields. simpl. rewrite !orb_true_iff, !String.eqb_eq.
    intuition discriminate.
  - unfold is_in, sort_orders. simpl. rewrite !orb_true_iff, !String.eqb_eq.
    intuition discriminate.
Qed.

(** X7. The bool adapter and converter of the [done] column.  What
    [adapt_bool] writes, [convert_bool] reads back as the same bool; and of
    all integers a column may hold, [convert_bool] reads only 1 as [True]. *)
Theorem X7_bool_adapter_round_trip :
  (forall b, convert_bool (pretty (adapt_bool b)) = b) /\
  (forall z : Z, convert_bool (pretty z) = true <-> z = 1).
Proof.
  split.
  - intros []; reflexivity.
  - intros z. unfold convert_bool.
    destruct (String.eqb_spec (pretty z) "1") as [Heq | Hne].
    + split; [intros _ | reflexivity].
      change "1" with (pretty 1%Z) in Heq. apply (inj pretty) in Heq. exact Heq.
    + split; [discriminate |]. intros ->. exfalso. apply Hne. reflexivity.
Qed.

Lemma dict_factory_fold_notin (fields : list string) (row : list pyval)
  (m : pydict) (k : string) :
  k ∉ fields ->
  fold_left (fun d kv => <[fst kv := snd kv]> d) (zip fields row) m !! k = m !! k.
Proof.
  revert row m. induction fields as [| f fields IH]; intros row m Hk; [reflexivity |].
  destruct row as [| r row]; [reflexivity |]. simpl.
  rewrite IH by (intros Hin; apply Hk; right; exact Hin).
  apply lookup_insert_ne. intros ->. apply Hk. left.
Qed.

(** X8. [dict_factory] with distinct column names: the dict it builds maps
    the name of every column that has a value to that value, and holds no
    other key. *)
Theorem X8_dict_factory_maps_columns (fields : list string) (row : list pyval) :
  NoDup fields ->
  (forall i k v, fields !! i = Some k -> row !! i = Some v ->
     dict_factory fields row !! k = Some v) /\
  (forall k, k ∉ fields -> dict_factory fields row !! k = None).
Proof.
  intros Hnd. unfold dict_factory. split.
  - generalize (∅ : pydict) as m. revert row.
    induction Hnd as [| f fields Hf Hnd IH]; intros row m i k v Hi Hv.
    + rewrite lookup_nil in Hi. discriminate.
    + destruct row as [| r row]; [rewrite lookup_nil in Hv; discriminate |].
      destruct i as [| i]; simpl in *.
      * injection Hi as ->. injection Hv as ->.
        rewrite dict_factory_fold_notin by exact Hf. apply lookup_insert_eq.
      * eapply IH; eassumption.
  - intros k Hk. rewrite dict_factory_fold_notin by exact Hk. apply lookup_empty.
Qed.

Lemma X8_witness :
  NoDup ["name"; "description"; "due_date"; "done"] /\
  dict_factory ["name"; "description"; "due_date"; "done"]
    [PStr "Todo 1"; PStr ""; PStr ""; PBool false] !! "due_date" = Some (PStr "") /\
  dict_factory ["name"; "description"; "due_date"; "done"]
    [PStr "Todo 1"; PStr ""; PStr ""; PBool false] !! "1" = None.
Proof.
  assert (NoDup ["name"; "description"; "due_date"; "done"]) as Hnd.
  { apply (bool_decide_unpack _). vm_compute. exact I. }
  split; [exact Hnd |].
  destruct (X8_dict_factory_maps_columns ["name"; "description"; "due_date"; "done"]
              [PStr "Todo 1"; PStr ""; PStr ""; PBool false] Hnd) as [Hin Hout].
  split.
  - apply (Hin 2%nat); reflexivity.
  - apply Hout. apply (bool_decide_unpack _). vm_compute. exact I.
Defined.

(** X9. [done] changes the flag and nothing else.  In either backend, after
    [done] on an existing name the items are the former items, in the same
    order, with [done = True] put on the item of that name; names,
    descriptions and due dates, and all other items, are as before. *)
Theorem X9_done_changes_only_the_flag
  (self : TodoApp) (fs : filesystem) (name : string) :
  is_store self fs ->
  name_exists name self fs = true ->
  exists self' fs',
    done name self fs = (Ok tt, self', fs') /\
    items self' fs' = map (mark_done name) (items self fs) /\
    (forall x field, field <> "done" -> mark_done name x !! field = x !! field).
Proof.
  intros Hstore Hex.
  destruct (done_ok self fs name Hstore Hex) as (self' & fs' & Hdone & _ & Hitems).
  exists self', fs'. repeat split; try assumption.
  intros x field Hne. unfold mark_done.
  destruct (has_name name x); [| reflexivity].
  apply lookup_insert_ne. congruence.
Qed.

Lemma X9_witness :
  is_store (fst sqlite_fixture) (snd sqlite_fixture) /\
  name_exists "Todo 3" (fst sqlite_fixture) (snd sqlite_fixture) = true /\
  exists self' fs',
    done "Todo 3" (fst sqlite_fixture) (snd sqlite_fixture) = (Ok tt, self', fs') /\
    items self' fs'
    = map (mark_done "Todo 3") (items (fst sqlite_fixture) (snd sqlite_fixture)).
Proof.
  split; [apply sqlite_fixture_is_store |].
  split; [vm_compute; reflexivity |].
  destruct (X9_done_changes_only_the_flag
              (fst sqlite_fixture) (snd sqlite_fixture) "Todo 3")
    as (self' & fs' & Hdone & Hitems & _).
  - apply sqlite_fixture_is_store.
  - vm_compute; reflexivity.
  - exists self', fs'. split; assumption.
Defined.

(** X10. [add] appends and touches nothing else.  In either backend, after
    a successful [add] the items are the former items, unchanged and in the
    same order, followed by one new item that holds the name, the
    description as given, the stored form of the due date and
    [done = False]. *)
Theorem X10_add_appends_the_new_item
  (self : TodoApp) (fs : filesystem) (name description : string)
  (due_date : option datetime) (due : string) :
  is_store self fs ->
  name_exists name self fs = false ->
  due_date_str due_date = Ok due ->
  exists self' fs',
    add name description due_date self fs = (Ok tt, self', fs') /\
    items self' fs' = items self fs ++ [new_item name description due].
Proof.
  intros Hstore Hex Hdue. unfold add. rewrite Hdue.
  destruct Hstore as [[Hdb Hok] | [Hdb (c & rows & Hc & Hv)]].
  - rewrite name_exists_json in Hex by assumption.
    rewrite Hdb. simpl.
    destruct (od_get name (_todos self)) eqn:Hget; [discriminate |].
    eexists _, _. split; [reflexivity |].
    unfold items. simpl. rewrite Hdb. simpl.
    rewrite od_set_new by exact Hget. rewrite map_app. reflexivity.
  - rewrite (name_exists_sqlite name self fs c rows) in Hex by assumption.
    rewrite Hdb. simpl. unfold mbind, M_bind.
    rewrite (conn_execute_has_todo self fs c rows) by assumption.
    destruct (List.filter _ rows); [| discriminate]. simpl.
    set (new := {| r_name := name; r_description := description;
                   r_done := adapt_bool false; r_due_date := due |}).
    set (f := fun rows : list row => rows ++ [new]).
    rewrite (conn_execute_write self fs c rows _ f) by (try assumption; reflexivity).
    unfold mret, M_ret.
    assert (visible (write f c rows) fs = Ok (f rows)) as Hv'
      by (eapply visible_write, visible_open, Hv).
    eexists _, _. split; [reflexivity |].
    rewrite (items_sqlite (set_conn self (write f c rows)) fs (write f c rows) (f rows))
      by (try exact Hdb; try exact Hv'; reflexivity).
    rewrite (items_sqlite self fs c rows) by assumption.
    subst f. simpl. rewrite map_app. reflexivity.
Qed.

Lemma X10_witness :
  is_store (fst json_fixture) (snd json_fixture) /\
  name_exists "Todo 5" (fst json_fixture) (snd json_fixture) = false /\
  due_date_str None = Ok "" /\
  exists self' fs',
    add "Todo 5" "buy milk" None (fst json_fixture) (snd json_fixture)
      = (Ok tt, self', fs') /\
    items self' fs'
    = items (fst json_fixture) (snd json_fixture) ++ [new_item "Todo 5" "buy milk" ""].
Proof.
  split; [apply json_fixture_is_store |].
  split; [vm_compute; reflexivity |]. split; [reflexivity |].
  apply (X10_add_appends_the_new_item _ _ "Todo 5" "buy milk" None "").
  - apply json_fixture_is_store.
  - vm_compute; reflexivity.
  - reflexivity.
Defined.

(** X11. One item per name is an invariant of the application.  Starting
    from a store whose items have distinct names, any sequence of [add],
    [remove] and [done] calls, failed ones included, ends in a store whose
    items have distinct names.  The relational table has no key that would
    enforce this; the lookup in [add] does. *)
Theorem X11_names_stay_distinct
  (self : TodoApp) (fs : filesystem) (ops : list op) :
  is_store self fs ->
  NoDup (names self fs) ->
  is_store (fst (session ops self fs)) (snd (session ops self fs)) /\
  NoDup (names (fst (session ops self fs)) (snd (session ops self fs))).
Proof.
  revert self fs. induction ops as [| o ops IH]; intros self fs Hstore Hnd; simpl.
  - split; assumption.
  - destruct (call_keeps_store o self fs Hstore Hnd) as [Hstore' Hnd'].
    destruct (call o self fs) as [[r self1] fs1]. simpl in *.
    apply IH; assumption.
Qed.

Lemma X11_witness :
  let ops := [Add "Todo 5" "" None; Add "Todo 5" "again" None; Remove "Todo 1";
              MarkDone "Todo 3"; MarkDone "Todo 1"] in
  is_store (fst sqlite_fixture) (snd sqlite_fixture) /\
  NoDup (names (fst sqlite_fixture) (snd sqlite_fixture)) /\
  NoDup (names (fst (session ops (fst sqlite_fixture) (snd sqlite_fixture)))
               (snd (session ops (fst sqlite_fixture) (snd sqlite_fixture)))).
Proof.
  intros ops.
  assert (NoDup (names (fst sqlite_fixture) (snd sqlite_fixture))) as Hnd.
  { apply (bool_decide_unpack _). vm_compute. exact I. }
  split; [apply sqlite_fixture_is_store |]. split; [exact Hnd |].
  apply (X11_names_stay_distinct _ _ ops sqlite_fixture_is_store Hnd).
Defined.

(** X12. Listing by name in descending order is the ascending listing read
    backwards, in either backend, as long as no two items share a name. *)
Theorem X12_name_descending_reverses_ascending
  (self : TodoApp) (fs : filesystem) :
  is_store self fs ->
  NoDup (names self fs) ->
  exists l,
    list_ "name" "asc" self fs = (Ok l, self, fs) /\
    list_ "name" "desc" self fs = (Ok (rev l), self, fs).
Proof.
  intros Hstore Hnd.
  destruct (list_ok self fs "name" "asc" Hstore eq_refl eq_refl) as (l & Hl & Hp).
  destruct (list_ok self fs "name" "desc" Hstore eq_refl eq_refl) as (l' & Hl' & Hp').
  exists l. split; [exact Hl |].
  assert (l = rev l') as ->; [| rewrite rev_involutive; exact Hl'].
  apply (Sorted_unique_strong (key_le (getitem "name"))).
  - intros x1 x2 H1 H2 (k1 & k2 & Hk1 & Hk2 & Hle) (k2' & k1' & Hk2' & Hk1' & Hle').
    rewrite Hk1 in Hk1'. rewrite Hk2 in Hk2'.
    injection Hk1' as <-. injection Hk2' as <-.
    rewrite Hp in H1. rewrite <- Permutation_rev, Hp' in H2.
    pose proof (items_name_str self fs Hstore) as Hstr.
    rewrite Forall_forall in Hstr.
    destruct (Hstr _ H1) as [s1 Hs1]. destruct (Hstr _ H2) as [s2 Hs2].
    unfold getitem in Hk1, Hk2. rewrite Hs1 in Hk1. rewrite Hs2 in Hk2.
    injection Hk1 as <-. injection Hk2 as <-.
    pose proof (py_le_str_antisym _ _ Hle Hle') as <-.
    apply (NoDup_map_inj (fun x : pydict => x !! "name") (items self fs));
      [exact Hnd | exact H1 | exact H2 | congruence].
  - apply (list_name_sorted self fs l false Hstore Hl).
  - apply (list_name_sorted self fs l' true Hstore Hl').
  - rewrite Hp, <- Permutation_rev, Hp'. reflexivity.
Qed.

Lemma X12_witness :
  is_store (fst json_fixture) (snd json_fixture) /\
  NoDup (names (fst json_fixture) (snd json_fixture)) /\
  exists l,
    list_ "name" "asc" (fst json_fixture) (snd json_fixture)
      = (Ok l, fst json_fixture, snd json_fixture) /\
    list_ "name" "desc" (fst json_fixture) (snd json_fixture)
      = (Ok (rev l), fst json_fixture, snd json_fixture).
Proof.
  assert (NoDup (names (fst json_fixture) (snd json_fixture))) as Hnd.
  { apply (bool_decide_unpack _). vm_compute. exact I. }
  split; [apply json_fixture_is_store |]. split; [exact Hnd |].
  apply (X12_name_descending_reverses_ascending _ _ json_fixture_is_store Hnd).
Defined.

(** X13. Ties in the document backend.  Whatever the valid sort field and
    order, the listed items that share a value of the sort field appear in
    the order in which the collection holds them; descending order does not
    turn ties around. *)
Theorem X13_json_list_keeps_ties_in_collection_order
  (self : TodoApp) (fs : filesystem) (sort_by sort_order : string) :
  db_type self = "json" ->
  todos_ok (_todos self) = true ->
  is_in sort_by sort_fields = true ->
  is_in sort_order sort_orders = true ->
  exists l,
    list_ sort_by sort_order self fs = (Ok l, self, fs) /\
    forall v, List.filter (field_is sort_by v) l
              = List.filter (field_is sort_by v) (items self fs).
Proof.
  intros Hdb Hok Hsb Hso.
  destruct (list_ok self fs sort_by sort_order (or_introl (conj Hdb Hok)) Hsb Hso)
    as (l & Hl & _).
  exists l. split; [exact Hl |]. intros v.
  unfold list_ in Hl. rewrite Hsb, Hso, Hdb in Hl. simpl in Hl. injection Hl as Hl.
  unfold items. rewrite Hdb. simpl.
  rewrite (filter_ext _ _ (field_is_getitem sort_by v)).
  rewrite (filter_ext _ _ (field_is_getitem sort_by v) (map materialize _)).
  apply (sort_ties (getitem sort_by) _ _ _ v Hl).
Qed.

Lemma X13_witness :
  db_type (fst json_fixture) = "json" /\
  todos_ok (_todos (fst json_fixture)) = true /\
  exists l,
    list_ "done" "desc" (fst json_fixture) (snd json_fixture)
      = (Ok l, fst json_fixture, snd json_fixture) /\
    List.filter (field_is "done" (PBool false)) l
    = List.filter (field_is "done" (PBool false))
        (items (fst json_fixture) (snd json_fixture)).
Proof.
  split; [reflexivity |]. split; [vm_compute; reflexivity |].
  destruct (X13_json_list_keeps_ties_in_collection_order
              (fst json_fixture) (snd json_fixture) "done" "desc")
    as (l & Hl & Hties); try reflexivity.
  exists l. split; [exact Hl | apply Hties].
Defined.

(** X14. Listing by the flag in ascending order shows the items that are
    not done before those that are, in either backend; for the relational
    backend this needs the column to hold what the bool adapter writes. *)
Theorem X14_list_by_done_not_done_first (self : TodoApp) (fs : filesystem) :
  is_store self fs ->
  flags_adapted self fs ->
  exists l,
    list_ "done" "asc" self fs = (Ok l, self, fs) /\
    Permutation l (items self fs) /\
    StronglySorted done_le l.
Proof.
  intros Hstore Hflags.
  destruct (list_ok self fs "done" "asc" Hstore eq_refl eq_refl) as (l & Hl & Hp).
  exists l. split; [exact Hl |]. split; [exact Hp |].
  apply Sorted_StronglySorted; [apply done_le_trans |].
  pose proof Hl as Hl0. unfold list_ in Hl. simpl in Hl.
  pose proof Hstore as Hstore0.
  destruct Hstore as [[Hdb Hok] | [Hdb (c & rows & Hc & Hv)]].
  - rewrite Hdb in Hl. simpl in Hl. injection Hl as Hl.
    apply sorted_done_json.
    + pose proof (items_done_bool self fs Hstore0) as Hall.
      rewrite Forall_forall in *. intros x Hx. apply Hall. rewrite <- Hp. exact Hx.
    + apply (sort_asc_sorted (getitem "done")) in Hl. exact Hl.
  - rewrite Hdb in Hl. simpl in Hl.
    rewrite (conn_execute_select_all self fs c rows) in Hl by assumption.
    injection Hl as Hl. unfold order_by in Hl. simpl in Hl.
    destruct (sort (fun r : row => Ok (column "done" r)) false rows)
      as [l0 |] eqn:Hs; simpl in Hl; [| discriminate].
    injection Hl as <-.
    apply sorted_done_sqlite.
    + specialize (Hflags c rows Hc Hv).
      rewrite Forall_forall in *. intros r Hr. apply Hflags.
      rewrite <- (sort_perm _ _ _ _ Hs). exact Hr.
    + apply sort_asc_sorted in Hs. exact Hs.
Qed.

Lemma X14_witness :
  is_store (fst sqlite_fixture) (snd sqlite_fixture) /\
  flags_adapted (fst sqlite_fixture) (snd sqlite_fixture) /\
  exists l,
    list_ "done" "asc" (fst sqlite_fixture) (snd sqlite_fixture)
      = (Ok l, fst sqlite_fixture, snd sqlite_fixture) /\
    StronglySorted done_le l.
Proof.
  assert (flags_adapted (fst sqlite_fixture) (snd sqlite_fixture)) as Hflags.
  { intros c rows Hc Hv. vm_compute in Hc. injection Hc as <-.
    vm_compute in Hv. injection Hv as <-.
    repeat constructor; first [exists false; reflexivity | exists true; reflexivity]. }
  split; [apply sqlite_fixture_is_store |]. split; [exact Hflags |].
  destruct (X14_list_by_done_not_done_first _ _ sqlite_fixture_is_store Hflags)
    as (l & Hl & _ & Hs).
  exists l. split; assumption.
Defined.

(** ** [main_cli] *)

Module CliFacts.
Import DateTime Sqlite3 Todo Spec Coverage Cli.
Import StoreFacts CoverageFacts.

Section WithRuntime.
Context `{Runtime}.

Lemma display_loop_raises tz (x : pydict) l :
  x ∈ l ->
  (forall maxes, exists e, display_step tz x maxes = Raise e) ->
  forall maxes, exists e, display_loop tz l maxes = Raise e.
Proof.
  intros Hin Hx. induction Hin as [x l | x y l Hin IH]; intros maxes; simpl.
  - destruct (Hx maxes) as [e ->]. exists e. reflexivity.
  - destruct (display_step tz y maxes) as [r | e]; [| exists e; reflexivity].
    simpl. destruct (IH Hx (snd r)) as [e ->]. exists e. reflexivity.
Qed.

Lemma display_step_unreadable tz (x : pydict) s e0 maxes :
  x !! "due_date" = Some (PStr s) ->
  strptime s "%Y-%m-%dT%H:%MZ" = Raise e0 ->
  display_step tz x maxes = Raise e0.
Proof.
  intros Hx Hs. unfold display_step, getitem. rewrite Hx. simpl.
  rewrite Hs. reflexivity.
Qed.

Lemma show_raises tz (x : pydict) l stdout :
  x ∈ l ->
  (forall maxes, exists e, display_step tz x maxes = Raise e) ->
  exists e, show tz l stdout = (Raise e, stdout).
Proof.
  intros Hin Hx. unfold show.
  destruct (display_loop_raises tz x l Hin Hx
              (len "name", len "description", len "due date")) as [e ->].
  destruct l; [inversion Hin |]. exists e. reflexivity.
Qed.

Lemma display_loop_length tz l maxes l' maxes' :
  display_loop tz l maxes = Ok (l', maxes') -> length l' = length l.
Proof.
  revert maxes l' maxes'. induction l as [| x l IH]; intros maxes l' maxes'; simpl.
  - intros [= <- _]. reflexivity.
  - destruct (display_step tz x maxes) as [r | e]; [| discriminate]. simpl.
    destruct (display_loop tz l (snd r)) as [[l1 m1] | e] eqn:Hl; [| discriminate].
    simpl. intros [= <- _]. simpl. f_equal. eapply IH, Hl.
Qed.

Lemma print_rows_length l maxes stdout stdout' :
  print_rows l maxes stdout = (Ok tt, stdout') ->
  length stdout' = (length stdout + length l)%nat.
Proof.
  revert stdout. induction l as [| x l IH]; intros stdout; simpl.
  - intros [= <-]. lia.
  - destruct (row_line x maxes) as [line | e]; [| discriminate].
    intros Hp. apply IH in Hp. rewrite Hp, length_app. simpl. lia.
Qed.

Lemma print_rows_prefix l maxes stdout r stdout' :
  print_rows l maxes stdout = (r, stdout') -> exists lines, stdout' = stdout ++ lines.
Proof.
  revert stdout. induction l as [| x l IH]; intros stdout; simpl.
  - intros [= _ <-]. exists []. symmetry. apply app_nil_r.
  - destruct (row_line x maxes) as [line | e].
    + intros Hp. apply IH in Hp as [lines ->]. exists (line :: lines).
      rewrite <- app_assoc. reflexivity.
    + intros [= _ <-]. exists []. symmetry. apply app_nil_r.
Qed.

Lemma show_length tz l stdout stdout' :
  show tz l stdout = (Ok tt, stdout') ->
  length stdout' = (length stdout + match l with [] => 0 | _ => 1 + length l end)%nat.
Proof.
  unfold show. destruct l as [| x l]; [intros [= <-]; lia |].
  destruct (display_loop tz (x :: l) _) as [[l' [[name_max description_max] due_date_max]] | e]
    eqn:Hl; [| discriminate].
  apply display_loop_length in Hl. simpl ljust. intros Hp.
  apply print_rows_length in Hp. rewrite Hp, Hl. unfold print.
  rewrite length_app. simpl. lia.
Qed.

(** *** The two loops print the table *)

Lemma max_ltb (a b : nat) : (if (a <? b)%nat then b else a) = Nat.max a b.
Proof. destruct (Nat.ltb_spec a b); lia. Qed.

Lemma display_step_ok tz (x x' : pydict) maxes maxes' :
  display_step tz x maxes = Ok (x', maxes') ->
  exists name description due,
    x !! "name" = Some (PStr name) /\
    x !! "description" = Some (PStr description) /\
    (exists s n utc d,
       x !! "due_date" = Some (PStr s) /\
       strptime s "%Y-%m-%dT%H:%MZ" = Ok n /\
       ZoneInfo "UTC" = Ok utc /\
       astimezone (mk_datetime n (Some utc)) tz = Ok d /\
       due = strftime_z d) /\
    x' = <["due_date" := PStr due]> x /\
    maxes' = (Nat.max maxes.1.1 (len name), Nat.max maxes.1.2 (len description),
              Nat.max maxes.2 (len due)).
Proof.
  unfold display_step, getitem, mbind, result_bind.
  destruct (x !! "due_date") as [[| b | z | s] |] eqn:Hdue; simpl; try discriminate.
  destruct (strptime s _) as [n | e] eqn:Hn; simpl; [| discriminate].
  destruct (ZoneInfo "UTC") as [utc | e] eqn:Hutc; simpl; [| discriminate].
  destruct (astimezone _ tz) as [d | e] eqn:Hd; simpl; [| discriminate].
  rewrite lookup_insert_eq, !lookup_insert_ne by discriminate.
  destruct (x !! "name") as [[| b | z | name] |] eqn:Hname; simpl; try discriminate.
  destruct (x !! "description") as [[| b | z | description] |] eqn:Hdesc; simpl;
    try discriminate.
  destruct maxes as [[m1 m2] m3]. rewrite !max_ltb. intros [= <- <-].
  exists name, description, (strftime_z d).
  split; [reflexivity |]. split; [reflexivity |].
  split; [exists s, n, utc, d; auto |]. split; reflexivity.
Qed.

Lemma display_loop_ok tz l maxes l' maxes' :
  display_loop tz l maxes = Ok (l', maxes') ->
  exists names descriptions dues,
    Forall2 (fun x n => x !! "name" = Some (PStr n)) l names /\
    Forall2 (fun x n => x !! "description" = Some (PStr n)) l descriptions /\
    Forall2 (fun x due =>
               exists s n utc d,
                 x !! "due_date" = Some (PStr s) /\
                 strptime s "%Y-%m-%dT%H:%MZ" = Ok n /\
                 ZoneInfo "UTC" = Ok utc /\
                 astimezone (mk_datetime n (Some utc)) tz = Ok d /\
                 due = strftime_z d) l dues /\
    Forall2 (fun x' p => x' = <["due_date" := PStr p.2]> p.1) l' (zip l dues) /\
    maxes' = (foldl Nat.max maxes.1.1 (map len names),
              foldl Nat.max maxes.1.2 (map len descriptions),
              foldl Nat.max maxes.2 (map len dues)).
Proof.
  revert maxes l' maxes'. induction l as [| x l IH]; intros maxes l' maxes'; simpl.
  - intros [= <- <-]. exists [], [], []. destruct maxes as [[m1 m2] m3].
    repeat split; constructor.
  - unfold mbind, result_bind.
    destruct (display_step tz x maxes) as [[x' m1] | e] eqn:Hstep; [| discriminate].
    simpl. destruct (display_loop tz l m1) as [[l1 m2] | e] eqn:Hloop; [| discriminate].
    simpl. intros [= <- <-].
    apply display_step_ok in Hstep
      as (name & description & due & Hname & Hdesc & Hdue & -> & ->).
    apply IH in Hloop as (names & descriptions & dues & Hn & Hd & Hu & Hl & ->).
    exists (name :: names), (description :: descriptions), (due :: dues).
    repeat split; try (constructor; assumption).
    constructor; [reflexivity | exact Hl].
Qed.

Lemma row_line_ok (x : pydict) widths line :
  row_line x widths = Ok line ->
  exists a b c d,
    x !! "name" = Some (PStr a) /\ x !! "description" = Some (PStr b) /\
    x !! "due_date" = Some (PStr c) /\ x !! "done" = Some d /\
    line = table_line widths a b c (str_ d).
Proof.
  unfold row_line, table_line, getitem, mbind, result_bind.
  destruct widths as [[w1 w2] w3].
  destruct (x !! "name") as [[| b0 | z | a] |]; simpl; try discriminate.
  destruct (x !! "description") as [[| b0 | z | b] |]; simpl; try discriminate.
  destruct (x !! "due_date") as [[| b0 | z | c] |]; simpl; try discriminate.
  destruct (x !! "done") as [d |]; simpl; [| discriminate].
  intros [= <-]. exists a, b, c, d. repeat split.
Qed.

Lemma print_rows_ok l widths stdout stdout' :
  print_rows l widths stdout = (Ok tt, stdout') ->
  exists lines, stdout' = stdout ++ lines /\
                Forall2 (fun x line => row_line x widths = Ok line) l lines.
Proof.
  revert stdout. induction l as [| x l IH]; intros stdout; simpl.
  - intros [= <-]. exists []. split; [symmetry; apply app_nil_r | constructor].
  - destruct (row_line x widths) as [line | e] eqn:Hline; [| discriminate].
    intros Hp. apply IH in Hp as (lines & -> & Hall).
    exists (line :: lines). rewrite <- app_assoc. split; [reflexivity |].
    constructor; assumption.
Qed.

Lemma foldl_max_foldr (m : nat) (l : list nat) :
  foldl Nat.max m l = foldr Nat.max m l.
Proof.
  revert m. induction l as [| a l IH]; intros m; simpl; [reflexivity |].
  rewrite IH. clear IH. revert m. induction l as [| b l IH]; intros m; simpl.
  - apply Nat.max_comm.
  - rewrite IH. lia.
Qed.

(** A successful [show] has appended the table of the cells that show the
    items, and nothing when there are none. *)
Lemma show_ok tz l stdout stdout' :
  show tz l stdout = (Ok tt, stdout') ->
  exists rows,
    Forall2 (shows tz) l rows /\
    stdout' = stdout ++ match rows with [] => [] | _ => table rows end.
Proof.
  unfold show. destruct l as [| x0 l0]; [intros [= <-] |].
  { exists []. split; [constructor | symmetry; apply app_nil_r]. }
  remember (x0 :: l0) as l eqn:El.
  destruct (display_loop tz l _) as [[l' widths] | e] eqn:Hloop; [| discriminate].
  apply display_loop_ok in Hloop
    as (names & descriptions & dues & Hn & Hd & Hu & Hl & Hw).
  simpl in Hw. rewrite !foldl_max_foldr in Hw.
  destruct widths as [[w1 w2] w3]. simpl ljust. unfold print. intros Hp.
  apply print_rows_ok in Hp as (lines & -> & Hlines).
  assert (l <> []) as Hne by (rewrite El; discriminate).
  clear El x0 l0.
  assert (exists rows,
            Forall2 (shows tz) l rows /\
            map c_name rows = names /\ map c_description rows = descriptions /\
            map c_due_date rows = dues /\
            lines = map (fun c => table_line (w1, w2, w3) (c_name c) (c_description c)
                                    (c_due_date c) (str_ (c_done c))) rows)
    as (rows & Hrows & En & Ed & Eu & ->).
  { clear Hw Hne.
    revert l' lines names descriptions dues Hn Hd Hu Hl Hlines.
    induction l as [| x l IH]; intros l' lines names descriptions dues Hn Hd Hu Hl Hlines.
    - inversion Hn; subst. inversion Hd; subst. inversion Hu; subst.
      simpl in Hl. inversion Hl; subst. inversion Hlines; subst.
      exists []. repeat split. constructor.
    - inversion Hn as [| ? name ? names' Hn1 Hn2]; subst.
      inversion Hd as [| ? description ? descriptions' Hd1 Hd2]; subst.
      inversion Hu as [| ? due ? dues' Hu1 Hu2]; subst.
      simpl in Hl. inversion Hl as [| x' ? l1 ? Hx' Hl2]; subst.
      inversion Hlines as [| ? line ? lines' Hline Hlines2]; subst.
      destruct (IH _ _ _ _ _ Hn2 Hd2 Hu2 Hl2 Hlines2)
        as (rows & Hrows & En & Ed & Eu & El).
      apply row_line_ok in Hline as (a & b & c & d & Ha & Hb & Hc & Hdone & ->).
      simpl in Ha, Hb, Hc, Hdone.
      rewrite lookup_insert_ne in Ha, Hb, Hdone by discriminate.
      rewrite lookup_insert_eq in Hc.
      rewrite Hn1 in Ha. rewrite Hd1 in Hb.
      injection Ha as <-. injection Hb as <-. injection Hc as <-.
      exists (mk_cells name description due d :: rows). split.
      + constructor; [| exact Hrows].
        repeat split; assumption.
      + cbn [map c_name c_description c_due_date c_done].
        rewrite En, Ed, Eu, <- El. repeat split. }
  exists rows. split; [exact Hrows |].
  destruct rows as [| r rows]; [inversion Hrows; subst; contradiction |].
  unfold table, column_width. rewrite En, Ed, Eu.
  injection Hw as -> -> ->. rewrite <- app_assoc. reflexivity.
Qed.

(** [load] keeps the path and the type, and touches no other file. *)
Lemma load_frame self fs r self' fs' :
  load self fs = (r, self', fs') ->
  db self' = db self /\ db_type self' = db_type self /\
  forall p, p <> db self -> fs' !! p = fs !! p.
Proof.
  unfold load.
  destruct (String.eqb (db_type self) "json").
  { destruct (fs !! db self) as [[doc | t] |]; intros [= _ <- <-]; repeat split. }
  destruct (String.eqb (db_type self) "sqlite3").
  2: { intros [= _ <- <-]. repeat split. }
  unfold connect, execute, executescript_CREATE_TODO_TABLE, commit. simpl.
  destruct (fs !! db self) as [[doc | [rows |]] |] eqn:Hfile; simpl;
    rewrite ?Hfile, ?lookup_insert_eq; simpl; rewrite ?Hfile, ?lookup_insert_eq;
    intros [= _ <- <-]; repeat split; intros p Hp;
    rewrite ?lookup_insert_ne by congruence; reflexivity.
Qed.

Lemma close_frame self fs r self' fs' :
  close self fs = (r, self', fs') ->
  forall p, p <> db self -> fs' !! p = fs !! p.
Proof.
  unfold close, save.
  destruct (String.eqb (db_type self) "json").
  { intros [= _ _ <-] p Hp. apply lookup_insert_ne. congruence. }
  destruct (String.eqb (db_type self) "sqlite3").
  2: { intros [= _ _ <-]. reflexivity. }
  destruct (_conn self); intros [= _ _ <-]; reflexivity.
Qed.

Lemma close_not_json self fs :
  db_type self <> "json" -> snd (close self fs) = fs.
Proof.
  intros Hne. unfold close.
  destruct (String.eqb_spec (db_type self) "json"); [contradiction |].
  destruct (String.eqb (db_type self) "sqlite3"); [| reflexivity].
  destruct (_conn self); reflexivity.
Qed.

Lemma close_json self fs :
  db_type self = "json" ->
  close self fs = (Ok tt, self, <[db self := JsonText (_todos self)]> fs).
Proof. intros Hdb. unfold close, save. rewrite Hdb. reflexivity. Qed.

(** The command branch leaves the files to [close]. *)
Lemma run_command_untouched args tz app fs stdout r app' fs' stdout' :
  run_command args tz app fs stdout = (r, app', fs', stdout') ->
  untouched app app' fs fs'.
Proof.
  unfold run_command.
  destruct (arg_command args) as [command |].
  2: { intros [= _ <- <- _]. apply untouched_refl. }
  destruct (String.eqb command "add").
  { destruct (parse_due_date tz (arg_due_date args)) as [due_date | e].
    2: { intros [= _ <- <- _]. apply untouched_refl. }
    destruct (add _ _ _ app fs) as [[r0 app0] fs0] eqn:Ha.
    intros [= _ <- <- _]. eapply preserves_add, Ha. }
  destruct (String.eqb command "done").
  { destruct (done _ app fs) as [[r0 app0] fs0] eqn:Ha.
    intros [= _ <- <- _]. eapply preserves_done, Ha. }
  destruct (String.eqb command "list").
  { destruct (list_ _ _ app fs) as [[[todos | e] app0] fs0] eqn:Ha.
    - destruct (show tz todos stdout) as [r0 stdout0].
      intros [= _ <- <- _]. eapply preserves_list, Ha.
    - intros [= _ <- <- _]. eapply preserves_list, Ha. }
  destruct (String.eqb command "rm").
  { destruct (remove _ app fs) as [[r0 app0] fs0] eqn:Ha.
    intros [= _ <- <- _]. eapply preserves_remove, Ha. }
  intros [= _ <- <- _]. apply untouched_refl.
Qed.

(** Only the [list] command prints. *)
Lemma run_command_quiet args tz app fs stdout r app' fs' stdout' :
  arg_command args <> Some "list" ->
  run_command args tz app fs stdout = (r, app', fs', stdout') ->
  stdout' = stdout.
Proof.
  intros Hne. unfold run_command.
  destruct (arg_command args) as [command |].
  2: { intros [= _ _ _ <-]. reflexivity. }
  destruct (String.eqb command "add").
  { destruct (parse_due_date tz (arg_due_date args)) as [due_date | e].
    2: { intros [= _ _ _ <-]. reflexivity. }
    destruct (add _ _ _ app fs) as [[r0 app0] fs0].
    intros [= _ _ _ <-]. reflexivity. }
  destruct (String.eqb command "done").
  { destruct (done _ app fs) as [[r0 app0] fs0].
    intros [= _ _ _ <-]. reflexivity. }
  destruct (String.eqb_spec command "list") as [-> | _]; [contradiction |].
  destruct (String.eqb command "rm").
  { destruct (remove _ app fs) as [[r0 app0] fs0].
    intros [= _ _ _ <-]. reflexivity. }
  intros [= _ _ _ <-]. reflexivity.
Qed.

(** [load] of the relational backend on a file that has the table. *)
Lemma load_sqlite3_table path fs rows :
  fs !! path = Some (SqliteDb (Some rows)) ->
  let c := {| database := path; pending := None; closed := false |} in
  load (__init__ path "sqlite3") fs = (Ok tt, set_conn (__init__ path "sqlite3") c, fs) /\
  visible c fs = Ok rows.
Proof.
  intros Hfile c. split.
  - unfold load, connect. simpl. rewrite Hfile. simpl. rewrite ?Hfile. reflexivity.
  - unfold visible. simpl. rewrite Hfile. reflexivity.
Qed.

(** [main_cli] by its stages. *)
Lemma main_cli_stages args fs stdout tz app fs1 :
  ZoneInfo (arg_timezone args) = Ok tz ->
  load (__init__ (arg_db args) (arg_db_type args)) fs = (Ok tt, app, fs1) ->
  main_cli args fs stdout =
  match run_command args tz app fs1 stdout with
  | (Raise e, _, fs2, stdout2) => (Raise e, fs2, stdout2)
  | (Ok _, app2, fs2, stdout2) =>
      let '(r, _, fs3) := close app2 fs2 in (r, fs3, stdout2)
  end.
Proof. intros Htz Hload. unfold main_cli. rewrite Htz, Hload. reflexivity. Qed.

End WithRuntime.

End CliFacts.

Import Cli CliFacts.

(** X15. The [list] command cannot show an item whose stored due date
    [strptime] rejects.  If, once the store is loaded, any of its items has
    such a due date, [main_cli] ends in an exception before it has printed
    a line, the header included, and without reaching [app.close()]: the
    file system stays as [load] left it.  The stored form of no due date,
    the empty string, is such a value whenever [strptime] rejects it. *)
Theorem X15_cli_list_stops_at_unreadable_due_date `{Runtime}
  (args : Namespace) (fs : filesystem) (stdout : list string)
  (tz : tzinfo) (app : TodoApp) (fs1 : filesystem)
  (x : pydict) (s : string) (e0 : exn) :
  arg_command args = Some "list" ->
  ZoneInfo (arg_timezone args) = Ok tz ->
  load (__init__ (arg_db args) (arg_db_type args)) fs = (Ok tt, app, fs1) ->
  is_store app fs1 ->
  x ∈ items app fs1 ->
  x !! "due_date" = Some (PStr s) ->
  strptime s "%Y-%m-%dT%H:%MZ" = Raise e0 ->
  exists e, main_cli args fs stdout = (Raise e, fs1, stdout).
Proof.
  intros Hcmd Htz Hload Hstore Hx Hdue Hs.
  rewrite (main_cli_stages args fs stdout tz app fs1 Htz Hload).
  unfold run_command. rewrite Hcmd. simpl.
  destruct (list_ (arg_sort_by args) (arg_sort_order args) app fs1)
    as [[[l | e] app'] fs'] eqn:Hl.
  - pose proof (preserves_list _ _ _ _ _ _ _ Hl) as (_ & _ & ->).
    assert (x ∈ l) as Hxl.
    { unfold list_ in Hl.
      destruct (is_in (arg_sort_by args) sort_fields) eqn:Hsb; [| discriminate].
      destruct (is_in (arg_sort_order args) sort_orders) eqn:Hso; [| discriminate].
      destruct (list_ok app fs1 _ _ Hstore Hsb Hso) as (l' & Hl' & Hp).
      unfold list_ in Hl'. rewrite Hsb, Hso in Hl'. rewrite Hl' in Hl.
      injection Hl as <- _. rewrite Hp. exact Hx. }
    destruct (show_raises tz x l stdout Hxl) as [e He].
    { intros maxes. exists e0. apply (display_step_unreadable tz x s); assumption. }
    rewrite He. exists e. reflexivity.
  - pose proof (preserves_list _ _ _ _ _ _ _ Hl) as (_ & _ & ->).
    exists e. reflexivity.
Qed.

Lemma X15_witness :
  strptime (Runtime := example_runtime) "" "%Y-%m-%dT%H:%MZ"
    = Raise (ValueError "time data does not match format") /\
  exists e,
    main_cli (H := example_runtime) list_args test_files []
      = (Raise e, test_files, []).
Proof.
  split; [reflexivity |].
  apply (X15_cli_list_stops_at_unreadable_due_date (H := example_runtime)
           list_args test_files [] America_New_York (fst json_fixture) test_files
           (materialize ("Todo 2", {[ "description" := PStr "this is a description of Todo 2";
                                      "done" := PBool true ]})) ""
           (ValueError "time data does not match format")).
  - reflexivity.
  - reflexivity.
  - reflexivity.
  - apply json_fixture_is_store.
  - apply (bool_decide_unpack _). vm_compute. exact I.
  - reflexivity.
  - reflexivity.
Defined.

(** X16. [main_cli] touches no file but the one [--db] names: whatever the
    arguments, the runtime and the outcome, every other path holds
    afterwards what it held before. *)
Theorem X16_cli_touches_only_the_db_file `{Runtime}
  (args : Namespace) (fs : filesystem) (stdout : list string) (p : string) :
  p <> arg_db args ->
  snd (fst (main_cli args fs stdout)) !! p = fs !! p.
Proof.
  intros Hp. unfold main_cli.
  destruct (ZoneInfo (arg_timezone args)) as [tz | e]; [| reflexivity].
  destruct (load _ fs) as [[r app] fs1] eqn:Hload.
  apply load_frame in Hload as (Hdb & _ & Hfs1). simpl in Hdb, Hfs1.
  destruct r as [[] | e]; [| apply Hfs1, Hp].
  destruct (run_command args tz app fs1 stdout) as [[[r app2] fs2] stdout2] eqn:Hrun.
  apply run_command_untouched in Hrun as (Hdb2 & _ & ->).
  destruct r as [[] | e]; [| apply Hfs1, Hp].
  destruct (close app2 fs1) as [[r fs3'] fs3] eqn:Hclose. simpl.
  rewrite (close_frame _ _ _ _ _ Hclose) by congruence.
  apply Hfs1, Hp.
Qed.

Lemma X16_witness :
  "todos.sqlite3" <> arg_db add_args /\
  snd (fst (main_cli (H := example_runtime) add_args test_files []))
    !! "todos.sqlite3" = test_files !! "todos.sqlite3".
Proof.
  assert ("todos.sqlite3" <> arg_db add_args) as Hne by discriminate.
  split; [exact Hne |].
  apply (X16_cli_touches_only_the_db_file (H := example_runtime)
           add_args test_files [] "todos.sqlite3" Hne).
Defined.

(** X17. The command line on a relational database that has the table.
    Whatever the command, [main_cli] hands back the file system it was
    given.  In particular an [add] of a name that no row has, with a due
    date that parses, completes without an exception and prints nothing,
    and the file holds the rows it held before. *)
Theorem X17_cli_sqlite3_leaves_the_table `{Runtime}
  (args : Namespace) (fs : filesystem) (stdout : list string) (rows : list row) :
  arg_db_type args = "sqlite3" ->
  fs !! arg_db args = Some (SqliteDb (Some rows)) ->
  snd (fst (main_cli args fs stdout)) = fs /\
  (forall tz due_date due,
     arg_command args = Some "add" ->
     ZoneInfo (arg_timezone args) = Ok tz ->
     parse_due_date tz (arg_due_date args) = Ok due_date ->
     due_date_str due_date = Ok due ->
     List.filter (fun r => String.eqb (r_name r) (arg_name args)) rows = [] ->
     main_cli args fs stdout = (Ok tt, fs, stdout)).
Proof.
  intros Htype Hfile.
  destruct (load_sqlite3_table (arg_db args) fs rows Hfile) as [Hload Hv].
  set (c := {| database := arg_db args; pending := None; closed := false |}) in *.
  set (app := set_conn (__init__ (arg_db args) "sqlite3") c) in *.
  split.
  - unfold main_cli. rewrite Htype, Hload.
    destruct (ZoneInfo (arg_timezone args)) as [tz | e]; [| reflexivity].
    destruct (run_command args tz app fs stdout) as [[[r app2] fs2] stdout2] eqn:Hrun.
    apply run_command_untouched in Hrun as (_ & Hty & ->).
    destruct r as [[] | e]; [| reflexivity].
    pose proof (close_not_json app2 fs) as Hclose.
    destruct (close app2 fs) as [[r app3] fs3]. simpl in *. apply Hclose.
    rewrite Hty. discriminate.
  - intros tz due_date due Hcmd Htz Hparse Hdue Hnew.
    assert (is_store app fs) as Hstore.
    { right. split; [reflexivity |]. exists c, rows. split; [reflexivity | exact Hv]. }
    assert (name_exists (arg_name args) app fs = false) as Hex.
    { rewrite (name_exists_sqlite _ app fs c rows) by (try exact Hv; reflexivity).
      rewrite Hnew. reflexivity. }
    destruct (add_new app fs (arg_name args) (arg_description args) due_date due
                Hstore Hex Hdue) as (app2 & fs2 & x & Hadd & Hstore2 & _).
    pose proof (preserves_add _ _ _ _ _ _ _ _ Hadd) as (_ & Hty & ->).
    assert (load (__init__ (arg_db args) (arg_db_type args)) fs = (Ok tt, app, fs))
      as Hload' by (rewrite Htype; exact Hload).
    rewrite (main_cli_stages args fs stdout tz app fs Htz Hload').
    unfold run_command. rewrite Hcmd. simpl. rewrite Hparse, Hadd.
    destruct Hstore2 as [[Hj _] | [Hs (c2 & rows2 & Hc2 & _)]].
    + rewrite Hty in Hj. discriminate.
    + unfold close. rewrite Hs, Hc2. reflexivity.
Qed.

Lemma X17_witness :
  arg_db_type add_sqlite3_args = "sqlite3" /\
  test_files !! arg_db add_sqlite3_args = Some (SqliteDb (Some test_rows)) /\
  main_cli (H := example_runtime) add_sqlite3_args test_files []
    = (Ok tt, test_files, []).
Proof.
  split; [reflexivity |]. split; [reflexivity |].
  destruct (X17_cli_sqlite3_leaves_the_table (H := example_runtime)
              add_sqlite3_args test_files [] test_rows eq_refl eq_refl) as [_ Hadd].
  apply (Hadd America_New_York
           (Some (mk_datetime (mk_naive 2024 11 5 9 30 0) (Some America_New_York)))
           "2024-11-05T14:30Z"); reflexivity.
Defined.

(** X18. The [add] command on a document file.  With a name the document
    does not hold and a due date that parses, [main_cli] completes without
    an exception and prints nothing, and a fresh object loaded from the
    file it leaves shows the items the file showed before, in the same
    order, followed by the new item with the due date in its stored form. *)
Theorem X18_cli_add_is_saved_in_the_document `{Runtime}
  (args : Namespace) (fs : filesystem) (stdout : list string)
  (tz : tzinfo) (doc : list (string * pydict))
  (due_date : option datetime) (due : string) :
  arg_command args = Some "add" ->
  arg_db_type args = "json" ->
  ZoneInfo (arg_timezone args) = Ok tz ->
  fs !! arg_db args = Some (JsonText doc) ->
  od_get (arg_name args) doc = None ->
  parse_due_date tz (arg_due_date args) = Ok due_date ->
  due_date_str due_date = Ok due ->
  exists fs',
    main_cli args fs stdout = (Ok tt, fs', stdout) /\
    let before := loaded (arg_db args) "json" fs in
    let after := loaded (arg_db args) "json" fs' in
    items (fst after) (snd after)
    = items (fst before) (snd before)
      ++ [new_item (arg_name args) (arg_description args) due].
Proof.
  intros Hcmd Htype Htz Hfile Hnew Hparse Hdue.
  assert (load (__init__ (arg_db args) (arg_db_type args)) fs
          = (Ok tt, set_todos (__init__ (arg_db args) "json") doc, fs)) as Hload.
  { rewrite Htype. unfold load. simpl. rewrite Hfile. reflexivity. }
  rewrite (main_cli_stages args fs stdout tz _ fs Htz Hload).
  unfold run_command. rewrite Hcmd. simpl. rewrite Hparse.
  unfold add. rewrite Hdue. simpl. rewrite Hnew. simpl.
  eexists. split; [reflexivity |].
  unfold loaded, load. simpl. rewrite lookup_insert_eq, Hfile.
  unfold items. simpl.
  rewrite od_set_new by exact Hnew. rewrite map_app. reflexivity.
Qed.

Lemma X18_witness :
  exists fs',
    main_cli (H := example_runtime) add_args test_files [] = (Ok tt, fs', []) /\
    items (fst (loaded "todos.json" "json" fs')) (snd (loaded "todos.json" "json" fs'))
    = items (fst json_fixture) (snd json_fixture)
      ++ [new_item "Todo 5" "buy milk" "2024-11-05T14:30Z"].
Proof.
  apply (X18_cli_add_is_saved_in_the_document (H := example_runtime)
           add_args test_files [] America_New_York test_todos
           (Some (mk_datetime (mk_naive 2024 11 5 9 30 0) (Some America_New_York)))
           "2024-11-05T14:30Z"); reflexivity.
Defined.

(** X19. The document file is written exactly when the command succeeds.
    With the json type, a [main_cli] that ends in an exception, whichever
    it is and wherever it was raised, hands back the file system it was
    given; one that completes has replaced the [--db] file by a document
    and changed nothing else. *)
Theorem X19_cli_json_saves_only_on_success `{Runtime}
  (args : Namespace) (fs fs' : filesystem) (stdout stdout' : list string)
  (r : result unit) :
  arg_db_type args = "json" ->
  main_cli args fs stdout = (r, fs', stdout') ->
  match r with
  | Raise _ => fs' = fs
  | Ok _ => exists doc, fs' = <[arg_db args := JsonText doc]> fs
  end.
Proof.
  intros Htype. unfold main_cli.
  destruct (ZoneInfo (arg_timezone args)) as [tz | e]; [| intros [= <- <- _]; reflexivity].
  destruct (load _ fs) as [[r1 app] fs1] eqn:Hload.
  assert (fs1 = fs /\ db app = arg_db args /\ db_type app = "json") as (-> & Hdb & Hty).
  { rewrite Htype in Hload. unfold load in Hload. simpl in Hload.
    destruct (fs !! arg_db args) as [[doc | t] |]; injection Hload as _ <- <-;
      repeat split. }
  destruct r1 as [[] | e]; [| intros [= <- <- _]; reflexivity].
  destruct (run_command args tz app fs stdout) as [[[r2 app2] fs2] stdout2] eqn:Hrun.
  apply run_command_untouched in Hrun as (Hdb2 & Hty2 & ->).
  destruct r2 as [[] | e]; [| intros [= <- <- _]; reflexivity].
  rewrite close_json by congruence. intros [= <- <- _].
  exists (_todos app2). congruence.
Qed.

Lemma X19_witness :
  arg_db_type done_args = "json" /\
  main_cli (H := example_runtime) done_args test_files []
    = (Raise not_found, test_files, []).
Proof.
  split; [reflexivity |].
  destruct (main_cli (H := example_runtime) done_args test_files [])
    as [[r fs'] stdout'] eqn:Hmain.
  pose proof (X19_cli_json_saves_only_on_success (H := example_runtime)
                done_args test_files fs' [] stdout' r eq_refl Hmain) as Hfs.
  assert (main_cli (H := example_runtime) done_args test_files []
          = (Raise not_found, test_files, [])) as Hrun by (vm_compute; reflexivity).
  rewrite Hrun in Hmain. injection Hmain as <- _ <-.
  simpl in Hfs. rewrite Hfs. reflexivity.
Defined.

(** X20. What [main_cli] prints.  A command other than [list] prints
    nothing, whether it succeeds or not.  A [list] that completes has kept
    what was printed before and added nothing at all when the store is
    empty; otherwise it has added the table of the listed items: the header
    line, then one line for each item in the order [list] returned them,
    made of the item's name, its description, its due date read as UTC and
    written in the requested zone, and its flag, the first three filled up
    to the width of their column. *)
Theorem X20_cli_prints_the_table `{Runtime}
  (args : Namespace) (fs : filesystem) (stdout : list string) :
  (arg_command args <> Some "list" ->
   snd (main_cli args fs stdout) = stdout) /\
  (forall tz app fs1 fs' stdout',
     arg_command args = Some "list" ->
     ZoneInfo (arg_timezone args) = Ok tz ->
     load (__init__ (arg_db args) (arg_db_type args)) fs = (Ok tt, app, fs1) ->
     is_store app fs1 ->
     main_cli args fs stdout = (Ok tt, fs', stdout') ->
     exists l rows,
       list_ (arg_sort_by args) (arg_sort_order args) app fs1 = (Ok l, app, fs1) /\
       Permutation l (items app fs1) /\
       Forall2 (shows tz) l rows /\
       stdout' = stdout ++ match rows with [] => [] | _ => table rows end /\
       length stdout' =
       (length stdout + match items app fs1 with
                        | [] => 0
                        | _ => 1 + length (items app fs1)
                        end)%nat).
Proof.
  split.
  - intros Hne. unfold main_cli.
    destruct (ZoneInfo (arg_timezone args)) as [tz | e]; [| reflexivity].
    destruct (load _ fs) as [[[[] | e] app] fs1]; [| reflexivity].
    destruct (run_command args tz app fs1 stdout) as [[[r app2] fs2] stdout2] eqn:Hrun.
    apply (run_command_quiet _ _ _ _ _ _ _ _ _ Hne) in Hrun as ->.
    destruct r as [[] | e]; [| reflexivity].
    destruct (close app2 fs2) as [[r fs3'] fs3]. reflexivity.
  - intros tz app fs1 fs' stdout' Hcmd Htz Hload Hstore.
    unfold main_cli. rewrite Htz, Hload.
    unfold run_command. rewrite Hcmd. simpl.
    destruct (list_ (arg_sort_by args) (arg_sort_order args) app fs1)
      as [[[l | e] app'] fs2] eqn:Hl; [| discriminate].
    pose proof (preserves_list _ _ _ _ _ _ _ Hl) as (_ & _ & ->).
    assert (app' = app /\ Permutation l (items app fs1)) as [-> Hp].
    { unfold list_ in Hl.
      destruct (is_in (arg_sort_by args) sort_fields) eqn:Hsb; [| discriminate].
      destruct (is_in (arg_sort_order args) sort_orders) eqn:Hso; [| discriminate].
      destruct (list_ok app fs1 _ _ Hstore Hsb Hso) as (l' & Hl' & Hp).
      unfold list_ in Hl'. rewrite Hsb, Hso in Hl'. rewrite Hl' in Hl.
      injection Hl as <- <-. split; [reflexivity | exact Hp]. }
    destruct (show tz l stdout) as [[[] | e] stdout2] eqn:Hshow; [| discriminate].
    destruct (close app fs1) as [[r fs3'] fs3]. intros [= _ _ <-].
    pose proof (show_length _ _ _ _ Hshow) as Hlen.
    apply show_ok in Hshow as (rows & Hrows & Hout).
    exists l, rows. repeat split; try assumption.
    rewrite Hlen, <- (Permutation_length Hp).
    destruct l as [| x l].
    + apply Permutation_nil in Hp. rewrite Hp. reflexivity.
    + destruct (items app fs1) as [| y ys] eqn:Hi.
      * symmetry in Hp. apply Permutation_nil in Hp. discriminate.
      * reflexivity.
Qed.

Lemma X20_witness :
  main_cli (H := example_runtime) list_args dated_files []
  = (Ok tt, dated_files,
     ["Name    Description                      Due Date               Done";
      "Todo 1  This is a description of Todo 1  2024-10-10T13:00-0400  False";
      "Todo 3  This is a description of Todo 3  2024-10-08T10:00-0400  False";
      "Todo 4  This is a description of Todo 4  2024-10-20T18:00-0400  False"]) /\
  exists l rows,
    Forall2 (shows (H := example_runtime) America_New_York) l rows /\
    ["Name    Description                      Due Date               Done";
     "Todo 1  This is a description of Todo 1  2024-10-10T13:00-0400  False";
     "Todo 3  This is a description of Todo 3  2024-10-08T10:00-0400  False";
     "Todo 4  This is a description of Todo 4  2024-10-20T18:00-0400  False"]
    = [] ++ match rows with [] => [] | _ => table (H := example_runtime) rows end.
Proof.
  assert (main_cli (H := example_runtime) list_args dated_files []
          = (Ok tt, dated_files,
             ["Name    Description                      Due Date               Done";
              "Todo 1  This is a description of Todo 1  2024-10-10T13:00-0400  False";
              "Todo 3  This is a description of Todo 3  2024-10-08T10:00-0400  False";
              "Todo 4  This is a description of Todo 4  2024-10-20T18:00-0400  False"]))
    as Hmain by (vm_compute; reflexivity).
  split; [exact Hmain |].
  destruct (X20_cli_prints_the_table (H := example_runtime) list_args dated_files [])
    as [_ Hlist].
  destruct (Hlist America_New_York
              (fst (loaded "todos.json" "json" dated_files)) dated_files dated_files _
              eq_refl eq_refl eq_refl
              (or_introl (conj eq_refl eq_refl)) Hmain)
    as (l & rows & _ & _ & Hrows & Hout & _).
  exists l, rows. split; assumption.
Defined.
